(** * finance-back: the extraction and classification engine

    A shallow embedding of [src/config.js], [src/utils/textProcessing.js],
    [src/database.js] and of the expense and receipt controllers, together
    with the parts of the JavaScript runtime they rely on (strings of UTF-16
    code units, backtracking regular expressions, calendar dates). *)

From Stdlib Require Import String Ascii.
From Stdlib Require Import List NArith ZArith Lia Bool Arith.
Import ListNotations.

(* ===================================================================== *)
(** ** JavaScript strings *)
(* ===================================================================== *)

(** A JavaScript string is a sequence of UTF-16 code units. *)
Definition jsstring := list N.

Module JSString.

Local Open Scope N_scope.

(** Source literals are written as Rocq strings (UTF-8 bytes) and decoded
    to code units; code points above U+FFFF become surrogate pairs. *)
Fixpoint utf16_of_utf8 (bs : list N) : jsstring :=
  match bs with
  | [] => []
  | b0 :: rest =>
    if b0 <? 128 then b0 :: utf16_of_utf8 rest
    else if b0 <? 224 then
      match rest with
      | b1 :: rest1 => ((b0 mod 32) * 64 + b1 mod 64) :: utf16_of_utf8 rest1
      | [] => [65533]
      end
    else if b0 <? 240 then
      match rest with
      | b1 :: b2 :: rest2 =>
        ((b0 mod 16) * 4096 + (b1 mod 64) * 64 + b2 mod 64) :: utf16_of_utf8 rest2
      | _ => [65533]
      end
    else
      match rest with
      | b1 :: b2 :: b3 :: rest3 =>
        let cp := (b0 mod 8) * 262144 + (b1 mod 64) * 4096 + (b2 mod 64) * 64 + b3 mod 64 in
        let v := cp - 65536 in
        (55296 + v / 1024) :: (56320 + v mod 1024) :: utf16_of_utf8 rest3
      | _ => [65533]
      end
  end.

Definition js (s : string) : jsstring :=
  utf16_of_utf8 (map N_of_ascii (list_ascii_of_string s)).

(** The line feed, written [\n] in the sources. *)
Definition newline : jsstring := [10].

Definition jseqb (a b : jsstring) : bool :=
  if list_eq_dec N.eq_dec a b then true else false.

(** WhiteSpace and LineTerminator code units: what [trim] strips and what
    the class escape [\s] matches. *)
Definition isLineTerminator (c : N) : bool :=
  (c =? 10) || (c =? 13) || (c =? 8232) || (c =? 8233).

Definition isWhiteSpace (c : N) : bool :=
  ((9 <=? c) && (c <=? 13)) || (c =? 32) || (c =? 160) || (c =? 5760)
  || ((8192 <=? c) && (c <=? 8202)) || (c =? 8232) || (c =? 8233)
  || (c =? 8239) || (c =? 8287) || (c =? 12288) || (c =? 65279).

(** Case mapping.  The tables cover the Basic Latin and Latin-1 blocks (the
    blocks that the lexicon and the patterns use) and the code units outside
    them whose mapping lands inside them; every other code unit is left as
    it is. *)
Definition lowerUnit (c : N) : jsstring :=
  if (65 <=? c) && (c <=? 90) then [c + 32]
  else if (192 <=? c) && (c <=? 222) && negb (c =? 215) then [c + 32]
  else if c =? 304 then [105; 775]
  else if c =? 376 then [255]
  else if c =? 7838 then [223]
  else if c =? 8490 then [107]
  else if c =? 8491 then [229]
  else [c].

Definition upperUnit (c : N) : jsstring :=
  if (97 <=? c) && (c <=? 122) then [c - 32]
  else if (224 <=? c) && (c <=? 254) && negb (c =? 247) then [c - 32]
  else if c =? 223 then [83; 83]
  else if c =? 255 then [376]
  else if c =? 181 then [924]
  else [c].

Definition toLowerCase (s : jsstring) : jsstring := flat_map lowerUnit s.
Definition toUpperCase (s : jsstring) : jsstring := flat_map upperUnit s.

(** [s.startsWith(p)] and [s.includes(p)]. *)
Fixpoint startsWith (s p : jsstring) : bool :=
  match p, s with
  | [], _ => true
  | _ :: _, [] => false
  | a :: p', b :: s' => (a =? b) && startsWith s' p'
  end.

Fixpoint includes (s p : jsstring) : bool :=
  startsWith s p ||
  match s with
  | [] => false
  | _ :: s' => includes s' p
  end.

(** [s.trim()]. *)
Fixpoint trimStart (s : jsstring) : jsstring :=
  match s with
  | c :: s' => if isWhiteSpace c then trimStart s' else s
  | [] => []
  end.

Definition trimEnd (s : jsstring) : jsstring := rev (trimStart (rev s)).
Definition trim (s : jsstring) : jsstring := trimEnd (trimStart s).

(** [s.replace(p, r)] with a string pattern: the first occurrence only. *)
Fixpoint replaceFirst (s p r : jsstring) : jsstring :=
  if startsWith s p then r ++ skipn (length p) s
  else match s with
       | [] => []
       | c :: s' => c :: replaceFirst s' p r
       end.

(** [s.substring(a, b)] for [a <= b], [s.slice(a)], [s.charAt(i)]. *)
Definition substring (s : jsstring) (a b : nat) : jsstring :=
  firstn (b - a) (skipn a s).

Definition slice (s : jsstring) (a : nat) : jsstring := skipn a s.

Definition charAt (s : jsstring) (i : nat) : jsstring := firstn 1 (skipn i s).

(** [s.padStart(n, fill)]. *)
Fixpoint cycle (fill cur : jsstring) (n : nat) : jsstring :=
  match n with
  | O => []
  | S n' =>
    match cur with
    | c :: cur' => c :: cycle fill cur' n'
    | [] => match fill with
            | c :: cur' => c :: cycle fill cur' n'
            | [] => []
            end
    end
  end.

Definition padStart (s : jsstring) (n : nat) (fill : jsstring) : jsstring :=
  if (n <=? length s)%nat then s else cycle fill fill (n - length s) ++ s.

(** Numbers.  The engine only meets integers and [NaN]: [None] is [NaN]. *)
Definition jsnumber := option Z.

(** Decimal digits of a natural number, most significant first. *)
Fixpoint digitsOfUint (u : Decimal.uint) : jsstring :=
  match u with
  | Decimal.Nil => []
  | Decimal.D0 u' => 48 :: digitsOfUint u'
  | Decimal.D1 u' => 49 :: digitsOfUint u'
  | Decimal.D2 u' => 50 :: digitsOfUint u'
  | Decimal.D3 u' => 51 :: digitsOfUint u'
  | Decimal.D4 u' => 52 :: digitsOfUint u'
  | Decimal.D5 u' => 53 :: digitsOfUint u'
  | Decimal.D6 u' => 54 :: digitsOfUint u'
  | Decimal.D7 u' => 55 :: digitsOfUint u'
  | Decimal.D8 u' => 56 :: digitsOfUint u'
  | Decimal.D9 u' => 57 :: digitsOfUint u'
  end.

Definition decimalOfN (n : N) : jsstring := digitsOfUint (N.to_uint n).

(** [String(x)] for an integer or [NaN]. *)
Definition stringOfNumber (x : jsnumber) : jsstring :=
  match x with
  | None => js "NaN"
  | Some z => if (z <? 0)%Z then 45 :: decimalOfN (Z.to_N (- z))
              else decimalOfN (Z.to_N z)
  end.

Definition isDigit (c : N) : bool := (48 <=? c) && (c <=? 57).

Fixpoint readDigits (s : jsstring) (acc : N) : N :=
  match s with
  | c :: s' => if isDigit c then readDigits s' (acc * 10 + (c - 48)) else acc
  | [] => acc
  end.

(** [parseInt(s, 10)]: leading white space, an optional sign, then the
    longest run of decimal digits; [NaN] when there is none. *)
Definition parseInt10 (s : jsstring) : jsnumber :=
  let t := trimStart s in
  let '(neg, body) :=
    match t with
    | 45 :: t' => (true, t')
    | 43 :: t' => (false, t')
    | _ => (false, t)
    end in
  match body with
  | c :: _ =>
    if isDigit c then
      let v := Z.of_N (readDigits body 0) in
      Some (if neg then (- v)%Z else v)
    else None
  | [] => None
  end.

(** [s.split(sep)] for a separator of one code unit: the pieces between
    its occurrences, in order; a string without the separator is its own
    only piece, the empty string included. *)
Fixpoint split (s : jsstring) (sep : N) : list jsstring :=
  match s with
  | [] => [[]]
  | c :: s' =>
    if c =? sep then [] :: split s' sep
    else match split s' sep with
         | piece :: pieces => (c :: piece) :: pieces
         | [] => [[c]]
         end
  end.

(** [parseInt(s)] without a radix: [parseInt(s, 10)], except that the
    prefix [0x] or [0X] selects base 16. *)
Definition hexValue (c : N) : option N :=
  if isDigit c then Some (c - 48)
  else if (97 <=? c) && (c <=? 102) then Some (c - 87)
  else if (65 <=? c) && (c <=? 70) then Some (c - 55)
  else None.

Fixpoint readHexDigits (s : jsstring) (acc : N) : N :=
  match s with
  | c :: s' =>
    match hexValue c with
    | Some v => readHexDigits s' (acc * 16 + v)
    | None => acc
    end
  | [] => acc
  end.

Definition parseInt (s : jsstring) : jsnumber :=
  let t := trimStart s in
  let '(neg, body) :=
    match t with
    | 45 :: t' => (true, t')
    | 43 :: t' => (false, t')
    | _ => (false, t)
    end in
  match body with
  | 48 :: x :: rest =>
    if (x =? 120) || (x =? 88) then
      match rest with
      | c :: _ =>
        match hexValue c with
        | Some _ =>
          let v := Z.of_N (readHexDigits rest 0) in
          Some (if neg then (- v)%Z else v)
        | None => None
        end
      | [] => None
      end
    else parseInt10 s
  | _ => parseInt10 s
  end.

End JSString.
Import JSString.

(* ===================================================================== *)
(** ** JavaScript regular expressions *)
(* ===================================================================== *)

(** The backtracking matcher of ECMA-262 (section "RegExp semantics"),
    written in the list-of-successes style: a matcher maps a state to the
    states it can end in, in the order in which backtracking tries them, so
    that the head of the list is the match the runtime reports. *)
Module RegExp.

Inductive ClassAtom : Type :=
| ClassChar (c : N)              (* a single character *)
| ClassRange (lo hi : N)         (* lo-hi *)
| ClassDigit                     (* \d *)
| ClassWord                      (* \w *)
| ClassSpace.                    (* \s *)

Inductive regex : Type :=
| Empty
| Char (c : N)
| Class (invert : bool) (atoms : list ClassAtom)
| Dot
| Seq (r1 r2 : regex)
| Alt (r1 r2 : regex)
| Repeat (min : nat) (max : option nat) (greedy : bool) (r : regex)
| Group (k : nat) (r : regex)
| AssertBegin
| AssertEnd.

(** Surface syntax helpers. *)
Fixpoint Lit (s : jsstring) : regex :=
  match s with
  | [] => Empty
  | [c] => Char c
  | c :: s' => Seq (Char c) (Lit s')
  end.

Fixpoint Seqs (rs : list regex) : regex :=
  match rs with
  | [] => Empty
  | [r] => r
  | r :: rs' => Seq r (Seqs rs')
  end.

Fixpoint Alts (rs : list regex) : regex :=
  match rs with
  | [] => Empty
  | [r] => r
  | r :: rs' => Alt r (Alts rs')
  end.

Definition Star (r : regex) : regex := Repeat 0 None true r.
Definition Plus (r : regex) : regex := Repeat 1 None true r.
Definition LazyPlus (r : regex) : regex := Repeat 1 None false r.
Definition Opt (r : regex) : regex := Repeat 0 (Some 1) true r.
Definition Between (lo hi : nat) (r : regex) : regex := Repeat lo (Some hi) true r.

(** Capture groups that occur in a term: a [Repeat] resets them at the start
    of every iteration. *)
Fixpoint groupsOf (r : regex) : list nat :=
  match r with
  | Seq a b | Alt a b => groupsOf a ++ groupsOf b
  | Repeat _ _ _ a => groupsOf a
  | Group k a => k :: groupsOf a
  | _ => []
  end.

Definition groupCount (r : regex) : nat := fold_right Nat.max 0 (groupsOf r).

(** Two syntactic checks used to reason about patterns.  [consumes r]: every
    match of [r] takes at least one character.  [definesGroup k r]: every
    match of [r] leaves capture [k] on a non-empty range. *)
Fixpoint consumes (r : regex) : bool :=
  match r with
  | Char _ | Class _ _ | Dot => true
  | Seq a b => consumes a || consumes b
  | Alt a b => consumes a && consumes b
  | Repeat min max _ a =>
    match max with
    | Some O => false
    | _ => negb (Nat.eqb min 0) && consumes a
    end
  | Group _ a => consumes a
  | _ => false
  end.

(** The capture groups of a term with their bodies. *)
Fixpoint groupBodies (r : regex) : list (nat * regex) :=
  match r with
  | Seq a b | Alt a b => groupBodies a ++ groupBodies b
  | Repeat _ _ _ a => groupBodies a
  | Group k a => (k, a) :: groupBodies a
  | _ => []
  end.

Fixpoint definesGroup (k : nat) (r : regex) : bool :=
  match r with
  | Seq a b =>
    (definesGroup k a && negb (existsb (Nat.eqb k) (groupsOf b))) || definesGroup k b
  | Alt a b => definesGroup k a && definesGroup k b
  | Group j a => if Nat.eqb j k then consumes a else definesGroup k a
  | _ => false
  end.

Record MatchState : Type := mkState {
  endIndex : nat;
  captures : nat -> option (nat * nat)
}.

Definition setCapture (k : nat) (v : option (nat * nat)) (x : MatchState) : MatchState :=
  mkState (endIndex x) (fun j => if Nat.eqb j k then v else captures x j).

Definition clearCaptures (ks : list nat) (x : MatchState) : MatchState :=
  mkState (endIndex x)
          (fun j => if existsb (Nat.eqb j) ks then None else captures x j).

Definition isWordChar (c : N) : bool :=
  (((97 <=? c) && (c <=? 122)) || ((65 <=? c) && (c <=? 90))
   || ((48 <=? c) && (c <=? 57)) || (c =? 95))%N.

Definition atomContains (a : ClassAtom) (c : N) : bool :=
  match a with
  | ClassChar x => (c =? x)%N
  | ClassRange lo hi => ((lo <=? c) && (c <=? hi))%N
  | ClassDigit => isDigit c
  | ClassWord => isWordChar c
  | ClassSpace => isWhiteSpace c
  end.

Definition setContains (atoms : list ClassAtom) (c : N) : bool :=
  existsb (fun a => atomContains a c) atoms.

Section Matcher.

Variable ignoreCase : bool.
Variable input : jsstring.

(** Canonicalize (non-unicode mode): under the [i] flag a code unit is
    compared through its upper-case form when that is a single code unit,
    except that a non-ASCII unit never folds to an ASCII one. *)
Definition canonicalize (ch : N) : N :=
  if ignoreCase then
    match upperUnit ch with
    | [cu] => if ((128 <=? ch) && (cu <? 128))%N then ch else cu
    | _ => ch
    end
  else ch.

(** The code units that canonicalize to [u]: the only possible members of a
    set that can stand for a character whose canonical form is [u]. *)
Definition foldsTo (u : N) : list N :=
  if negb ignoreCase then [u]
  else if ((65 <=? u) && (u <=? 90))%N then [u; (u + 32)%N]
  else if ((192 <=? u) && (u <=? 222) && negb (u =? 215))%N then [u; (u + 32)%N]
  else if (u =? 376)%N then [u; 255%N]
  else if (u =? 924)%N then [u; 181%N]
  else [u].

(** CharacterSetMatcher: [ch] is accepted when some member [a] of the set
    has the same canonical form. *)
Definition setAccepts (atoms : list ClassAtom) (invert : bool) (ch : N) : bool :=
  let cc := canonicalize ch in
  let found :=
    existsb (fun a => setContains atoms a && (canonicalize a =? cc)%N)
            (ch :: foldsTo cc) in
  xorb invert found.

Definition charStep (accept : N -> bool) (x : MatchState) : list MatchState :=
  match nth_error input (endIndex x) with
  | Some ch => if accept ch then [mkState (S (endIndex x)) (captures x)] else []
  | None => []
  end.

(** RepeatMatcher.  [fuel] bounds the depth of the recursion; an iteration
    that is not owed to [min] must consume input, so
    [min + (length input - endIndex x) + 1] is always enough. *)
Fixpoint repeatMatcher (m : MatchState -> list MatchState) (parens : list nat)
         (greedy : bool) (fuel : nat) (min : nat) (max : option nat)
         (x : MatchState) : list MatchState :=
  match max with
  | Some O => [x]
  | _ =>
    match fuel with
    | O => []
    | S fuel' =>
      let d := fun y : MatchState =>
        if Nat.eqb min 0 && Nat.eqb (endIndex y) (endIndex x) then []
        else repeatMatcher m parens greedy fuel' (Nat.pred min)
                           (option_map Nat.pred max) y in
      let xr := clearCaptures parens x in
      if negb (Nat.eqb min 0) then flat_map d (m xr)
      else if greedy then flat_map d (m xr) ++ [x]
      else x :: flat_map d (m xr)
    end
  end.

Fixpoint matchR (r : regex) (x : MatchState) : list MatchState :=
  match r with
  | Empty => [x]
  | Char c => charStep (fun ch => (canonicalize ch =? canonicalize c)%N) x
  | Class invert atoms => charStep (setAccepts atoms invert) x
  | Dot => charStep (fun ch => negb (isLineTerminator ch)) x
  | Seq a b => flat_map (matchR b) (matchR a x)
  | Alt a b => matchR a x ++ matchR b x
  | Repeat min max greedy a =>
    repeatMatcher (matchR a) (groupsOf a) greedy
                  (min + (length input - endIndex x) + 1) min max x
  | Group k a =>
    map (fun y => setCapture k (Some (endIndex x, endIndex y)) y) (matchR a x)
  | AssertBegin => if Nat.eqb (endIndex x) 0 then [x] else []
  | AssertEnd => if Nat.eqb (endIndex x) (length input) then [x] else []
  end.

Definition initialState (i : nat) : MatchState := mkState i (fun _ => None).

(** RegExpBuiltinExec without the [g] and [y] flags: the first start index,
    from 0 upwards, at which the pattern matches. *)
Fixpoint searchFrom (r : regex) (i fuel : nat) : option (nat * MatchState) :=
  match matchR r (initialState i) with
  | y :: _ => Some (i, y)
  | [] => match fuel with
          | O => None
          | S fuel' => searchFrom r (S i) fuel'
          end
  end.

End Matcher.

(** A pattern literal: its term and its [i] flag. *)
Record RegExp : Type := mkRegExp {
  source : regex;
  flagI : bool
}.

(** The match array: [matchIndex] is [match.index], [matchGroup m 0] the
    whole match and [matchGroup m k] capture [k] ([None] is [undefined]). *)
Record MatchArray : Type := mkMatch {
  matchIndex : nat;
  matchEnd : nat;
  matchGroups : list (option jsstring)
}.

Definition matchGroup (m : MatchArray) (k : nat) : option jsstring :=
  nth k (matchGroups m) None.

(** [match[k]] where a string is expected: [undefined] reads as the text
    ["undefined"]. *)
Definition groupString (m : MatchArray) (k : nat) : jsstring :=
  match matchGroup m k with
  | Some g => g
  | None => js "undefined"
  end.

Definition captureText (input : jsstring) (y : MatchState) (k : nat) : option jsstring :=
  match captures y k with
  | Some (a, b) => Some (substring input a b)
  | None => None
  end.

(** [text.match(re)] for a pattern without the [g] flag. *)
Definition exec (re : RegExp) (text : jsstring) : option MatchArray :=
  match searchFrom (flagI re) text (source re) 0 (length text) with
  | Some (i, y) =>
    Some (mkMatch i (endIndex y)
                  (Some (substring text i (endIndex y))
                   :: map (captureText text y) (seq 1 (groupCount (source re)))))
  | None => None
  end.

(** [text.replace(re, r)] for a pattern without the [g] flag and a
    replacement without [$] references. *)
Definition replaceRegExp (text : jsstring) (re : RegExp) (r : jsstring) : jsstring :=
  match exec re text with
  | Some m => firstn (matchIndex m) text ++ r ++ skipn (matchEnd m) text
  | None => text
  end.

(** Truthiness of a match-array entry: defined and not the empty string. *)
Definition truthy (g : option jsstring) : bool :=
  match g with
  | Some (_ :: _) => true
  | _ => false
  end.

End RegExp.
Import RegExp.

(* ===================================================================== *)
(** ** JavaScript dates *)
(* ===================================================================== *)

(** A [Date] is a time value; the program reads and writes it through the
    local-time accessors only, so the model keeps the local day number (days
    since 1970-01-01 in local time) and the time within that day.  The day
    and year arithmetic is that of ECMA-262 ("Day Number and Time within
    Day", "Year Number", "Month Number", "Date Number", "MakeDay"). *)
Module JSDate.

Local Open Scope Z_scope.

Record Date : Type := mkDate {
  localDay : Z;
  timeInDay : Z
}.

Definition DayFromYear (y : Z) : Z :=
  365 * (y - 1970) + (y - 1969) / 4 - (y - 1901) / 100 + (y - 1601) / 400.

Definition DaysInYear (y : Z) : Z :=
  if negb (y mod 4 =? 0) then 365
  else if negb (y mod 100 =? 0) then 366
  else if negb (y mod 400 =? 0) then 365
  else 366.

Definition InLeapYearOf (y : Z) : Z := DaysInYear y - 365.

(** YearFromTime: the largest [y] with [DayFromYear y <= day].  The mean
    year of 146097/400 days gives an estimate that is off by one at most. *)
Definition YearFromDay (day : Z) : Z :=
  let y0 := 1970 + (400 * day) / 146097 in
  if DayFromYear (y0 + 1) <=? day then y0 + 1
  else if DayFromYear y0 <=? day then y0
  else y0 - 1.

Definition DayWithinYear (day : Z) : Z := day - DayFromYear (YearFromDay day).

(** Day within the year on which month [m] (0 = January) starts. *)
Definition monthStart (leap m : Z) : Z :=
  if m <=? 0 then 0
  else if m =? 1 then 31
  else if m =? 2 then 59 + leap
  else if m =? 3 then 90 + leap
  else if m =? 4 then 120 + leap
  else if m =? 5 then 151 + leap
  else if m =? 6 then 181 + leap
  else if m =? 7 then 212 + leap
  else if m =? 8 then 243 + leap
  else if m =? 9 then 273 + leap
  else if m =? 10 then 304 + leap
  else 334 + leap.

(** Month (0 = January) of day [d] of a year, [leap] being 1 in a leap
    year and 0 otherwise. *)
Definition monthOf (leap d : Z) : Z :=
  if d <? 31 then 0
  else if d <? 59 + leap then 1
  else if d <? 90 + leap then 2
  else if d <? 120 + leap then 3
  else if d <? 151 + leap then 4
  else if d <? 181 + leap then 5
  else if d <? 212 + leap then 6
  else if d <? 243 + leap then 7
  else if d <? 273 + leap then 8
  else if d <? 304 + leap then 9
  else if d <? 334 + leap then 10
  else 11.

Definition MonthFromDay (day : Z) : Z :=
  monthOf (InLeapYearOf (YearFromDay day)) (DayWithinYear day).

Definition DateFromDay (day : Z) : Z :=
  DayWithinYear day
  - monthStart (InLeapYearOf (YearFromDay day)) (MonthFromDay day) + 1.

(** MakeDay(year, month, date). *)
Definition MakeDay (year month date : Z) : Z :=
  let ym := year + month / 12 in
  let mn := month mod 12 in
  DayFromYear ym + monthStart (InLeapYearOf ym) mn + date - 1.

Definition getFullYear (d : Date) : Z := YearFromDay (localDay d).
Definition getMonth (d : Date) : Z := MonthFromDay (localDay d).
Definition getDate (d : Date) : Z := DateFromDay (localDay d).

(** [d.setDate(n)]: the day of the month is replaced, the time of day kept;
    MakeDay carries days outside the month into the neighbouring months. *)
Definition setDate (d : Date) (n : Z) : Date :=
  mkDate (MakeDay (getFullYear d) (getMonth d) n) (timeInDay d).

(** [new Date(y, m, d)] at local midnight. *)
Definition newDate (year month date : Z) : Date :=
  mkDate (MakeDay year month date) 0.

(** [new Date(y, m, d)] as the constructor reads its first argument: a year
    from 0 to 99 stands for 1900 + year. *)
Definition newDateOfFields (year month date : Z) : Date :=
  let yr := if (0 <=? year) && (year <=? 99) then 1900 + year else year in
  mkDate (MakeDay yr month date) 0.

End JSDate.
Import JSDate.

(* ===================================================================== *)
(** ** src/config.js *)
(* ===================================================================== *)

(** Object literals are kept as association lists: [Object.entries] and
    [Object.keys] walk string keys in insertion order. *)
Module Config.

Definition chr (s : string) : N := hd 0%N (js s).

Definition expenseCategories : list (jsstring * list jsstring) :=
  [ (js "supermercado",
     map js ["mercado"; "super"; "carrefour"; "día"; "coto"; "jumbo"; "walmart";
             "alimento"; "verdulería"; "frutería"; "compras"]%string);
    (js "restaurante",
     map js ["restaurante"; "bar"; "café"; "menu"; "comida"; "almuerzo"; "cena";
             "desayuno"; "merienda"]%string);
    (js "transporte",
     map js ["uber"; "cabify"; "taxi"; "transporte"; "combustible"; "gasolina";
             "estacionamiento"; "sube"; "colectivo"; "subte"; "tren"]%string);
    (js "servicios",
     map js ["electricidad"; "agua"; "gas"; "internet"; "teléfono"; "celular";
             "factura"; "servicio"; "wifi"; "etb"; "wom"]%string);
    (js "entretenimiento",
     map js ["cine"; "teatro"; "concierto"; "evento"; "streaming"; "netflix";
             "spotify"; "disney"; "hbo"; "prime"; "claude"]%string);
    (js "salud",
     map js ["farmacia"; "médico"; "hospital"; "clínica"; "consulta"; "remedio";
             "medicina"; "bodytech"; "gimnasio"]%string);
    (js "tecnología",
     map js ["computadora"; "pc"; "laptop"; "celular"; "gadget"; "auricular";
             "earbuds"; "hardware"; "software"; "app"; "aplicación"]%string);
    (js "snacks",
     map js ["dulces"; "snacks"; "golosinas"; "chocolate"; "galletas"; "bebidas";
             "refresco"; "café"]%string);
    (js "educación",
     map js ["universidad"; "curso"; "libro"; "semestre"; "matrícula"; "clases"]%string);
    (js "otros", []) ].

Definition intentKeywords : list (jsstring * list jsstring) :=
  [ (js "gasto",
     map js ["gasté"; "pagué"; "compré"; "abono"; "pagado"; "costo"; "compra";
             "gasto"; "pago"]%string);
    (js "ingreso",
     map js ["cobré"; "recibí"; "ingresé"; "ingreso"; "depósito"; "transferencia";
             "sueldo"; "honorarios"; "cobro"; "freelance"]%string);
    (js "meta",
     map js ["meta"; "objetivo"; "ahorrar"; "ahorro"; "reservar"; "apartado";
             "destinar"]%string);
    (js "reporte",
     map js ["reporte"; "informe"; "estadísticas"; "análisis"; "balance";
             "resumen"]%string);
    (js "presupuesto",
     map js ["presupuesto"; "límite"; "asignar"; "destinar"]%string) ].

(** [config.intentKeywords.gasto] and the like: property lookup by key. *)
Fixpoint property {A : Type} (o : list (jsstring * A)) (k : jsstring) : option A :=
  match o with
  | [] => None
  | (k', v) :: o' => if jseqb k' k then Some v else property o' k
  end.

(** Pieces shared by the patterns. *)
Definition spaces : regex := Star (Class false [ClassSpace]).          (* \s* *)
Definition spaces1 : regex := Plus (Class false [ClassSpace]).         (* \s+ *)
Definition numeral : regex :=                                          (* [0-9.,]+ *)
  Plus (Class false [ClassRange (chr "0") (chr "9"); ClassChar (chr "."); ClassChar (chr ",")]).
Definition dollar : regex := Char (chr "$").                           (* \$ *)
Definition dateSep : regex :=                                          (* [\/\-\.] *)
  Class false [ClassChar (chr "/"); ClassChar (chr "-"); ClassChar (chr ".")].
Definition digit : regex := Class false [ClassDigit].                  (* \d *)
Definition word (s : string) : regex := Lit (js s).

Definition amountPatterns : list RegExp :=
  [ (* /\$\s*([0-9.,]+)/ *)
    mkRegExp (Seqs [dollar; spaces; Group 1 numeral]) false;
    (* /([0-9.,]+)\s*pesos/i *)
    mkRegExp (Seqs [Group 1 numeral; spaces; word "pesos"]) true;
    (* /([0-9.,]+)\s*\$/ *)
    mkRegExp (Seqs [Group 1 numeral; spaces; dollar]) false;
    (* /([0-9.,]+)\s*ars/i *)
    mkRegExp (Seqs [Group 1 numeral; spaces; word "ars"]) true;
    (* /(?:pagué|gasté|costó|compré|abono|costo|compra|pago|gasto)\s*(?:de)?\s*\$?\s*([0-9.,]+)/i *)
    mkRegExp (Seqs [Alts [word "pagué"; word "gasté"; word "costó"; word "compré";
                          word "abono"; word "costo"; word "compra"; word "pago";
                          word "gasto"];
                    spaces; Opt (word "de"); spaces; Opt dollar; spaces;
                    Group 1 numeral]) true;
    (* /\$?\s*([0-9.,]+)\s*(?:en|por)/i *)
    mkRegExp (Seqs [Opt dollar; spaces; Group 1 numeral; spaces;
                    Alts [word "en"; word "por"]]) true ].

(** Only the first date pattern is read by the program
    ([config.datePatterns[0]]). *)
Definition datePattern0 : RegExp :=
  (* /(?:el|del|fecha)\s*(\d{1,2})[\/\-\.](\d{1,2})(?:[\/\-\.](\d{2,4}))?/i *)
  mkRegExp (Seqs [Alts [word "el"; word "del"; word "fecha"]; spaces;
                  Group 1 (Between 1 2 digit); dateSep;
                  Group 2 (Between 1 2 digit);
                  Opt (Seq dateSep (Group 3 (Between 2 4 digit)))]) true.

End Config.

(* ===================================================================== *)
(** ** src/utils/textProcessing.js *)
(* ===================================================================== *)

Module TextProcessing.

Import Config.

(** [for (const pattern of patterns) { const match = text.match(pattern);
    if (match && match[1]) return match[1].trim().replace(',', '.'); }
    return null;] *)
Fixpoint firstAmount (patterns : list RegExp) (text : jsstring) : option jsstring :=
  match patterns with
  | [] => None
  | pattern :: rest =>
    match exec pattern text with
    | Some m =>
      if truthy (matchGroup m 1)
      then Some (replaceFirst (trim (groupString m 1)) (js ",") (js "."))
      else firstAmount rest text
    | None => firstAmount rest text
    end
  end.

Definition extractAmountFromText (text : jsstring) : option jsstring :=
  firstAmount amountPatterns text.

(** The two nested loops over [Object.entries(...)] and the keyword list,
    returning the key of the first entry one of whose keywords is included
    in [textLower]. *)
Fixpoint firstEntryWith (hit : jsstring -> bool)
         (entries : list (jsstring * list jsstring)) : option jsstring :=
  match entries with
  | [] => None
  | (key, keywords) :: rest =>
    if existsb hit keywords then Some key else firstEntryWith hit rest
  end.

(** [null] is [None]. *)
Definition getIntent (text : jsstring) : option jsstring :=
  let textLower := toLowerCase text in
  match firstEntryWith (fun keyword => includes textLower keyword) intentKeywords with
  | Some intent => Some intent
  | None =>
    match extractAmountFromText text with
    | Some _ => Some (js "gasto")
    | None => None
    end
  end.

Definition pad2 (n : jsnumber) : jsstring :=
  padStart (stringOfNumber n) 2 (js "0").

(** The template [`${year}-${month}-${day}`] over already rendered parts. *)
Definition dashed (year month day : jsstring) : jsstring :=
  year ++ js "-" ++ month ++ js "-" ++ day.

Definition formatDate (date : Date) : jsstring :=
  let year := getFullYear date in
  let month := pad2 (Some (getMonth date + 1)%Z) in
  let day := pad2 (Some (getDate date)) in
  dashed (stringOfNumber (Some year)) month day.

(** [year < 100] and [year < 50] are false on [NaN], and [NaN + k] is
    [NaN]. *)
Definition adjustYear (year : jsnumber) : jsnumber :=
  match year with
  | Some y => if (y <? 100)%Z then Some (y + (if (y <? 50)%Z then 2000 else 1900))%Z
              else Some y
  | None => None
  end.

(** [today] is the value of [new Date()] when the function is entered. *)
Definition extractDateFromText (today : Date) (text : jsstring) : jsstring :=
  match exec datePattern0 text with
  | Some dateMatch =>
    let day := parseInt10 (groupString dateMatch 1) in
    let month := parseInt10 (groupString dateMatch 2) in
    let year :=
      if truthy (matchGroup dateMatch 3)
      then parseInt10 (groupString dateMatch 3)
      else Some (getFullYear today) in
    let year := adjustYear year in
    dashed (stringOfNumber year) (pad2 month) (pad2 day)
  | None =>
    if includes (toLowerCase text) (js "hoy") then formatDate today
    else if includes (toLowerCase text) (js "ayer") then
      let yesterday := setDate today (getDate today - 1) in
      formatDate yesterday
    else if includes (toLowerCase text) (js "anteayer") then
      let dayBeforeYesterday := setDate today (getDate today - 2) in
      formatDate dayBeforeYesterday
    else formatDate today
  end.

(** [s.charAt(0).toUpperCase() + s.slice(1)]. *)
Definition capitalize (s : jsstring) : jsstring :=
  toUpperCase (charAt s 0) ++ slice s 1.

Definition categorizeExpense (text : jsstring) : jsstring :=
  let textLower := toLowerCase text in
  match firstEntryWith (fun keyword => includes textLower (toLowerCase keyword))
                       expenseCategories with
  | Some category => category
  | None => js "otros"
  end.

(** [[\wáéíóúüñ\s]+] *)
Definition conceptRun : regex :=
  Plus (Class false [ClassWord; ClassChar (chr "á"); ClassChar (chr "é");
                     ClassChar (chr "í"); ClassChar (chr "ó"); ClassChar (chr "ú");
                     ClassChar (chr "ü"); ClassChar (chr "ñ"); ClassSpace]).

(** [new RegExp(`${prep}\\s+(el|la|los|las)?\\s*([\\wáéíóúüñ\\s]+)`, 'i')] *)
Definition prepositionPattern (prep : jsstring) : RegExp :=
  mkRegExp (Seqs [Lit prep; spaces1;
                  Opt (Group 1 (Alts [word "el"; word "la"; word "los"; word "las"]));
                  spaces; Group 2 conceptRun]) true.

(** [new RegExp(`${prep}\\s+([\\wáéíóúüñ\\s]+)`, 'i')] *)
Definition incomePattern (prep : jsstring) : RegExp :=
  mkRegExp (Seqs [Lit prep; spaces1; Group 1 conceptRun]) true.

(** [/\$?\s*[0-9.,]+\s*(?:pesos)?$/] *)
Definition trailingAmount : RegExp :=
  mkRegExp (Seqs [Opt dollar; spaces; numeral; spaces; Opt (word "pesos");
                  AssertEnd]) false.

(** [/\d{1,2}[\/\-\.]\d{1,2}(?:[\/\-\.]\d{2,4})?$/] *)
Definition trailingDate : RegExp :=
  mkRegExp (Seqs [Between 1 2 digit; dateSep; Between 1 2 digit;
                  Opt (Seq dateSep (Between 2 4 digit)); AssertEnd]) false.

Definition prepositions : list jsstring :=
  map js ["en"; "de"; "para"; "por"; "a"]%string.

(** The first loop of [extractConceptFromText]: the capitalized concept of
    the first preposition that captures a non-empty one. *)
Fixpoint prepositionConcept (preps : list jsstring) (textLower : jsstring)
  : option jsstring :=
  match preps with
  | [] => None
  | prep :: rest =>
    match exec (prepositionPattern prep) textLower with
    | Some m =>
      if truthy (matchGroup m 2) then
        let concept := trim (groupString m 2) in
        let concept := trim (replaceRegExp concept trailingAmount []) in
        let concept := trim (replaceRegExp concept trailingDate []) in
        if (0 <? length concept)%nat then Some (capitalize concept)
        else prepositionConcept rest textLower
      else prepositionConcept rest textLower
    | None => prepositionConcept rest textLower
    end
  end.

(** The loop of the income branch, over ['por'] and ['de']. *)
Fixpoint incomeConcept (preps : list jsstring) (textLower : jsstring)
  : option jsstring :=
  match preps with
  | [] => None
  | prep :: rest =>
    match exec (incomePattern prep) textLower with
    | Some m =>
      if truthy (matchGroup m 1) then
        let concept := trim (groupString m 1) in
        let concept := trim (replaceRegExp concept trailingAmount []) in
        if (0 <? length concept)%nat then
          if includes (toLowerCase concept) (js "freelance")
             || includes (toLowerCase concept) (js "proyecto")
          then Some (js "Freelance: " ++ capitalize concept)
          else Some (capitalize concept)
        else incomeConcept rest textLower
      else incomeConcept rest textLower
    | None => incomeConcept rest textLower
    end
  end.

(** [tipo] is a string or [null] ([None]). *)
Definition extractConceptFromText (text : jsstring) (tipo : option jsstring)
  : jsstring :=
  let textLower := toLowerCase text in
  match prepositionConcept prepositions textLower with
  | Some concept => concept
  | None =>
    if match tipo with Some t => jseqb t (js "ingreso") | None => false end then
      match incomeConcept (map js ["por"; "de"]%string) textLower with
      | Some concept => concept
      | None =>
        if includes textLower (js "freelance") || includes textLower (js "proyecto")
        then js "Freelance"
        else js "Ingreso variable"
      end
    else
      let categoriaEncontrada := categorizeExpense text in
      if negb (jseqb categoriaEncontrada (js "otros"))
      then capitalize categoriaEncontrada
      else js "No especificado"
  end.

(** [detectIntent(tokens, fullText)]; the token array is never read. *)
Definition detectIntent (fullText : jsstring) : option jsstring :=
  let anyOf (group : string) :=
    match property intentKeywords (js group) with
    | Some keywords => existsb (fun keyword => includes fullText keyword) keywords
    | None => false
    end in
  if anyOf "gasto"%string then Some (js "gasto")
  else if anyOf "ingreso"%string then Some (js "ingreso")
  else match extractAmountFromText fullText with
       | Some _ => Some (js "gasto")
       | None => None
       end.

(** The record built by [processText] and by the receipt controller;
    [items] is present on receipts only, [timestamp] is the clock reading
    that [toISOString] renders. *)
Record Transaction : Type := mkTransaction {
  tipo : option jsstring;
  monto : option jsstring;
  fecha : jsstring;
  concepto : jsstring;
  categoria : jsstring;
  texto_completo : jsstring;
  items : option (list (jsstring * jsstring));
  timestamp : Date
}.

(** [now] is what [new Date()] returns while the message is processed;
    [forcedIntent || detectIntent(...)] falls through on [null] and on the
    empty string. *)
Definition processText (now : Date) (text : jsstring) (forcedIntent : option jsstring)
  : Transaction :=
  let textLower := toLowerCase text in
  let tipo := if truthy forcedIntent then forcedIntent else detectIntent textLower in
  let monto := extractAmountFromText text in
  let fecha := extractDateFromText now text in
  let concepto := extractConceptFromText text tipo in
  let categoria :=
    if match tipo with Some t => jseqb t (js "gasto") | None => false end
    then categorizeExpense text else js "ingreso" in
  mkTransaction tipo monto fecha concepto categoria text None now.

End TextProcessing.

(* ===================================================================== *)
(** ** src/database.js *)
(* ===================================================================== *)

Module Database.

Import TextProcessing.

Record FixedExpense : Type := mkFixedExpense {
  fe_nombre : jsstring; fe_monto : Z; fe_categoria : jsstring; fe_fechaPago : Z
}.

Record FinancialGoal : Type := mkGoal {
  fg_nombre : jsstring; fg_montoObjetivo : Z; fg_montoAcumulado : Z; fg_fecha : jsstring
}.

Record FixedIncome : Type := mkFixedIncome {
  fi_nombre : jsstring; fi_monto : Z; fi_fechaIngreso : Z; fi_frecuencia : jsstring
}.

(** A budget limit is a number: a literal of the configuration, or what
    [parseFloat] returns on a text (kept as that text). *)
Inductive Amount : Type :=
| Literal (z : Z)
| ParseFloat (s : jsstring).

Record Document : Type := mkDocument {
  transactions : list Transaction;
  fixedExpenses : list FixedExpense;
  fixedIncomes : list FixedIncome;
  financialGoals : list FinancialGoal;
  budget : list (jsstring * Amount)
}.

Definition configFixedExpenses : list FixedExpense :=
  [ mkFixedExpense (js "Internet ETB") 120000 (js "servicios") 15;
    mkFixedExpense (js "Claude IA") 50000 (js "entretenimiento") 5;
    mkFixedExpense (js "Bodytech") 80000 (js "salud") 10;
    mkFixedExpense (js "WOM") 60000 (js "servicios") 20 ].

Definition configFinancialGoals : list FinancialGoal :=
  [ mkGoal (js "Pantalla nueva") 600000 0 (js "2024-12-31");
    mkGoal (js "Semestre universitario") 4000000 0 (js "2025-01-15") ].

Definition configMonthlyBudget : list (jsstring * Amount) :=
  [ (js "supermercado", Literal 450000); (js "restaurante", Literal 300000);
    (js "transporte", Literal 200000); (js "servicios", Literal 310000);
    (js "entretenimiento", Literal 150000); (js "salud", Literal 100000);
    (js "tecnología", Literal 200000); (js "snacks", Literal 80000);
    (js "educación", Literal 400000); (js "otros", Literal 100000) ].

Definition configFixedIncomes : list FixedIncome :=
  [ mkFixedIncome (js "Salario") 1718010 15 (js "mensual") ].

(** The data file: [stored] is the document that [JSON.parse] reads back
    from it ([None] when the file is missing or is not JSON), [writable]
    tells whether [fs.writeFileSync] succeeds.  A document whose numbers
    are finite survives the [JSON.stringify] / [JSON.parse] round trip
    unchanged; NaN and Infinity are written as [null]. *)
Record Disk : Type := mkDisk {
  stored : option Document;
  writable : bool
}.

Definition loadDatabase (disk : Disk) : Document :=
  match stored disk with
  | Some db => db
  | None =>
    mkDocument [] configFixedExpenses configFixedIncomes configFinancialGoals
               configMonthlyBudget
  end.

Definition saveDatabase (data : Document) (disk : Disk) : bool * Disk :=
  if writable disk then (true, mkDisk (Some data) (writable disk))
  else (false, disk).

(** [db.transactions.push(data)] *)
Definition push (data : Transaction) (db : Document) : Document :=
  mkDocument (transactions db ++ [data]) (fixedExpenses db) (fixedIncomes db)
             (financialGoals db) (budget db).

Definition registerTransaction (data : Transaction) (disk : Disk) : Disk :=
  let db := loadDatabase disk in
  let db := push data db in
  snd (saveDatabase db disk).

(** [initDatabase]: [present] is what [fs.existsSync(config.DB_FILE)]
    answers.  The write is not guarded: when it fails the exception leaves
    the function ([None]). *)
Definition initDatabase (present : bool) (disk : Disk) : option Disk :=
  if negb present then
    if writable disk then
      Some (mkDisk (Some (mkDocument [] configFixedExpenses configFixedIncomes
                                     configFinancialGoals configMonthlyBudget))
                   (writable disk))
    else None
  else Some disk.

End Database.

(* ===================================================================== *)
(** ** The expense controller: budget updates *)
(* ===================================================================== *)

Module ExpenseController.

Import Config Database.

(** [/(?:presupuesto|asignar|destinar)\s+(?:para|a|en)?\s+(.+?)\s+(?:de)?\s*\$?\s*([0-9.,]+)/i] *)
Definition budgetPattern : RegExp :=
  mkRegExp (Seqs [Alts [word "presupuesto"; word "asignar"; word "destinar"]; spaces1;
                  Opt (Alts [word "para"; word "a"; word "en"]); spaces1;
                  Group 1 (LazyPlus Dot); spaces1; Opt (word "de"); spaces;
                  Opt dollar; spaces; Group 2 numeral]) true.

(** The running pair [(bestCategory, bestScore)] of the scoring loop. *)
Definition Best : Type := (option jsstring * nat)%type.

Definition keep (category : jsstring) (score : nat) (best : Best) : Best :=
  if (snd best <? score)%nat then (Some category, score) else best.

(** The test on the category key: either string includes the other. *)
Definition scoreKey (categoryName category : jsstring) (best : Best) : Best :=
  if includes categoryName category || includes category categoryName
  then keep category (Nat.min (length category) (length categoryName)) best
  else best.

(** The test on one keyword: the name includes the keyword. *)
Definition scoreKeyword (categoryName category : jsstring) (best : Best)
           (keyword : jsstring) : Best :=
  if includes categoryName keyword then keep category (length keyword) best
  else best.

Definition scoreCategory (categoryName : jsstring) (best : Best)
           (entry : jsstring * list jsstring) : Best :=
  let '(category, keywords) := entry in
  fold_left (scoreKeyword categoryName category) keywords
            (scoreKey categoryName category best).

Definition bestMatch (categories : list (jsstring * list jsstring))
           (categoryName : jsstring) : Best :=
  fold_left (scoreCategory categoryName) categories (None, 0).

(** [db.budget[bestCategory] = amount] *)
Fixpoint assign (o : list (jsstring * Amount)) (k : jsstring) (v : Amount)
  : list (jsstring * Amount) :=
  match o with
  | [] => [(k, v)]
  | (k', v') :: o' => if jseqb k' k then (k', v) :: o' else (k', v') :: assign o' k v
  end.

(** What the bot is asked to send. *)
Inductive Reply : Type :=
| BudgetStatus
| BudgetUpdated (category : jsstring) (amount : Amount)
| CategoryNotIdentified.

(** The state that is kept is the data file, and the document of the result
    is the one handed to [saveDatabase].  Two effects of lines 93 to 95 lie
    outside that state: when the file cannot be read, [db.budget] is the
    object [config.monthlyBudget] itself, so that the assignment also
    changes what later calls of [loadDatabase] fall back to; and an amount
    that is NaN or Infinity reaches the file as [null]. *)
Definition processBudget (msgText : jsstring) (disk : Disk) : Reply * Disk :=
  let text := toLowerCase msgText in
  if includes text (js "ver") || includes text (js "estado")
     || includes text (js "consultar")
  then (BudgetStatus, disk)
  else
    match exec budgetPattern text with
    | Some categoryMatch =>
      let categoryName := toLowerCase (trim (groupString categoryMatch 1)) in
      let amount :=
        ParseFloat (replaceFirst (groupString categoryMatch 2) (js ",") (js ".")) in
      let bestCategory := fst (bestMatch expenseCategories categoryName) in
      match bestCategory with
      | Some (c :: cs) =>
        let db := loadDatabase disk in
        let db := mkDocument (transactions db) (fixedExpenses db) (fixedIncomes db)
                             (financialGoals db) (assign (budget db) (c :: cs) amount) in
        (BudgetUpdated (c :: cs) amount, snd (saveDatabase db disk))
      | _ => (CategoryNotIdentified, disk)
      end
    | None => (BudgetStatus, disk)
    end.

(** What [processExpenseOrIncome] answers: the confirmation of the record
    [textData] (the text of [formatTextData], followed by the budget alert
    when there is one; both only read), or the request to be more
    specific. *)
Inductive Confirmation : Type :=
| Registered (textData : TextProcessing.Transaction)
| AmountNotIdentified.

Definition processExpenseOrIncome (now : Date) (msgText intent : jsstring) (disk : Disk)
  : Confirmation * Disk :=
  let textData := TextProcessing.processText now msgText (Some intent) in
  if truthy (TextProcessing.monto textData)
  then (Registered textData, registerTransaction textData disk)
  else (AmountNotIdentified, disk).

End ExpenseController.

(* ===================================================================== *)
(** ** The receipt controller *)
(* ===================================================================== *)

Module ReceiptController.

Import Config.

(** [[\$€]] *)
Definition currency : regex := Class false [ClassChar (chr "$"); ClassChar (chr "€")].

Definition patterns : list RegExp :=
  [ (* /TOTAL\s*[\$€]?\s*([0-9.,]+)/i *)
    mkRegExp (Seqs [word "TOTAL"; spaces; Opt currency; spaces; Group 1 numeral]) true;
    (* /IMPORTE\s*[\$€]?\s*([0-9.,]+)/i *)
    mkRegExp (Seqs [word "IMPORTE"; spaces; Opt currency; spaces; Group 1 numeral]) true;
    (* /TOTAL\s*:?\s*[\$€]?\s*([0-9.,]+)/i *)
    mkRegExp (Seqs [word "TOTAL"; spaces; Opt (Char (chr ":")); spaces; Opt currency;
                    spaces; Group 1 numeral]) true;
    (* /[\$€]\s*([0-9.,]+)/ *)
    mkRegExp (Seqs [currency; spaces; Group 1 numeral]) false ].

(** The loop is the one of [extractAmountFromText], over the receipt
    patterns. *)
Definition extractAmount (text : jsstring) : option jsstring :=
  TextProcessing.firstAmount patterns text.

(** [[-\/\.]] *)
Definition separator : regex :=
  Class false [ClassChar (chr "-"); ClassChar (chr "/"); ClassChar (chr ".")].

Definition datePatterns : list RegExp :=
  [ (* /FECHA\s*:?\s*(\d{1,2})[-\/\.](\d{1,2})[-\/\.](\d{2,4})/i *)
    mkRegExp (Seqs [word "FECHA"; spaces; Opt (Char (chr ":")); spaces;
                    Group 1 (Between 1 2 digit); separator;
                    Group 2 (Between 1 2 digit); separator;
                    Group 3 (Between 2 4 digit)]) true;
    (* /FECHA\s*:?\s*(\d{2,4})[-\/\.](\d{1,2})[-\/\.](\d{1,2})/i *)
    mkRegExp (Seqs [word "FECHA"; spaces; Opt (Char (chr ":")); spaces;
                    Group 1 (Between 2 4 digit); separator;
                    Group 2 (Between 1 2 digit); separator;
                    Group 3 (Between 1 2 digit)]) true;
    (* /(\d{1,2})[-\/\.](\d{1,2})[-\/\.](\d{2,4})/ *)
    mkRegExp (Seqs [Group 1 (Between 1 2 digit); separator;
                    Group 2 (Between 1 2 digit); separator;
                    Group 3 (Between 2 4 digit)]) false;
    (* /(\d{2,4})[-\/\.](\d{1,2})[-\/\.](\d{1,2})/ *)
    mkRegExp (Seqs [Group 1 (Between 2 4 digit); separator;
                    Group 2 (Between 1 2 digit); separator;
                    Group 3 (Between 1 2 digit)]) false ].

(** The loop of [extractDate]: the first pattern that matches decides.
    [parseInt(match[1]) > 31] is false on [NaN]. *)
Fixpoint firstDate (patterns : list RegExp) (text : jsstring) : option jsstring :=
  match patterns with
  | [] => None
  | pattern :: rest =>
    match exec pattern text with
    | Some m =>
      if match parseInt (groupString m 1) with
         | Some v => (31 <? v)%Z
         | None => false
         end
      then
        let year := parseInt (groupString m 1) in
        let month := parseInt (groupString m 2) in
        let day := parseInt (groupString m 3) in
        Some (TextProcessing.dashed (stringOfNumber year) (TextProcessing.pad2 month)
                                    (TextProcessing.pad2 day))
      else
        let day := parseInt (groupString m 1) in
        let month := parseInt (groupString m 2) in
        let year := TextProcessing.adjustYear (parseInt (groupString m 3)) in
        Some (TextProcessing.dashed (stringOfNumber year) (TextProcessing.pad2 month)
                                    (TextProcessing.pad2 day))
    | None => firstDate rest text
    end
  end.

(** [today] is the value of [new Date()] in [extractDate]. *)
Definition extractDate (today : Date) (text : jsstring) : jsstring :=
  match firstDate datePatterns text with
  | Some date => date
  | None => TextProcessing.formatDate today
  end.

(** [/^\d+/] *)
Definition leadingNumber : RegExp := mkRegExp (Seq AssertBegin (Plus digit)) false.

(** [/total|importe|fecha|iva|rut|nit/i] *)
Definition receiptWords : RegExp :=
  mkRegExp (Alts [word "total"; word "importe"; word "fecha"; word "iva"; word "rut";
                  word "nit"]) true.

(** A match array is truthy, [null] is not. *)
Definition matches (re : RegExp) (text : jsstring) : bool :=
  match exec re text with
  | Some _ => true
  | None => false
  end.

(** The loop of [extractMerchant] over the candidate lines. *)
Fixpoint firstName (possibleNames : list jsstring) : option jsstring :=
  match possibleNames with
  | [] => None
  | line :: rest =>
    if includes (toLowerCase line) (js "factura")
       || includes (toLowerCase line) (js "ticket")
       || matches leadingNumber line
       || matches receiptWords line
    then firstName rest
    else if (3 <? length line)%nat && (length line <? 40)%nat then Some (trim line)
    else firstName rest
  end.

Definition extractMerchant (text : jsstring) : jsstring :=
  let lines := filter (fun line => negb (jseqb (trim line) [])) (split text 10) in
  let possibleNames := firstn 5 lines in
  match firstName possibleNames with
  | Some name => name
  | None =>
    let categoria := TextProcessing.categorizeExpense text in
    if negb (jseqb categoria (js "otros"))
    then TextProcessing.capitalize categoria
    else js "Comercio no identificado"
  end.

(** [/(.+)\s+[\$€]?\s*([0-9.,]+)$/] *)
Definition itemPattern : RegExp :=
  mkRegExp (Seqs [Group 1 (Plus Dot); spaces1; Opt currency; spaces; Group 2 numeral;
                  AssertEnd]) false.

(** One turn of the loop of [extractItems]: what the line adds to [items],
    a pair of [nombre] and [precio]. *)
Definition itemsOfLine (line : jsstring) : list (jsstring * jsstring) :=
  let trimmedLine := trim line in
  if jseqb trimmedLine [] then []
  else
    match exec itemPattern trimmedLine with
    | Some priceMatch =>
      if truthy (matchGroup priceMatch 1) && truthy (matchGroup priceMatch 2) then
        let name := trim (groupString priceMatch 1) in
        let price := replaceFirst (groupString priceMatch 2) (js ",") (js ".") in
        if (2 <? length name)%nat
           && negb (includes (toLowerCase name) (js "total"))
           && negb (includes (toLowerCase name) (js "iva"))
           && negb (includes (toLowerCase name) (js "subtotal"))
        then [(name, price)]
        else []
      else []
    | None => []
    end.

Definition extractItems (text : jsstring) : list (jsstring * jsstring) :=
  flat_map itemsOfLine (split text 10).

End ReceiptController.

(* ===================================================================== *)
(** ** The report controller: reminders of fixed expenses *)
(* ===================================================================== *)

Module ReportController.

Import Database.

(** The test of [db.fixedExpenses.filter(exp => ...)] in
    [generateFinancialReport]; [today] is the value of [new Date()]. *)
Definition upcoming (today : Date) (exp : FixedExpense) : bool :=
  let daysUntilPayment := (fe_fechaPago exp - getDate today)%Z in
  let daysUntilPayment :=
    if (daysUntilPayment <? 0)%Z then
      let lastDayOfMonth :=
        getDate (newDateOfFields (getFullYear today) (getMonth today + 1) 0) in
      (lastDayOfMonth - getDate today + fe_fechaPago exp)%Z
    else daysUntilPayment in
  ((0 <=? daysUntilPayment) && (daysUntilPayment <=? 7))%Z.

Definition upcomingExpenses (today : Date) (db : Document) : list FixedExpense :=
  filter (upcoming today) (fixedExpenses db).

(** The number of days that the reminder line of an upcoming expense
    prints: [exp.fechaPago - today.getDate()]. *)
Definition daysPrinted (today : Date) (exp : FixedExpense) : Z :=
  (fe_fechaPago exp - getDate today)%Z.

End ReportController.

(* ===================================================================== *)
(** ** src/index.js: text messages *)
(* ===================================================================== *)

Module Index.

Import Database.

Section TextMessages.

(** The goal controller is not part of these sources: what
    [goalController.processGoal] does to the data file is left open. *)
Variable processGoal : jsstring -> Disk -> Disk.

(** Which handler answers a text message. *)
Inductive Handled : Type :=
| ByExpenseController (answer : ExpenseController.Confirmation)
| ByGoalController
| ByReportController
| ByBudget (answer : ExpenseController.Reply)
| NotUnderstood.

(** [processTextMessage]: the [switch] on the intent.  [sendReport] only
    reads the data file. *)
Definition processTextMessage (now : Date) (msgText : jsstring) (disk : Disk)
  : Handled * Disk :=
  match TextProcessing.getIntent msgText with
  | Some intent =>
    if jseqb intent (js "gasto") || jseqb intent (js "ingreso") then
      let '(answer, disk') :=
        ExpenseController.processExpenseOrIncome now msgText intent disk in
      (ByExpenseController answer, disk')
    else if jseqb intent (js "meta") then (ByGoalController, processGoal msgText disk)
    else if jseqb intent (js "reporte") then (ByReportController, disk)
    else if jseqb intent (js "presupuesto") then
      let '(answer, disk') := ExpenseController.processBudget msgText disk in
      (ByBudget answer, disk')
    else (NotUnderstood, disk)
  | None => (NotUnderstood, disk)
  end.

End TextMessages.

End Index.

(* ===================================================================== *)
(** ** Vocabulary of the properties *)
(* ===================================================================== *)

(** *** Matcher states and captures *)

(** A matcher state is well formed when it lies inside the input and its
    captures are ranges that end at or before it. *)
Definition wfState (input : jsstring) (x : MatchState) : Prop :=
  endIndex x <= length input /\
  forall j a b, captures x j = Some (a, b) -> a <= b /\ b <= endIndex x.

Definition extends (input : jsstring) (x y : MatchState) : Prop :=
  endIndex x <= endIndex y /\ (wfState input x -> wfState input y).

(** Where a capture comes from: it is the one of the earlier state, or it is
    undefined, or it spans a match of the body of its group. *)
Definition captureOrigin (ignoreCase : bool) (input : jsstring) (r : regex)
           (x y : MatchState) : Prop :=
  forall k,
    captures y k = captures x k \/ captures y k = None \/
    exists body x' z,
      In (k, body) (groupBodies r) /\
      In z (RegExp.matchR ignoreCase input body x') /\
      captures y k = Some (endIndex x', endIndex z).

(** Every position from [x] up to [y] holds a character accepted by [P]. *)
Definition spanOf (input : jsstring) (P : N -> bool) (x y : MatchState) : Prop :=
  endIndex x <= endIndex y /\
  forall i, endIndex x <= i < endIndex y ->
            exists ch, nth_error input i = Some ch /\ P ch = true.

(** Every character that the term can take is accepted by [P]. *)
Fixpoint onlyChars (ignoreCase : bool) (P : N -> bool) (r : regex) : Prop :=
  match r with
  | Char c =>
    forall ch, canonicalize ignoreCase ch = canonicalize ignoreCase c -> P ch = true
  | Class invert atoms =>
    forall ch, setAccepts ignoreCase atoms invert ch = true -> P ch = true
  | Dot => forall ch, isLineTerminator ch = false -> P ch = true
  | Seq a b | Alt a b => onlyChars ignoreCase P a /\ onlyChars ignoreCase P b
  | Repeat _ _ _ a | Group _ a => onlyChars ignoreCase P a
  | _ => True
  end.

(** *** Amounts *)

(** The characters of an amount: a decimal digit, a period or a comma. *)
Definition isNumeralChar (c : N) : bool :=
  (isDigit c || (c =? 46) || (c =? 44))%N.

Definition notNumeralChar (c : N) : bool := negb (isNumeralChar c).

(** What stands before the amount in the first receipt pattern:
    [TOTAL\s*[\$€]?\s*]. *)
Definition totalLabel : list regex :=
  [Config.word "TOTAL"; Config.spaces; Opt ReceiptController.currency; Config.spaces].

(** The value the amount extractors return for a match:
    [match[1].trim().replace(',', '.')]. *)
Definition normalized (m : MatchArray) : jsstring :=
  replaceFirst (trim (groupString m 1)) (js ",") (js ".").

(** A pattern whose every match defines a non-empty group 1. *)
Definition amountShaped (p : RegExp) : bool :=
  definesGroup 1 (source p) && ((1 <=? 1) && (1 <=? groupCount (source p))).

(** Amount pattern [k] of the configuration, counted from 1 as in the
    specification. *)
Definition amountPattern (k : nat) : RegExp :=
  nth (k - 1) Config.amountPatterns (mkRegExp Empty false).

Definition receiptPattern (k : nat) : RegExp :=
  nth (k - 1) ReceiptController.patterns (mkRegExp Empty false).

(** *** Keywords and categories *)

(** The message contains no keyword of any intent group. *)
Definition noIntentKeyword (text : jsstring) : Prop :=
  forall intent keywords keyword,
    In (intent, keywords) Config.intentKeywords -> In keyword keywords ->
    includes (toLowerCase text) keyword = false.

(** The text contains, case-insensitively, one of the keywords. *)
Definition containsKeywordOf (text : jsstring) (keywords : list jsstring) : Prop :=
  exists keyword, In keyword keywords /\
    includes (toLowerCase text) (toLowerCase keyword) = true.

(** Position of a category in the configuration. *)
Definition declaredAt (i : nat) (category : jsstring) (keywords : list jsstring) : Prop :=
  nth_error Config.expenseCategories i = Some (category, keywords).

(** The strings of a list are pairwise different. *)
Fixpoint distinctb (l : list jsstring) : bool :=
  match l with
  | [] => true
  | x :: l' => negb (existsb (jseqb x) l') && distinctb l'
  end.

(** *** Budget category names *)







(** *** Calendar dates *)

(** The calendar, as the specification speaks of it: months 1 to 12, the
    Gregorian leap-year rule, and the day before a date. *)
Definition isLeapYear (y : Z) : bool :=
  ((y mod 4 =? 0) && (negb (y mod 100 =? 0) || (y mod 400 =? 0)))%Z.

Definition daysInMonth (y m : Z) : Z :=
  (if m =? 2 then (if isLeapYear y then 29 else 28)
   else if (m =? 4) || (m =? 6) || (m =? 9) || (m =? 11) then 30
   else 31)%Z.

Definition validCalendarDate (ymd : Z * Z * Z) : Prop :=
  let '(y, m, d) := ymd in
  (1 <= m <= 12 /\ 1 <= d <= daysInMonth y m)%Z.

Definition dayBefore (ymd : Z * Z * Z) : Z * Z * Z :=
  let '(y, m, d) := ymd in
  (if 1 <? d then (y, m, d - 1)
   else if 1 <? m then (y, m - 1, daysInMonth y (m - 1))
   else (y - 1, 12, 31))%Z.

(** Year, month (1 to 12) and day of the month of a [Date], in local
    time. *)
Definition civil (date : Date) : Z * Z * Z :=
  (getFullYear date, (getMonth date + 1)%Z, getDate date).

(** The year-month-day text of a date: the year in decimal, then month and
    day padded with zeros to two digits. *)
Definition ymdString (ymd : Z * Z * Z) : jsstring :=
  let '(y, m, d) := ymd in
  TextProcessing.dashed (stringOfNumber (Some y))
                        (TextProcessing.pad2 (Some m)) (TextProcessing.pad2 (Some d)).

Definition validDateString (s : jsstring) : Prop :=
  exists ymd, validCalendarDate ymd /\ s = ymdString ymd.

Definition twoDigits (s : jsstring) : Prop :=
  length s = 2 /\ forallb isDigit s = true.

(** The shape year-month-day with a two-digit month and a two-digit day. *)
Definition ymdShaped (s : jsstring) : Prop :=
  exists (y : Z) (mm dd : jsstring),
    s = TextProcessing.dashed (stringOfNumber (Some y)) mm dd /\
    twoDigits mm /\ twoDigits dd.

(** A run of one to [n] decimal digits. *)
Definition digitRun (n : nat) (s : jsstring) : Prop :=
  s <> [] /\ length s <= n /\ forallb isDigit s = true.

(** The year that a written number stands for: below 50 it is a year of the
    2000s, from 50 to 99 a year of the 1900s. *)
Definition fullYear (v : Z) : Z :=
  (if v <? 50 then 2000 + v else if v <? 100 then 1900 + v else v)%Z.

(** The year of an explicit date: the number written as its third part, or
    the year of the processing date when it has none. *)
Definition explicitYear (today : Date) (written : option jsstring) (y : Z) : Prop :=
  match written with
  | Some yy => digitRun 4 yy /\ y = fullYear (Z.of_N (readDigits yy 0))
  | None => y = fullYear (getFullYear today)
  end.

(** *** Concepts *)

(** The text mentions freelance work: what the income branch tests. *)
Definition mentionsFreelance (text : jsstring) : bool :=
  includes (toLowerCase text) (js "freelance")
  || includes (toLowerCase text) (js "proyecto").

(** No preposition search captures a concept: neither the generic one nor
    the one of the income branch. *)
Definition noConceptCaptured (text : jsstring) : Prop :=
  TextProcessing.prepositionConcept TextProcessing.prepositions (toLowerCase text) = None /\
  TextProcessing.incomeConcept (map js ["por"; "de"]%string) (toLowerCase text) = None.

(** No preposition pattern matches the text at all. *)
Definition noPrepositionMatch (text : jsstring) : Prop :=
  (forall prep, In prep TextProcessing.prepositions ->
     exec (TextProcessing.prepositionPattern prep) (toLowerCase text) = None) /\
  (forall prep, In prep (map js ["por"; "de"]%string) ->
     exec (TextProcessing.incomePattern prep) (toLowerCase text) = None).

(** *** Sample messages and records *)

Definition supermarketMessage : jsstring := js "Gasté $45000 en el supermercado ayer".

Definition sampleExpense : TextProcessing.Transaction :=
  TextProcessing.processText (newDate 2024 2 10) supermarketMessage (Some (js "gasto")).

Definition sampleIncome : TextProcessing.Transaction :=
  TextProcessing.processText (newDate 2024 2 11)
    (js "Recibí $500000 por proyecto freelance") (Some (js "ingreso")).

(** *** Amount texts *)

(** Every comma of the text stands after a period. *)
Definition commaAfterPeriod (v : jsstring) : Prop :=
  forall i, nth_error v i = Some 44%N ->
            exists j, j < i /\ nth_error v j = Some 46%N.

(** The text of an amount: not empty, made of digits, periods and commas,
    its first separator a period. *)
Definition amountText (v : jsstring) : Prop :=
  v <> [] /\ forallb isNumeralChar v = true /\ commaAfterPeriod v.

(** A pattern whose only capture group is [([0-9.,]+)]. *)
Definition capturesNumeral (p : RegExp) : Prop :=
  groupBodies (source p) = [(1, Config.numeral)].

(** *** Intent groups *)

(** The lower-cased text includes one of the keywords. *)
Definition mentionsKeyword (text : jsstring) (keywords : list jsstring) : Prop :=
  exists keyword, In keyword keywords /\ includes (toLowerCase text) keyword = true.

(** Position of an intent group in the configuration. *)
Definition intentAt (i : nat) (intent : jsstring) (keywords : list jsstring) : Prop :=
  nth_error Config.intentKeywords i = Some (intent, keywords).

(** *** Texts without surrounding white space *)

(** The first code unit, when there is one, is not white space. *)
Definition headNotSpace (s : jsstring) : Prop :=
  match s with
  | [] => True
  | c :: _ => isWhiteSpace c = false
  end.

(** Neither the first nor the last code unit is white space. *)
Definition trimmed (s : jsstring) : Prop := headNotSpace s /\ headNotSpace (rev s).

(** *** The scores of the budget update *)

(** The scores that the loop of [processBudget] meets, in the order in which
    it meets them: for each category its key, when the name includes it or
    is included in it, then each of its keywords that the name includes. *)
Definition candidates (name : jsstring) (categories : list (jsstring * list jsstring))
  : list (jsstring * nat) :=
  flat_map
    (fun entry : jsstring * list jsstring =>
       (if includes name (fst entry) || includes (fst entry) name
        then [(fst entry, Nat.min (length (fst entry)) (length name))]
        else [])
       ++ flat_map (fun keyword => if includes name keyword
                                   then [(fst entry, length keyword)]
                                   else [])
                   (snd entry))
    categories.

(** One turn of the comparison [if (score > bestScore)]. *)
Definition keepCandidate (best : ExpenseController.Best) (candidate : jsstring * nat)
  : ExpenseController.Best :=
  ExpenseController.keep (fst candidate) (snd candidate) best.

(** *** Amounts that the data file holds as written *)

(** [parseFloat] reads the longest prefix of its argument that is a decimal
    literal, and returns NaN when there is none.  On a text of digits,
    periods and commas that prefix exists when the text starts with a digit,
    or with a period and a digit. *)
Definition startsNumber (s : jsstring) : bool :=
  match s with
  | c :: s' =>
    isDigit c
    || ((c =? 46)%N && match s' with d :: _ => isDigit d | [] => false end)
  | [] => false
  end.

(** The number of digits before the first other character. *)
Fixpoint leadingDigits (s : jsstring) : nat :=
  match s with
  | c :: s' => if isDigit c then S (leadingDigits s') else 0
  | [] => 0
  end.

(** A number that is surely finite: a literal of the configuration, or what
    [parseFloat] reads from a text that starts as a number and has at most
    308 digits before its period (a value below 10^308, which is under the
    largest double).  [JSON.stringify] writes a finite number so that
    [JSON.parse] reads the same number back; NaN and Infinity it writes as
    [null]. *)
Definition finiteAmount (a : Database.Amount) : Prop :=
  match a with
  | Database.Literal _ => True
  | Database.ParseFloat s => startsNumber s = true /\ leadingDigits s <= 308
  end.

(** *** Receipt lines *)

(** What makes [extractMerchant] pass over a line. *)
Definition rejectedLine (line : jsstring) : bool :=
  includes (toLowerCase line) (js "factura")
  || includes (toLowerCase line) (js "ticket")
  || ReceiptController.matches ReceiptController.leadingNumber line
  || ReceiptController.matches ReceiptController.receiptWords line.

(** The lines among which [extractMerchant] looks for a name: the first five
    that are not blank. *)
Definition candidateLines (text : jsstring) : list jsstring :=
  firstn 5 (filter (fun line => negb (jseqb (trim line) [])) (split text 10)).

(** *** Where a pattern matches *)

(** No character test of the term tells [a] from [b]. *)
Fixpoint alike (ic : bool) (r : regex) (a b : N) : bool :=
  match r with
  | Char c =>
    Bool.eqb (canonicalize ic a =? canonicalize ic c)%N
             (canonicalize ic b =? canonicalize ic c)%N
  | Class invert atoms =>
    Bool.eqb (setAccepts ic atoms invert a) (setAccepts ic atoms invert b)
  | Dot => Bool.eqb (isLineTerminator a) (isLineTerminator b)
  | Seq r1 r2 | Alt r1 r2 => alike ic r1 a b && alike ic r2 a b
  | Repeat _ _ _ r1 | Group _ r1 => alike ic r1 a b
  | _ => true
  end.

(** Two texts of the same length whose characters the pattern cannot tell
    apart, position by position. *)
Definition sameShape (re : RegExp) (s s' : jsstring) : Prop :=
  Forall2 (fun a b => alike (flagI re) (source re) a b = true) s s'.

(** Where a pattern matches: the index of the match, its end and the
    ranges of its capture groups. *)
Definition spans (re : RegExp) (text : jsstring)
  : option (nat * nat * list (option (nat * nat))) :=
  match searchFrom (flagI re) text (source re) 0 (length text) with
  | Some (i, y) =>
    Some (i, endIndex y, map (captures y) (seq 1 (groupCount (source re))))
  | None => None
  end.

(** The match array that a text gives for such ranges. *)
Definition cut (text : jsstring) (sp : nat * nat * list (option (nat * nat)))
  : MatchArray :=
  let '(i, e, caps) := sp in
  mkMatch i e
          (Some (substring text i e)
           :: map (fun c : option (nat * nat) =>
                     match c with
                     | Some (a, b) => Some (substring text a b)
                     | None => None
                     end) caps).

(** A text written on a template: the characters that the template fixes,
    and a decimal digit wherever it fixes none. *)
Definition onTemplate (template : list (option N)) (s : jsstring) : Prop :=
  Forall2 (fun (t : option N) (c : N) =>
             match t with
             | Some x => c = x
             | None => isDigit c = true
             end) template s.

(** The template with every digit 0. *)
Definition zeros (template : list (option N)) : jsstring :=
  map (fun t : option N => match t with Some x => x | None => 48%N end) template.

(** *** Receipt dates *)

(** The date that [extractDate] reads off a match. *)
Definition dateOfMatch (m : MatchArray) : jsstring :=
  if match parseInt (groupString m 1) with
     | Some v => (31 <? v)%Z
     | None => false
     end
  then
    TextProcessing.dashed (stringOfNumber (parseInt (groupString m 1)))
                          (TextProcessing.pad2 (parseInt (groupString m 2)))
                          (TextProcessing.pad2 (parseInt (groupString m 3)))
  else
    TextProcessing.dashed
      (stringOfNumber (TextProcessing.adjustYear (parseInt (groupString m 3))))
      (TextProcessing.pad2 (parseInt (groupString m 2)))
      (TextProcessing.pad2 (parseInt (groupString m 1))).

(** Receipt date pattern [k], counted from 1. *)
Definition receiptDatePattern (k : nat) : RegExp :=
  nth (k - 1) ReceiptController.datePatterns (mkRegExp Empty false).

(** The date written year first, with four digits, and its template. *)
Definition isoTemplate : list (option N) :=
  [None; None; None; None; Some 45%N; None; None; Some 45%N; None; None].

(** "el " followed by a day and a month of two digits each. *)
Definition dayMonthTemplate : list (option N) :=
  map Some (js "el ") ++ [None; None; Some 47%N; None; None].

(* ===================================================================== *)
(** * Properties *)
(* ===================================================================== *)

(** ** The matcher *)

Section MatcherFacts.

Variable ignoreCase : bool.
Variable input : jsstring.

Local Abbreviation matchR := (RegExp.matchR ignoreCase input).
Local Abbreviation repeatMatcher := (RegExp.repeatMatcher).
Local Abbreviation wfState := (wfState input).
Local Abbreviation extends := (extends input).

Lemma extends_refl x : extends x x.
Proof. split; auto. Qed.

Lemma extends_trans x y z : extends x y -> extends y z -> extends x z.
Proof. intros [H1 H2] [H3 H4]. split; [lia | auto]. Qed.

Lemma extends_clear ks x : extends x (clearCaptures ks x).
Proof.
  split; [reflexivity |].
  intros [Hl Hc]. split; [exact Hl |].
  intros j a b. simpl. destruct (existsb (Nat.eqb j) ks); [discriminate | apply Hc].
Qed.

(** Any relation on states that is reflexive, transitive, holds across the
    reset of the captures and across one run of the body, holds across a
    repetition. *)
Lemma repeat_closed (R : MatchState -> MatchState -> Prop)
      (m : MatchState -> list MatchState) (parens : list nat) (greedy : bool) :
  (forall x, R x x) ->
  (forall x y z, R x y -> R y z -> R x z) ->
  (forall x, R x (clearCaptures parens x)) ->
  (forall x y, In y (m x) -> R x y) ->
  forall fuel min max x y,
    In y (repeatMatcher m parens greedy fuel min max x) -> R x y.
Proof.
  intros Hrefl Htrans Hclear Hm.
  induction fuel as [| fuel IH]; intros min max x y Hin.
  - destruct max as [[| n] |]; simpl in Hin; try contradiction.
    destruct Hin as [<- | []]. apply Hrefl.
  - assert (Hd : forall y',
      In y (flat_map
        (fun y0 : MatchState =>
           if Nat.eqb min 0 && Nat.eqb (endIndex y0) (endIndex x) then []
           else repeatMatcher m parens greedy fuel (Nat.pred min)
                              (option_map Nat.pred max) y0)
        (m (clearCaptures parens x))) -> y' = y -> R x y).
    { intros y' Hf _. apply in_flat_map in Hf. destruct Hf as [z [Hz Hy]].
      destruct (Nat.eqb min 0 && Nat.eqb (endIndex z) (endIndex x)); [contradiction |].
      apply Htrans with (clearCaptures parens x); [apply Hclear |].
      apply Htrans with z; [apply Hm; exact Hz | eapply IH; exact Hy]. }
    destruct max as [[| n] |]; simpl in Hin.
    + destruct Hin as [<- | []]. apply Hrefl.
    + destruct (Nat.eqb min 0); simpl in Hin.
      * destruct greedy.
        -- apply in_app_or in Hin. destruct Hin as [Hin | [<- | []]];
             [eapply Hd; eauto | apply Hrefl].
        -- destruct Hin as [<- | Hin]; [apply Hrefl | eapply Hd; eauto].
      * eapply Hd; eauto.
    + destruct (Nat.eqb min 0); simpl in Hin.
      * destruct greedy.
        -- apply in_app_or in Hin. destruct Hin as [Hin | [<- | []]];
             [eapply Hd; eauto | apply Hrefl].
        -- destruct Hin as [<- | Hin]; [apply Hrefl | eapply Hd; eauto].
      * eapply Hd; eauto.
Qed.

Lemma charStep_in accept x y :
  In y (charStep input accept x) ->
  exists ch, nth_error input (endIndex x) = Some ch /\ accept ch = true /\
             y = mkState (S (endIndex x)) (captures x).
Proof.
  unfold charStep. destruct (nth_error input (endIndex x)) as [ch |] eqn:E;
    [| contradiction].
  destruct (accept ch) eqn:A; [| contradiction].
  intros [<- | []]. exists ch. auto.
Qed.

Lemma charStep_extends accept x y : In y (charStep input accept x) -> extends x y.
Proof.
  intros H. apply charStep_in in H. destruct H as [ch [Hn [_ ->]]].
  assert (endIndex x < length input) by (apply nth_error_Some; congruence).
  split; simpl; [lia |].
  intros [Hl Hc]. split; simpl; [lia |].
  intros j a b Hj. destruct (Hc j a b Hj). lia.
Qed.

Lemma matchR_extends r : forall x y, In y (matchR r x) -> extends x y.
Proof.
  induction r as [| c | inv atoms | | a IHa b IHb | a IHa b IHb
                  | min max greedy a IHa | k a IHa | |]; intros x y Hin; simpl in Hin.
  - destruct Hin as [<- | []]. apply extends_refl.
  - eapply charStep_extends; eauto.
  - eapply charStep_extends; eauto.
  - eapply charStep_extends; eauto.
  - apply in_flat_map in Hin. destruct Hin as [z [Hz Hy]].
    eapply extends_trans; eauto.
  - apply in_app_or in Hin. destruct Hin; auto.
  - revert Hin. apply repeat_closed;
      auto using extends_refl, extends_clear. apply extends_trans.
  - apply in_map_iff in Hin. destruct Hin as [z [<- Hz]].
    apply IHa in Hz. destruct Hz as [Hle Hwf]. split; simpl; [exact Hle |].
    intros Hx. destruct (Hwf Hx) as [Hl Hc]. split; simpl; [exact Hl |].
    intros j p q. destruct (Nat.eqb j k).
    + intros E. injection E as <- <-. lia.
    + apply Hc.
  - destruct (Nat.eqb (endIndex x) 0); [| contradiction].
    destruct Hin as [<- | []]. apply extends_refl.
  - destruct (Nat.eqb (endIndex x) (length input)); [| contradiction].
    destruct Hin as [<- | []]. apply extends_refl.
Qed.

(** A term leaves alone the captures of the groups it does not contain. *)
Lemma matchR_keeps k r :
  existsb (Nat.eqb k) (groupsOf r) = false ->
  forall x y, In y (matchR r x) -> captures y k = captures x k.
Proof.
  induction r as [| c | inv atoms | | a IHa b IHb | a IHa b IHb
                  | min max greedy a IHa | j a IHa | |]; intros Hk x y Hin;
    simpl in Hin, Hk.
  - destruct Hin as [<- | []]. reflexivity.
  - apply charStep_in in Hin. destruct Hin as [ch [_ [_ ->]]]. reflexivity.
  - apply charStep_in in Hin. destruct Hin as [ch [_ [_ ->]]]. reflexivity.
  - apply charStep_in in Hin. destruct Hin as [ch [_ [_ ->]]]. reflexivity.
  - rewrite existsb_app in Hk. apply orb_false_iff in Hk. destruct Hk as [Ha Hb].
    apply in_flat_map in Hin. destruct Hin as [z [Hz Hy]].
    rewrite (IHb Hb _ _ Hy). apply (IHa Ha _ _ Hz).
  - rewrite existsb_app in Hk. apply orb_false_iff in Hk. destruct Hk as [Ha Hb].
    apply in_app_or in Hin. destruct Hin; auto.
  - revert Hin.
    apply (repeat_closed (fun x y => captures y k = captures x k)); auto.
    + intros ? ? ? H1 H2. congruence.
    + intros x0. simpl. rewrite Hk. reflexivity.
  - apply orb_false_iff in Hk. destruct Hk as [Hjk Ha].
    apply in_map_iff in Hin. destruct Hin as [z [<- Hz]]. simpl.
    rewrite Hjk. apply (IHa Ha _ _ Hz).
  - destruct (Nat.eqb (endIndex x) 0); [| contradiction].
    destruct Hin as [<- | []]. reflexivity.
  - destruct (Nat.eqb (endIndex x) (length input)); [| contradiction].
    destruct Hin as [<- | []]. reflexivity.
Qed.

Lemma repeat_consumes m parens greedy :
  (forall x y, In y (m x) -> endIndex x < endIndex y) ->
  forall fuel min max x y,
    min <> 0 -> max <> Some 0 ->
    In y (repeatMatcher m parens greedy fuel min max x) ->
    endIndex x < endIndex y.
Proof.
  intros Hm fuel min max x y Hmin Hmax Hin.
  destruct fuel as [| fuel].
  - destruct max as [[| n] |]; simpl in Hin; try contradiction; congruence.
  - assert (E : Nat.eqb min 0 = false) by (apply Nat.eqb_neq; exact Hmin).
    assert (Hd : In y (flat_map
        (fun y0 : MatchState =>
           repeatMatcher m parens greedy fuel (Nat.pred min)
                         (option_map Nat.pred max) y0)
        (m (clearCaptures parens x)))).
    { destruct max as [[| n] |]; simpl in Hin; try congruence;
        rewrite E in Hin; simpl in Hin; exact Hin. }
    apply in_flat_map in Hd. destruct Hd as [z [Hz Hy]].
    apply Hm in Hz. simpl in Hz.
    assert (endIndex z <= endIndex y); [| lia].
    revert Hy. apply (repeat_closed (fun x y => endIndex x <= endIndex y)); auto.
    + intros; lia.
    + intros x0 y0 H0. apply Hm in H0. lia.
Qed.

Lemma matchR_consumes r :
  consumes r = true -> forall x y, In y (matchR r x) -> endIndex x < endIndex y.
Proof.
  induction r as [| c | inv atoms | | a IHa b IHb | a IHa b IHb
                  | min max greedy a IHa | j a IHa | |]; intros Hc x y Hin;
    simpl in Hin, Hc; try discriminate.
  - apply charStep_in in Hin. destruct Hin as [ch [_ [_ ->]]]. simpl. lia.
  - apply charStep_in in Hin. destruct Hin as [ch [_ [_ ->]]]. simpl. lia.
  - apply charStep_in in Hin. destruct Hin as [ch [_ [_ ->]]]. simpl. lia.
  - apply in_flat_map in Hin. destruct Hin as [z [Hz Hy]].
    pose proof (proj1 (matchR_extends _ _ _ Hz)).
    pose proof (proj1 (matchR_extends _ _ _ Hy)).
    apply orb_true_iff in Hc. destruct Hc as [Hc | Hc].
    + specialize (IHa Hc _ _ Hz). lia.
    + specialize (IHb Hc _ _ Hy). lia.
  - apply andb_true_iff in Hc. destruct Hc as [Ha Hb].
    apply in_app_or in Hin. destruct Hin; auto.
  - assert (Hmax : max <> Some 0) by (intros ->; discriminate).
    assert (Hc' : negb (Nat.eqb min 0) && consumes a = true)
      by (destruct max as [[| n] |]; [discriminate | exact Hc | exact Hc]).
    apply andb_true_iff in Hc'. destruct Hc' as [Hmin Ha].
    apply negb_true_iff, Nat.eqb_neq in Hmin.
    revert Hin. apply repeat_consumes; auto.
  - apply in_map_iff in Hin. destruct Hin as [z [<- Hz]]. simpl. auto.
Qed.

(** Soundness of [definesGroup]. *)
Lemma matchR_defines k r :
  definesGroup k r = true ->
  forall x y, In y (matchR r x) ->
  exists a b, captures y k = Some (a, b) /\ endIndex x <= a /\ a < b /\ b <= endIndex y.
Proof.
  induction r as [| c | inv atoms | | a IHa b IHb | a IHa b IHb
                  | min max greedy a IHa | j a IHa | |]; intros Hd x y Hin;
    simpl in Hin, Hd; try discriminate.
  - apply in_flat_map in Hin. destruct Hin as [z [Hz Hy]].
    pose proof (proj1 (matchR_extends _ _ _ Hz)).
    pose proof (proj1 (matchR_extends _ _ _ Hy)).
    apply orb_true_iff in Hd. destruct Hd as [Hd | Hd].
    + apply andb_true_iff in Hd. destruct Hd as [Ha Hb].
      apply negb_true_iff in Hb.
      destruct (IHa Ha _ _ Hz) as [p [q [E [? [? ?]]]]].
      exists p, q. rewrite (matchR_keeps _ _ Hb _ _ Hy). repeat split; auto; lia.
    + destruct (IHb Hd _ _ Hy) as [p [q [E [? [? ?]]]]].
      exists p, q. repeat split; auto; lia.
  - apply andb_true_iff in Hd. destruct Hd as [Ha Hb].
    apply in_app_or in Hin. destruct Hin; auto.
  - apply in_map_iff in Hin. destruct Hin as [z [<- Hz]]. simpl.
    destruct (Nat.eqb j k) eqn:E.
    + apply Nat.eqb_eq in E. subst j. rewrite Nat.eqb_refl.
      exists (endIndex x), (endIndex z).
      pose proof (matchR_consumes _ Hd _ _ Hz). repeat split; auto.
    + rewrite Nat.eqb_sym in E. rewrite E. apply (IHa Hd _ _ Hz).
Qed.

End MatcherFacts.

(** ** Adequacy of the matcher *)

Ltac split_n :=
  repeat (match goal with
          | |- context [N.leb ?p ?q] => destruct (N.leb_spec p q); try lia
          | |- context [N.eqb ?p ?q] => destruct (N.eqb_spec p q); try lia
          | |- context [N.ltb ?p ?q] => destruct (N.ltb_spec p q); try lia
          end; cbn [andb orb negb]).

Lemma flat_map_ext_in {A B : Type} (f g : A -> list B) l :
  (forall a, In a l -> f a = g a) -> flat_map f l = flat_map g l.
Proof.
  induction l as [| a l IH]; intros H; [reflexivity |].
  simpl. rewrite (H a) by (left; reflexivity).
  rewrite IH; [reflexivity |]. intros b Hb. apply H. right. exact Hb.
Qed.

Lemma matchR_bounded ic input r x y :
  In y (RegExp.matchR ic input r x) ->
  endIndex x <= endIndex y /\ (endIndex x <= length input -> endIndex y <= length input).
Proof.
  intros Hin. pose proof (matchR_extends _ _ _ _ _ Hin) as [Hle _].
  split; [exact Hle |]. intros Hx.
  set (x0 := mkState (endIndex x) (fun _ => None)).
  assert (K : forall r x y, In y (RegExp.matchR ic input r x) ->
              (endIndex x <= length input -> endIndex y <= length input)).
  { clear. induction r as [| c | inv atoms | | a IHa b IHb | a IHa b IHb
                           | min max greedy a IHa | k a IHa | |];
      intros x y Hin Hx; simpl in Hin.
    - destruct Hin as [<- | []]. exact Hx.
    - apply charStep_in in Hin. destruct Hin as [ch [Hn [_ ->]]]. simpl.
      apply nth_error_Some. congruence.
    - apply charStep_in in Hin. destruct Hin as [ch [Hn [_ ->]]]. simpl.
      apply nth_error_Some. congruence.
    - apply charStep_in in Hin. destruct Hin as [ch [Hn [_ ->]]]. simpl.
      apply nth_error_Some. congruence.
    - apply in_flat_map in Hin. destruct Hin as [z [Hz Hy]]. eauto.
    - apply in_app_or in Hin. destruct Hin; eauto.
    - revert Hin Hx.
      apply (repeat_closed (fun x y => endIndex x <= length input ->
                                       endIndex y <= length input)); auto.
    - apply in_map_iff in Hin. destruct Hin as [z [<- Hz]]. simpl. eauto.
    - destruct (Nat.eqb (endIndex x) 0); [| contradiction].
      destruct Hin as [<- | []]. exact Hx.
    - destruct (Nat.eqb (endIndex x) (length input)); [| contradiction].
      destruct Hin as [<- | []]. exact Hx. }
  eapply K; eauto.
Qed.

(** The recursion bound of [repeatMatcher] is never the reason for a
    failure: from a state inside the input, any fuel from
    [min + (length input - endIndex x) + 1] upwards gives the same result,
    so the matcher is the unbounded one of the language definition. *)
Lemma repeatMatcher_fuel ic input r parens greedy :
  forall f1 f2 min max x,
    endIndex x <= length input ->
    min + (length input - endIndex x) + 1 <= f1 ->
    min + (length input - endIndex x) + 1 <= f2 ->
    RegExp.repeatMatcher (RegExp.matchR ic input r) parens greedy f1 min max x
    = RegExp.repeatMatcher (RegExp.matchR ic input r) parens greedy f2 min max x.
Proof.
  induction f1 as [| f1 IH]; intros f2 min max x Hx H1 H2; [lia |].
  destruct f2 as [| f2]; [lia |].
  assert (E : flat_map
      (fun y : MatchState =>
         if Nat.eqb min 0 && Nat.eqb (endIndex y) (endIndex x) then []
         else RegExp.repeatMatcher (RegExp.matchR ic input r) parens greedy f1
                (Nat.pred min) (option_map Nat.pred max) y)
      (RegExp.matchR ic input r (clearCaptures parens x))
    = flat_map
      (fun y : MatchState =>
         if Nat.eqb min 0 && Nat.eqb (endIndex y) (endIndex x) then []
         else RegExp.repeatMatcher (RegExp.matchR ic input r) parens greedy f2
                (Nat.pred min) (option_map Nat.pred max) y)
      (RegExp.matchR ic input r (clearCaptures parens x))).
  { apply flat_map_ext_in. intros y Hy.
    apply matchR_bounded in Hy. simpl in Hy. destruct Hy as [Hle Hlen].
    specialize (Hlen Hx).
    destruct (Nat.eqb min 0) eqn:M; simpl.
    - destruct (Nat.eqb (endIndex y) (endIndex x)) eqn:Q; [reflexivity |].
      apply Nat.eqb_eq in M. apply Nat.eqb_neq in Q. subst min.
      apply IH; simpl; lia.
    - apply Nat.eqb_neq in M. apply IH; lia. }
  destruct max as [[| n] |]; cbn [RegExp.repeatMatcher]; [reflexivity | |];
    rewrite E; reflexivity.
Qed.

(** The candidates that [setAccepts] tries are all the code units with the
    canonical form of the character: the test is CharacterSetMatcher's
    "some member of the set has the same canonical form". *)
Lemma canonicalize_cases a :
  let u := canonicalize true a in
  ((97 <= a <= 122 \/ (224 <= a <= 254 /\ a <> 247)) /\ u = a - 32 \/
   a = 255 /\ u = 376 \/
   a = 181 /\ u = 924 \/
   (u = a /\ ~ (97 <= a <= 122) /\ ~ (224 <= a <= 254 /\ a <> 247) /\
    a <> 255 /\ a <> 181))%N.
Proof.
  unfold canonicalize, upperUnit. split_n; lia.
Qed.

Lemma foldsTo_cases u x :
  ((65 <= u <= 90 \/ (192 <= u <= 222 /\ u <> 215)) /\ x = u + 32 \/
   u = 376 /\ x = 255 \/
   u = 924 /\ x = 181 \/
   x = u)%N ->
  In x (foldsTo true u).
Proof.
  unfold foldsTo. cbn [negb]. split_n; cbn [In]; lia.
Qed.

Lemma foldsTo_complete ic a ch :
  canonicalize ic a = canonicalize ic ch ->
  In a (ch :: foldsTo ic (canonicalize ic ch)).
Proof.
  destruct ic; [| unfold canonicalize, foldsTo; intros ->; simpl; auto].
  intros E. right. apply foldsTo_cases. rewrite <- E.
  pose proof (canonicalize_cases a) as Ca. cbv zeta in Ca. lia.
Qed.

Lemma setAccepts_spec ic atoms invert ch :
  setAccepts ic atoms invert ch = true <->
  ((exists a, setContains atoms a = true /\ canonicalize ic a = canonicalize ic ch)
   <-> invert = false).
Proof.
  unfold setAccepts.
  set (found := existsb _ _).
  assert (F : found = true <->
              exists a, setContains atoms a = true /\
                        canonicalize ic a = canonicalize ic ch).
  { unfold found. rewrite existsb_exists. split.
    - intros [a [_ Ha]]. apply andb_true_iff in Ha. destruct Ha as [H1 H2].
      apply N.eqb_eq in H2. eauto.
    - intros [a [H1 H2]]. exists a. split; [apply foldsTo_complete; exact H2 |].
      rewrite H1. apply N.eqb_eq. exact H2. }
  rewrite <- F. destruct found, invert; simpl; split; intros H;
    try reflexivity; try discriminate; try tauto.
  - destruct H as [H _]. specialize (H eq_refl). discriminate.
  - split; intros; discriminate.
Qed.

(** ** [text.match(re)] *)

Lemma searchFrom_sound ic input r : forall fuel i j y,
  searchFrom ic input r i fuel = Some (j, y) ->
  i <= j <= i + fuel /\ In y (RegExp.matchR ic input r (initialState j)).
Proof.
  induction fuel as [| fuel IH]; intros i j y H; simpl in H.
  - destruct (RegExp.matchR ic input r (initialState i)) as [| z zs] eqn:E;
      [discriminate |].
    injection H as <- <-. split; [lia | rewrite E; left; reflexivity].
  - destruct (RegExp.matchR ic input r (initialState i)) as [| z zs] eqn:E.
    + apply IH in H. destruct H. split; [lia | assumption].
    + injection H as <- <-. split; [lia | rewrite E; left; reflexivity].
Qed.

Lemma wfState_initial input i : i <= length input -> wfState input (initialState i).
Proof. intros H. split; simpl; [exact H | discriminate]. Qed.

(** What [exec] returns: a start index, a final state reached from it, and
    the match array read off that state. *)
Lemma exec_inv re text m :
  exec re text = Some m ->
  exists i y,
    i <= length text /\
    In y (RegExp.matchR (flagI re) text (source re) (initialState i)) /\
    wfState text y /\ i <= endIndex y /\
    m = mkMatch i (endIndex y)
          (Some (substring text i (endIndex y))
           :: map (captureText text y) (seq 1 (groupCount (source re)))).
Proof.
  unfold exec.
  destruct (searchFrom (flagI re) text (source re) 0 (length text))
    as [[i y] |] eqn:E; [| discriminate].
  intros H. injection H as <-.
  apply searchFrom_sound in E. destruct E as [Hi Hy].
  exists i, y.
  pose proof (matchR_extends _ _ _ _ _ Hy) as [Hle Hwf].
  assert (Hw : wfState text y) by (apply Hwf, wfState_initial; lia).
  split; [lia |]. split; [exact Hy |]. split; [exact Hw |].
  split; [exact Hle | reflexivity].
Qed.

Lemma matchGroup_capture text i y n k :
  1 <= k <= n ->
  matchGroup (mkMatch i (endIndex y)
                (Some (substring text i (endIndex y))
                 :: map (captureText text y) (seq 1 n))) k
  = captureText text y k.
Proof.
  intros Hk. unfold matchGroup. simpl.
  destruct k as [| k]; [lia |].
  rewrite nth_indep with (d' := captureText text y 0)
    by (rewrite length_map, length_seq; lia).
  rewrite map_nth. rewrite seq_nth by lia. reflexivity.
Qed.

Lemma substring_length (s : jsstring) a b :
  a <= b -> b <= length s -> length (substring s a b) = b - a.
Proof.
  intros Hab Hb. unfold substring.
  rewrite length_firstn, length_skipn. lia.
Qed.

(** A group that the pattern always defines is a non-empty string in the
    match array: [match[k]] is truthy. *)
Lemma exec_group_truthy re text m k :
  definesGroup k (source re) = true ->
  (1 <=? k) && (k <=? groupCount (source re)) = true ->
  exec re text = Some m ->
  truthy (matchGroup m k) = true.
Proof.
  intros Hd Hk He.
  apply andb_true_iff in Hk. destruct Hk as [Hk1 Hk2].
  apply Nat.leb_le in Hk1, Hk2.
  apply exec_inv in He. destruct He as [i [y [Hi [Hy [[Hl Hc] [_ ->]]]]]].
  rewrite matchGroup_capture by lia.
  destruct (matchR_defines _ _ _ _ Hd _ _ Hy) as [a [b [E [_ [Hab Hb]]]]].
  unfold captureText. rewrite E.
  assert (Hlen : length (substring text a b) = b - a)
    by (apply substring_length; lia).
  destruct (substring text a b); simpl in *; [lia | reflexivity].
Qed.

(** ** The priority chain of the amount extractors *)

Lemma firstAmount_hit p rest text m :
  amountShaped p = true ->
  exec p text = Some m ->
  TextProcessing.firstAmount (p :: rest) text = Some (normalized m).
Proof.
  intros Hs He. apply andb_true_iff in Hs. destruct Hs as [Hd Hk].
  simpl. rewrite He.
  rewrite (exec_group_truthy _ _ _ _ Hd Hk He). reflexivity.
Qed.

Lemma firstAmount_miss p rest text :
  exec p text = None ->
  TextProcessing.firstAmount (p :: rest) text = TextProcessing.firstAmount rest text.
Proof. intros He. simpl. rewrite He. reflexivity. Qed.

Lemma firstAmount_none ps text :
  (forall p, In p ps -> exec p text = None) ->
  TextProcessing.firstAmount ps text = None.
Proof.
  induction ps as [| p ps IH]; intros H; [reflexivity |].
  rewrite firstAmount_miss by (apply H; left; reflexivity).
  apply IH. intros q Hq. apply H. right. exact Hq.
Qed.

(** The extractor returns the normalized capture of the first pattern, in
    list order, that matches. *)
Lemma firstAmount_first ps : forall text skipped p rest m,
  ps = skipped ++ p :: rest ->
  (forall q, In q skipped -> exec q text = None) ->
  amountShaped p = true ->
  exec p text = Some m ->
  TextProcessing.firstAmount ps text = Some (normalized m).
Proof.
  intros text skipped. revert ps.
  induction skipped as [| q skipped IH]; intros ps p rest m -> Hs Hp He.
  - apply firstAmount_hit; assumption.
  - simpl app. rewrite firstAmount_miss by (apply Hs; left; reflexivity).
    eapply IH; eauto. intros q' Hq'. apply Hs. right. exact Hq'.
Qed.

Lemma firstAmount_some_inv ps text v :
  TextProcessing.firstAmount ps text = Some v ->
  exists p m, In p ps /\ exec p text = Some m.
Proof.
  induction ps as [| p ps IH]; simpl; [discriminate |].
  destruct (exec p text) as [m |] eqn:E.
  - intros _. exists p, m. auto.
  - intros H. destruct (IH H) as [q [m [Hq Hm]]]. exists q, m. auto.
Qed.

(** ** Keyword tables *)

Lemma firstEntryWith_none hit entries :
  (forall key keywords keyword,
     In (key, keywords) entries -> In keyword keywords -> hit keyword = false) ->
  TextProcessing.firstEntryWith hit entries = None.
Proof.
  induction entries as [| [key keywords] entries IH]; intros H; [reflexivity |].
  simpl. destruct (existsb hit keywords) eqn:E.
  - apply existsb_exists in E. destruct E as [kw [Hin Hkw]].
    rewrite (H key keywords kw) in Hkw; [discriminate | left; reflexivity | exact Hin].
  - apply IH. intros k ks kw Hk. apply (H k ks kw). right. exact Hk.
Qed.

Lemma firstEntryWith_some hit entries key :
  TextProcessing.firstEntryWith hit entries = Some key ->
  exists i keywords,
    nth_error entries i = Some (key, keywords) /\ existsb hit keywords = true /\
    forall j k ks, j < i -> nth_error entries j = Some (k, ks) -> existsb hit ks = false.
Proof.
  induction entries as [| [k0 ks0] entries IH]; simpl; [discriminate |].
  destruct (existsb hit ks0) eqn:E.
  - intros H. injection H as <-. exists 0, ks0. repeat split; auto.
    intros j k ks Hj. lia.
  - intros H. destruct (IH H) as [i [keywords [Hn [Hh Hbefore]]]].
    exists (S i), keywords. repeat split; auto.
    intros [| j] k ks Hj Hnth; simpl in Hnth.
    + injection Hnth as <- <-. exact E.
    + apply (Hbefore j k ks); [lia | exact Hnth].
Qed.

Lemma firstEntryWith_first hit entries i key keywords :
  nth_error entries i = Some (key, keywords) ->
  existsb hit keywords = true ->
  (forall j k ks, j < i -> nth_error entries j = Some (k, ks) -> existsb hit ks = false) ->
  TextProcessing.firstEntryWith hit entries = Some key.
Proof.
  revert i. induction entries as [| [k0 ks0] entries IH]; intros i Hn Hh Hb.
  - destruct i; discriminate.
  - simpl. destruct i as [| i]; simpl in Hn.
    + injection Hn as -> ->. rewrite Hh. reflexivity.
    + rewrite (Hb 0 k0 ks0) by (simpl; auto; lia).
      apply (IH i); auto.
      intros j k ks Hj Hnth. apply (Hb (S j) k ks); [lia | exact Hnth].
Qed.

(** ** Intent Classifier *)

Lemma noIntentKeyword_check text :
  forallb (fun entry : jsstring * list jsstring =>
             forallb (fun keyword => negb (includes (toLowerCase text) keyword))
                     (snd entry))
          Config.intentKeywords = true ->
  noIntentKeyword text.
Proof.
  intros H intent keywords keyword Hi Hk.
  rewrite forallb_forall in H. specialize (H _ Hi). simpl in H.
  rewrite forallb_forall in H. specialize (H _ Hk).
  apply negb_true_iff in H. exact H.
Qed.

(** ** Category Classifier *)

Lemma jseqb_eq a b : jseqb a b = true <-> a = b.
Proof.
  unfold jseqb. destruct (list_eq_dec N.eq_dec a b); split; congruence.
Qed.

Lemma distinctb_nth l :
  distinctb l = true ->
  forall i j x, nth_error l i = Some x -> nth_error l j = Some x -> i = j.
Proof.
  induction l as [| a l IH]; intros Hd i j x Hi Hj.
  - destruct i; discriminate.
  - simpl in Hd. apply andb_true_iff in Hd. destruct Hd as [Ha Hl].
    apply negb_true_iff in Ha.
    assert (Hnot : forall n, nth_error l n <> Some a).
    { intros n Hn. apply nth_error_In in Hn.
      assert (existsb (jseqb a) l = true); [| congruence].
      apply existsb_exists. exists a. split; [exact Hn | apply jseqb_eq; reflexivity]. }
    destruct i as [| i], j as [| j]; simpl in Hi, Hj.
    + reflexivity.
    + injection Hi as <-. destruct (Hnot j Hj).
    + injection Hj as <-. destruct (Hnot i Hi).
    + f_equal. eapply IH; eauto.
Qed.

Lemma category_keys_distinct i j c k1 k2 :
  declaredAt i c k1 -> declaredAt j c k2 -> i = j.
Proof.
  unfold declaredAt. intros Hi Hj.
  apply (distinctb_nth (map fst Config.expenseCategories)) with (x := c).
  - vm_compute. reflexivity.
  - rewrite nth_error_map, Hi. reflexivity.
  - rewrite nth_error_map, Hj. reflexivity.
Qed.

Lemma containsKeywordOf_existsb text keywords :
  containsKeywordOf text keywords <->
  existsb (fun keyword => includes (toLowerCase text) (toLowerCase keyword)) keywords
  = true.
Proof.
  unfold containsKeywordOf. rewrite existsb_exists. reflexivity.
Qed.

(** The classifier returns the first category, in declaration order, one of
    whose keywords the text contains. *)
Lemma categorizeExpense_first text i c k :
  declaredAt i c k -> containsKeywordOf text k ->
  (forall l c' k', l < i -> declaredAt l c' k' -> ~ containsKeywordOf text k') ->
  TextProcessing.categorizeExpense text = c.
Proof.
  intros Hi Hk Hbefore. unfold TextProcessing.categorizeExpense.
  erewrite firstEntryWith_first; [reflexivity | exact Hi | |].
  - apply containsKeywordOf_existsb. exact Hk.
  - intros j c' k' Hj Hn. apply not_true_is_false. intros E.
    apply (Hbefore j c' k' Hj Hn). apply containsKeywordOf_existsb. exact E.
Qed.

Lemma categorizeExpense_earliest text i c k :
  declaredAt i c k -> containsKeywordOf text k ->
  exists i' k', i' <= i /\ declaredAt i' (TextProcessing.categorizeExpense text) k' /\
                containsKeywordOf text k' /\
                forall l c0 k0, declaredAt l c0 k0 -> containsKeywordOf text k0 -> i' <= l.
Proof.
  intros Hi Hk. unfold TextProcessing.categorizeExpense.
  destruct (TextProcessing.firstEntryWith _ Config.expenseCategories) as [key |] eqn:E.
  - apply firstEntryWith_some in E. destruct E as [i' [k' [Hn [Hh Hb]]]].
    assert (Hmin : forall l c0 k0,
               declaredAt l c0 k0 -> containsKeywordOf text k0 -> i' <= l).
    { intros l c0 k0 Hl Hc0.
      destruct (Nat.le_gt_cases i' l) as [Hle | Hgt]; [exact Hle |].
      apply containsKeywordOf_existsb in Hc0.
      rewrite (Hb l c0 k0 Hgt Hl) in Hc0. discriminate. }
    exists i', k'. split; [apply (Hmin i c k Hi Hk) |].
    split; [exact Hn |]. split; [apply containsKeywordOf_existsb; exact Hh | exact Hmin].
  - apply containsKeywordOf_existsb in Hk.
    assert (Hnone : existsb (fun keyword =>
                       includes (toLowerCase text) (toLowerCase keyword)) k = false).
    { clear Hk. revert i Hi E. unfold declaredAt.
      induction Config.expenseCategories as [| [k0 ks0] entries IH]; intros i Hi E.
      - destruct i; discriminate.
      - simpl in E.
        destruct (existsb _ ks0) eqn:E0; [discriminate |].
        destruct i as [| i]; simpl in Hi.
        + injection Hi as _ <-. exact E0.
        + eapply IH; eauto. }
    congruence.
Qed.

(** ** Budget update: the category match *)

Section BestMatch.

Import ExpenseController.

Variable name : jsstring.





(** One category [(C, kws)] holds a keyword of the name; the other entries
    are unrelated to it. *)
Variable C : jsstring.
Variable kws : list jsstring.

Hypothesis C_unrelated : includes name C = false /\ includes C name = false.
Hypothesis C_keyword :
  exists keyword, In keyword kws /\ includes name keyword = true /\ 0 < length keyword.


End BestMatch.









(** ** Calendar arithmetic *)

Section Calendar.

Local Open Scope Z_scope.

Lemma DayFromYear_next y : DayFromYear (y + 1) = DayFromYear y + DaysInYear y.
Proof.
  unfold DayFromYear, DaysInYear.
  destruct (Z.eqb_spec (y mod 4) 0); cbn [negb];
    [destruct (Z.eqb_spec (y mod 100) 0); cbn [negb];
     [destruct (Z.eqb_spec (y mod 400) 0); cbn [negb] |] |];
    Z.div_mod_to_equations; lia.
Qed.

Lemma DayFromYear_mono a b : a <= b -> DayFromYear a <= DayFromYear b.
Proof. unfold DayFromYear. intros H. Z.div_mod_to_equations. lia. Qed.

Lemma YearFromDay_spec t :
  DayFromYear (YearFromDay t) <= t < DayFromYear (YearFromDay t + 1).
Proof.
  unfold YearFromDay.
  set (y0 := 1970 + 400 * t / 146097).
  assert (Hlo : DayFromYear (y0 - 1) <= t)
    by (unfold DayFromYear, y0; Z.div_mod_to_equations; lia).
  assert (Hhi : t < DayFromYear (y0 + 2))
    by (unfold DayFromYear, y0; Z.div_mod_to_equations; lia).
  destruct (Z.leb_spec (DayFromYear (y0 + 1)) t).
  - replace (y0 + 1 + 1) with (y0 + 2) by lia. lia.
  - destruct (Z.leb_spec (DayFromYear y0) t).
    + lia.
    + replace (y0 - 1 + 1) with y0 by lia. lia.
Qed.

Lemma YearFromDay_unique t y :
  DayFromYear y <= t < DayFromYear (y + 1) -> YearFromDay t = y.
Proof.
  intros H. pose proof (YearFromDay_spec t) as S.
  destruct (Z.lt_trichotomy (YearFromDay t) y) as [L | [E | L]]; [| exact E |].
  - pose proof (DayFromYear_mono (YearFromDay t + 1) y). lia.
  - pose proof (DayFromYear_mono (y + 1) (YearFromDay t)). lia.
Qed.

Lemma DayWithinYear_range t :
  0 <= DayWithinYear t < DaysInYear (YearFromDay t).
Proof.
  unfold DayWithinYear. pose proof (YearFromDay_spec t) as S.
  rewrite DayFromYear_next in S. lia.
Qed.

Lemma InLeapYearOf_isLeapYear y :
  InLeapYearOf y = if isLeapYear y then 1 else 0.
Proof.
  unfold InLeapYearOf, DaysInYear, isLeapYear.
  destruct (y mod 4 =? 0), (y mod 100 =? 0), (y mod 400 =? 0); reflexivity.
Qed.

Lemma DaysInYear_leap y : DaysInYear y = 365 + InLeapYearOf y.
Proof. unfold InLeapYearOf. lia. Qed.

Ltac split_ltb :=
  repeat match goal with
         | |- context [Z.ltb ?a ?b] => destruct (Z.ltb_spec a b); try lia
         end.

Ltac leap_cases leap H :=
  let C := fresh "C" in
  assert (C : leap = 0 \/ leap = 1) by lia; clear H; destruct C; subst leap.

Lemma monthOf_range leap d : 0 <= monthOf leap d <= 11.
Proof. unfold monthOf. split_ltb. Qed.

(** Within a year: where day [d] falls, and where the day before it does. *)
Lemma monthOf_day leap d :
  0 <= leap <= 1 -> 0 <= d < 365 + leap ->
  let m := monthOf leap d in
  monthStart leap m <= d /\
  (m = 0 /\ d < 31 \/
   1 <= m <= 10 /\ d < monthStart leap (m + 1) \/
   m = 11).
Proof.
  intros Hl Hd. leap_cases leap Hl; unfold monthOf; split_ltb; cbn; lia.
Qed.

Lemma monthOf_previous leap d :
  0 <= leap <= 1 -> 1 <= d < 365 + leap ->
  let m := monthOf leap d in
  let m' := monthOf leap (d - 1) in
  (monthStart leap m < d -> m' = m) /\
  (monthStart leap m = d -> m' = m - 1 /\ 1 <= m).
Proof.
  intros Hl Hd. leap_cases leap Hl; unfold monthOf; split_ltb; cbn; lia.
Qed.

Lemma month_length y m :
  1 <= m <= 11 ->
  monthStart (InLeapYearOf y) m - monthStart (InLeapYearOf y) (m - 1)
  = daysInMonth y m.
Proof.
  intros Hm. rewrite InLeapYearOf_isLeapYear. unfold daysInMonth.
  assert (C : m = 1 \/ m = 2 \/ m = 3 \/ m = 4 \/ m = 5 \/ m = 6 \/ m = 7 \/ m = 8
              \/ m = 9 \/ m = 10 \/ m = 11) by lia.
  destruct (isLeapYear y);
    repeat (destruct C as [-> | C]; [reflexivity |]); subst m; reflexivity.
Qed.

Lemma InLeapYearOf_range y : 0 <= InLeapYearOf y <= 1.
Proof. rewrite InLeapYearOf_isLeapYear. destruct (isLeapYear y); lia. Qed.

(** The accessors of any [Date] read a date of the calendar. *)
Lemma civil_valid date : validCalendarDate (civil date).
Proof.
  unfold civil, validCalendarDate, getFullYear, getMonth, getDate,
    MonthFromDay, DateFromDay, MonthFromDay.
  set (t := localDay date). set (y := YearFromDay t).
  pose proof (DayWithinYear_range t) as R. fold y in R.
  rewrite DaysInYear_leap in R.
  pose proof (InLeapYearOf_range y) as L.
  pose proof (monthOf_range (InLeapYearOf y) (DayWithinYear t)) as M.
  destruct (monthOf_day (InLeapYearOf y) (DayWithinYear t) L R) as [Hs Hc].
  split; [lia |].
  set (m := monthOf (InLeapYearOf y) (DayWithinYear t)) in *.
  split; [lia |].
  destruct Hc as [[E Hd] | [[Hm Hd] | E]].
  - rewrite E in *. change (daysInMonth y (0 + 1)) with 31.
    change (monthStart (InLeapYearOf y) 0) with 0 in *. lia.
  - pose proof (month_length y (m + 1)) as Hlen.
    replace (m + 1 - 1) with m in Hlen by lia. lia.
  - rewrite E in *. change (daysInMonth y (11 + 1)) with 31.
    change (monthStart (InLeapYearOf y) 11) with (334 + InLeapYearOf y) in *. lia.
Qed.

Lemma MakeDay_fields t k :
  MakeDay (YearFromDay t) (MonthFromDay t) (DateFromDay t + k) = t + k.
Proof.
  unfold MakeDay, DateFromDay, MonthFromDay, DayWithinYear.
  pose proof (monthOf_range (InLeapYearOf (YearFromDay t))
                            (t - DayFromYear (YearFromDay t))) as M.
  set (m := monthOf _ _) in *.
  rewrite Z.div_small by lia. rewrite Z.mod_small by lia.
  rewrite Z.add_0_r. lia.
Qed.

(** [setDate] with the day of the month shifted by [k] moves the date by
    [k] days. *)
Lemma setDate_shift date k :
  localDay (setDate date (getDate date + k)) = localDay date + k.
Proof. unfold setDate, getFullYear, getMonth, getDate. simpl. apply MakeDay_fields. Qed.

(** The date one day earlier is the day before in the calendar, across
    month and year ends. *)
Lemma civil_previous_day date date' :
  localDay date' = localDay date - 1 ->
  civil date' = dayBefore (civil date).
Proof.
  unfold civil, dayBefore, getFullYear, getMonth, getDate, MonthFromDay, DateFromDay,
    MonthFromDay.
  intros ->. set (t := localDay date). set (y := YearFromDay t).
  pose proof (DayWithinYear_range t) as R. fold y in R.
  rewrite DaysInYear_leap in R.
  pose proof (InLeapYearOf_range y) as L.
  pose proof (YearFromDay_spec t) as S. fold y in S.
  destruct (Z.eq_dec (DayWithinYear t) 0) as [Z0 | NZ].
  - (* the first day of a year *)
    assert (Ht : t = DayFromYear y) by (unfold DayWithinYear in Z0; fold y in Z0; lia).
    assert (Hy : YearFromDay (t - 1) = y - 1).
    { apply YearFromDay_unique. replace (y - 1 + 1) with y by lia.
      pose proof (DayFromYear_next (y - 1)) as N.
      replace (y - 1 + 1) with y in N by lia.
      unfold DaysInYear in N.
      destruct (negb ((y - 1) mod 4 =? 0)), (negb ((y - 1) mod 100 =? 0)),
        (negb ((y - 1) mod 400 =? 0)); lia. }
    assert (Hd : DayWithinYear (t - 1) = 364 + InLeapYearOf (y - 1)).
    { unfold DayWithinYear. rewrite Hy.
      pose proof (DayFromYear_next (y - 1)) as N.
      replace (y - 1 + 1) with y in N by lia. rewrite DaysInYear_leap in N. lia. }
    rewrite Hy, Hd, Z0.
    change (monthOf (InLeapYearOf y) 0) with 0.
    change (monthStart (InLeapYearOf y) 0) with 0.
    change (1 <? 0 - 0 + 1) with false. change (1 <? 0 + 1) with false.
    pose proof (InLeapYearOf_range (y - 1)) as L'.
    assert (C : InLeapYearOf (y - 1) = 0 \/ InLeapYearOf (y - 1) = 1) by lia.
    destruct C as [E | E]; rewrite E; reflexivity.
  - assert (Hy : YearFromDay (t - 1) = y).
    { apply YearFromDay_unique. unfold DayWithinYear in NZ, R. fold y in NZ, R. lia. }
    assert (Hd : DayWithinYear (t - 1) = DayWithinYear t - 1)
      by (unfold DayWithinYear; rewrite Hy; fold y; lia).
    rewrite Hy, Hd.
    assert (R1 : 1 <= DayWithinYear t < 365 + InLeapYearOf y) by lia.
    destruct (monthOf_previous (InLeapYearOf y) (DayWithinYear t) L R1) as [Hsame Hprev].
    destruct (monthOf_day (InLeapYearOf y) (DayWithinYear t) L R) as [Hs _].
    pose proof (monthOf_range (InLeapYearOf y) (DayWithinYear t)) as M.
    set (m := monthOf (InLeapYearOf y) (DayWithinYear t)) in *.
    destruct (Z.ltb_spec 1 (DayWithinYear t - monthStart (InLeapYearOf y) m + 1)).
    + rewrite Hsame by lia. f_equal. lia.
    + destruct Hprev as [Hm' Hm1]; [lia |]. rewrite Hm'.
      destruct (Z.ltb_spec 1 (m + 1)); [| lia].
      replace (m + 1 - 1) with m by lia.
      replace (m - 1 + 1) with m by lia.
      f_equal. rewrite <- month_length by lia. lia.
Qed.

End Calendar.

(** ** Date Extractor *)

Lemma formatDate_civil date :
  TextProcessing.formatDate date = ymdString (civil date).
Proof. reflexivity. Qed.

(** ** Captures of digit groups *)

Section CaptureFacts.

Variable ignoreCase : bool.
Variable input : jsstring.

Local Abbreviation matchR := (RegExp.matchR ignoreCase input).
Local Abbreviation captureOrigin := (captureOrigin ignoreCase input).

Lemma captureOrigin_weaken r r' x y :
  (forall e, In e (groupBodies r) -> In e (groupBodies r')) ->
  captureOrigin r x y -> captureOrigin r' x y.
Proof.
  intros Hsub H k. destruct (H k) as [E | [E | [body [x' [z [Hin [Hz E]]]]]]]; auto.
  right. right. exists body, x', z. auto.
Qed.

Lemma captureOrigin_refl r x : captureOrigin r x x.
Proof. intros k. left. reflexivity. Qed.

Lemma captureOrigin_trans r x y z :
  captureOrigin r x y -> captureOrigin r y z -> captureOrigin r x z.
Proof.
  intros H1 H2 k. destruct (H2 k) as [E | [E | E]]; auto.
  rewrite E. apply H1.
Qed.

Lemma matchR_origin r : forall x y, In y (matchR r x) -> captureOrigin r x y.
Proof.
  induction r as [| c | inv atoms | | a IHa b IHb | a IHa b IHb
                  | min max greedy a IHa | j a IHa | |]; intros x y Hin; simpl in Hin.
  - destruct Hin as [<- | []]. apply captureOrigin_refl.
  - apply charStep_in in Hin. destruct Hin as [ch [_ [_ ->]]]. intros k. auto.
  - apply charStep_in in Hin. destruct Hin as [ch [_ [_ ->]]]. intros k. auto.
  - apply charStep_in in Hin. destruct Hin as [ch [_ [_ ->]]]. intros k. auto.
  - apply in_flat_map in Hin. destruct Hin as [z [Hz Hy]].
    apply captureOrigin_trans with z.
    + apply captureOrigin_weaken with a; [| auto].
      intros e He. simpl. apply in_or_app. auto.
    + apply captureOrigin_weaken with b; [| auto].
      intros e He. simpl. apply in_or_app. auto.
  - apply in_app_or in Hin. destruct Hin as [H | H].
    + apply captureOrigin_weaken with a; [| auto].
      intros e He. simpl. apply in_or_app. auto.
    + apply captureOrigin_weaken with b; [| auto].
      intros e He. simpl. apply in_or_app. auto.
  - revert Hin. apply (repeat_closed (fun x y => captureOrigin (Repeat min max greedy a) x y)).
    + apply captureOrigin_refl.
    + apply captureOrigin_trans.
    + intros x0 k. simpl. destruct (existsb (Nat.eqb k) (groupsOf a)); auto.
    + intros x0 y0 H0. apply captureOrigin_weaken with a; auto.
  - apply in_map_iff in Hin. destruct Hin as [z [<- Hz]].
    intros k. simpl. destruct (Nat.eqb k j) eqn:E.
    + apply Nat.eqb_eq in E. subst k. right. right.
      exists a, x, z. simpl. auto.
    + destruct (IHa _ _ Hz k) as [H | [H | [body [x' [z' [Hb [Hz' H]]]]]]]; auto.
      right. right. exists body, x', z'. simpl. auto.
  - destruct (Nat.eqb (endIndex x) 0); [| contradiction].
    destruct Hin as [<- | []]. apply captureOrigin_refl.
  - destruct (Nat.eqb (endIndex x) (length input)); [| contradiction].
    destruct Hin as [<- | []]. apply captureOrigin_refl.
Qed.

Lemma spanOf_refl P x : spanOf input P x x.
Proof. split; [reflexivity | intros i Hi; lia]. Qed.

Lemma spanOf_trans P x y z : spanOf input P x y -> spanOf input P y z -> spanOf input P x z.
Proof.
  intros [L1 S1] [L2 S2]. split; [lia |].
  intros i Hi. destruct (Nat.lt_ge_cases i (endIndex y)); [apply S1 | apply S2]; lia.
Qed.

Lemma charStep_span P accept x y :
  (forall ch, accept ch = true -> P ch = true) ->
  In y (charStep input accept x) ->
  spanOf input P x y /\ endIndex y = S (endIndex x).
Proof.
  intros HP Hin. apply charStep_in in Hin. destruct Hin as [ch [Hn [Ha ->]]].
  simpl. split; [| reflexivity]. split; simpl; [lia |].
  intros i Hi. assert (i = endIndex x) by lia. subst i. exists ch. auto.
Qed.

(** A bounded repetition of a one-character body takes at most [max]
    characters, all of them accepted by the body. *)
Lemma repeat_chars P (m : MatchState -> list MatchState) parens greedy :
  (forall x y, In y (m x) -> spanOf input P x y /\ endIndex y = S (endIndex x)) ->
  forall fuel min max x y,
    In y (RegExp.repeatMatcher m parens greedy fuel min (Some max) x) ->
    spanOf input P x y /\ endIndex y <= endIndex x + max.
Proof.
  intros Hm. induction fuel as [| fuel IH]; intros min max x y Hin.
  - destruct max as [| max]; simpl in Hin; [| contradiction].
    destruct Hin as [<- | []]. split; [apply spanOf_refl | lia].
  - destruct max as [| max]; simpl in Hin.
    { destruct Hin as [<- | []]. split; [apply spanOf_refl | lia]. }
    assert (Hd : In y (flat_map
        (fun y0 : MatchState =>
           if Nat.eqb min 0 && Nat.eqb (endIndex y0) (endIndex x) then []
           else RegExp.repeatMatcher m parens greedy fuel (Nat.pred min) (Some max) y0)
        (m (clearCaptures parens x))) ->
        spanOf input P x y /\ endIndex y <= endIndex x + S max).
    { intros Hf. apply in_flat_map in Hf. destruct Hf as [z [Hz Hy]].
      destruct (Nat.eqb min 0 && Nat.eqb (endIndex z) (endIndex x)); [contradiction |].
      apply Hm in Hz. destruct Hz as [Sz Ez]. simpl in Ez.
      apply IH in Hy. destruct Hy as [Sy Ey].
      split; [| lia].
      apply spanOf_trans with z; [| exact Sy].
      destruct Sz as [Lz Cz]. split; [exact Lz | exact Cz]. }
    destruct (Nat.eqb min 0); simpl in Hin.
    + destruct greedy.
      * apply in_app_or in Hin. destruct Hin as [Hin | [<- | []]]; auto.
        split; [apply spanOf_refl | lia].
      * destruct Hin as [<- | Hin]; auto. split; [apply spanOf_refl | lia].
    + auto.
Qed.

End CaptureFacts.

Lemma digit_canonical ic a : isDigit a = true -> canonicalize ic a = a.
Proof.
  unfold isDigit, canonicalize, upperUnit. intros H.
  apply andb_true_iff in H. destruct H as [H1 H2].
  apply N.leb_le in H1, H2.
  destruct ic; [| reflexivity].
  split_n; auto; lia.
Qed.

Lemma canonical_digit ic ch a :
  isDigit a = true -> canonicalize ic ch = a -> ch = a.
Proof.
  unfold isDigit, canonicalize, upperUnit. intros H.
  apply andb_true_iff in H. destruct H as [H1 H2].
  apply N.leb_le in H1, H2.
  destruct ic; [| auto].
  split_n; intros; lia.
Qed.

(** Under either setting of the [i] flag, [\d] accepts decimal digits
    only. *)
Lemma digit_accepts ic ch :
  setAccepts ic [ClassDigit] false ch = true -> isDigit ch = true.
Proof.
  unfold setAccepts. rewrite xorb_false_l. intros H.
  apply existsb_exists in H. destruct H as [a [_ Ha]].
  apply andb_true_iff in Ha. destruct Ha as [Hd Hc].
  unfold setContains in Hd. simpl in Hd. rewrite orb_false_r in Hd.
  apply N.eqb_eq in Hc. rewrite (digit_canonical ic a Hd) in Hc.
  symmetry in Hc. rewrite (canonical_digit ic ch a Hd Hc). exact Hd.
Qed.

Lemma matchR_digits ic input lo hi x y :
  In y (RegExp.matchR ic input (Between lo hi Config.digit) x) ->
  spanOf input isDigit x y /\ endIndex y <= endIndex x + hi.
Proof.
  unfold Between. simpl. apply repeat_chars.
  intros x0 y0 H0. eapply charStep_span; [| exact H0].
  apply digit_accepts.
Qed.

Lemma substring_forallb (s : jsstring) P a b :
  (forall i, a <= i < b -> exists ch, nth_error s i = Some ch /\ P ch = true) ->
  forallb P (substring s a b) = true.
Proof.
  intros H. apply forallb_forall. intros c Hc.
  apply In_nth_error in Hc. destruct Hc as [j Hj].
  unfold substring in Hj. rewrite nth_error_firstn in Hj.
  destruct (Nat.ltb_spec j (b - a)); [| discriminate].
  rewrite nth_error_skipn in Hj.
  destruct (H (a + j)) as [ch [Hn Hp]]; [lia |]. congruence.
Qed.

Lemma substring_length_le (s : jsstring) a b : length (substring s a b) <= b - a.
Proof. unfold substring. rewrite length_firstn. lia. Qed.

Lemma canonical_below_letters ic ch a :
  (a < 65)%N ->
  canonicalize ic a = a /\ (canonicalize ic ch = a -> ch = a).
Proof.
  unfold canonicalize, upperUnit. intros H.
  destruct ic; [| auto].
  split; split_n; intros; lia.
Qed.

(** Under either setting of the [i] flag, [[0-9.,]] accepts digits, periods
    and commas only. *)
Lemma numeral_accepts ic ch :
  setAccepts ic [ClassRange (Config.chr "0") (Config.chr "9");
                 ClassChar (Config.chr "."); ClassChar (Config.chr ",")] false ch = true ->
  isNumeralChar ch = true.
Proof.
  unfold setAccepts. rewrite xorb_false_l. intros H.
  apply existsb_exists in H. destruct H as [a [_ Ha]].
  apply andb_true_iff in Ha. destruct Ha as [Hd Hc].
  apply N.eqb_eq in Hc.
  assert (Hn : isNumeralChar a = true).
  { unfold setContains in Hd. simpl in Hd. rewrite orb_false_r in Hd.
    change (Config.chr "0") with 48%N in Hd. change (Config.chr "9") with 57%N in Hd.
    change (Config.chr ".") with 46%N in Hd. change (Config.chr ",") with 44%N in Hd.
    rewrite orb_assoc in Hd. unfold isNumeralChar, isDigit. exact Hd. }
  assert (Ha : (a < 65)%N).
  { unfold isNumeralChar, isDigit in Hn. revert Hn. split_n; intros; lia. }
  destruct (canonical_below_letters ic ch a Ha) as [E1 E2].
  rewrite E1 in Hc. symmetry in Hc. rewrite (E2 Hc). exact Hn.
Qed.

(** A repetition of a one-character body, bounded or not, spans accepted
    characters only. *)
Lemma repeat_span ic input P r min max greedy x y :
  (forall x y, In y (RegExp.matchR ic input r x) -> spanOf input P x y) ->
  In y (RegExp.matchR ic input (Repeat min max greedy r) x) ->
  spanOf input P x y.
Proof.
  intros Hr. simpl.
  apply (repeat_closed (spanOf input P)); auto.
  - apply spanOf_refl.
  - apply spanOf_trans.
  - intros x0. split; simpl; [lia | intros i Hi; lia].
Qed.

Lemma matchR_numeral ic input x y :
  In y (RegExp.matchR ic input Config.numeral x) -> spanOf input isNumeralChar x y.
Proof.
  unfold Config.numeral, Plus. apply repeat_span.
  intros x0 y0 H0. simpl in H0.
  eapply charStep_span in H0; [exact (proj1 H0) |].
  apply numeral_accepts.
Qed.

(** A pattern whose only group is [([0-9.,]+)] captures digits, periods and
    commas. *)
Lemma exec_numeral_group re text m :
  groupBodies (source re) = [(1, Config.numeral)] ->
  exec re text = Some m ->
  truthy (matchGroup m 1) = true ->
  forallb isNumeralChar (groupString m 1) = true.
Proof.
  intros Hb He Ht.
  apply exec_inv in He. destruct He as [i [y [Hi [Hy [[Hl Hc] [_ ->]]]]]].
  assert (Hn : groupCount (source re) = 1).
  { unfold groupCount.
    assert (G : groupsOf (source re) = map fst (groupBodies (source re))).
    { clear. induction (source re); simpl; try reflexivity;
        try (rewrite map_app; congruence); congruence. }
    rewrite G, Hb. reflexivity. }
  unfold groupString. rewrite Hn in *.
  rewrite matchGroup_capture in * by lia.
  unfold captureText in *.
  destruct (matchR_origin _ _ _ _ _ Hy 1) as [E | [E | [body [x' [z [Hbody [Hz E]]]]]]].
  - rewrite E in Ht. simpl in Ht. discriminate.
  - rewrite E in Ht. discriminate.
  - rewrite E. rewrite Hb in Hbody. destruct Hbody as [Hbody | []].
    injection Hbody as <-.
    apply matchR_numeral in Hz. destruct Hz as [_ Hspan].
    apply substring_forallb. exact Hspan.
Qed.

(** *** Characters before and inside a capture *)

Lemma matchR_onlyChars ic input P r :
  onlyChars ic P r ->
  forall x y, In y (RegExp.matchR ic input r x) -> spanOf input P x y.
Proof.
  induction r as [| c | inv atoms | | a IHa b IHb | a IHa b IHb
                  | min max greedy a IHa | k a IHa | |]; intros Ho x y Hin;
    simpl in Ho.
  - simpl in Hin. destruct Hin as [<- | []]. apply spanOf_refl.
  - simpl in Hin. eapply charStep_span in Hin; [exact (proj1 Hin) |].
    intros ch Hch. apply Ho. apply N.eqb_eq. exact Hch.
  - simpl in Hin. eapply charStep_span in Hin; [exact (proj1 Hin) |]. exact Ho.
  - simpl in Hin. eapply charStep_span in Hin; [exact (proj1 Hin) |].
    intros ch Hch. apply Ho. apply negb_true_iff. exact Hch.
  - simpl in Hin. apply in_flat_map in Hin. destruct Hin as [z [Hz Hy]].
    destruct Ho as [Ha Hb]. eapply spanOf_trans; eauto.
  - simpl in Hin. destruct Ho as [Ha Hb].
    apply in_app_or in Hin. destruct Hin; auto.
  - revert Hin. apply repeat_span. auto.
  - simpl in Hin. apply in_map_iff in Hin. destruct Hin as [z [<- Hz]].
    destruct (IHa Ho _ _ Hz) as [Hle Hsp]. split; simpl; auto.
  - simpl in Hin. destruct (Nat.eqb (endIndex x) 0); [| contradiction].
    destruct Hin as [<- | []]. apply spanOf_refl.
  - simpl in Hin. destruct (Nat.eqb (endIndex x) (length input)); [| contradiction].
    destruct Hin as [<- | []]. apply spanOf_refl.
Qed.

(** A sequence that ends with a term [g]: the state before [g] is reached
    through the terms in front of it. *)
Lemma matchR_Seqs_last ic input P rs g : forall x y,
  Forall (onlyChars ic P) rs ->
  In y (RegExp.matchR ic input (Seqs (rs ++ [g])) x) ->
  exists x', spanOf input P x x' /\ In y (RegExp.matchR ic input g x').
Proof.
  induction rs as [| r rs IH]; intros x y Hall Hin.
  - exists x. split; [apply spanOf_refl | exact Hin].
  - assert (E : Seqs ((r :: rs) ++ [g]) = Seq r (Seqs (rs ++ [g])))
      by (simpl; destruct (rs ++ [g]) eqn:Q;
          [destruct rs; discriminate | reflexivity]).
    rewrite E in Hin. simpl in Hin. apply in_flat_map in Hin.
    destruct Hin as [z [Hz Hy]].
    inversion Hall as [| ? ? Hr Hrs]; subst.
    destruct (IH _ _ Hrs Hy) as [x' [Hsp Hg]].
    exists x'. split; [| exact Hg].
    eapply spanOf_trans; [| exact Hsp].
    eapply matchR_onlyChars; eauto.
Qed.

Lemma numeral_canonical ic ch :
  isNumeralChar ch = true -> canonicalize ic ch = ch.
Proof.
  intros H. apply (canonical_below_letters ic ch ch).
  unfold isNumeralChar, isDigit in H. revert H. split_n; intros; lia.
Qed.

(** A set whose members are their own canonical form and are not amount
    characters accepts no amount character. *)
Lemma setAccepts_notNumeral ic atoms ch :
  (forall a, setContains atoms a = true ->
             canonicalize ic a = a /\ isNumeralChar a = false) ->
  setAccepts ic atoms false ch = true -> notNumeralChar ch = true.
Proof.
  intros Hset H. unfold setAccepts in H. rewrite xorb_false_l in H.
  apply existsb_exists in H. destruct H as [a [_ Ha]].
  apply andb_true_iff in Ha. destruct Ha as [Hm Hc]. apply N.eqb_eq in Hc.
  destruct (Hset a Hm) as [Ca Na].
  unfold notNumeralChar. apply negb_true_iff.
  destruct (isNumeralChar ch) eqn:E; [| reflexivity].
  rewrite (numeral_canonical ic ch E), Ca in Hc. congruence.
Qed.

Lemma char_notNumeral ic c ch :
  (65 <= canonicalize ic c)%N ->
  canonicalize ic ch = canonicalize ic c -> notNumeralChar ch = true.
Proof.
  intros Hc E. unfold notNumeralChar. apply negb_true_iff.
  destruct (isNumeralChar ch) eqn:Q; [| reflexivity].
  rewrite (numeral_canonical ic ch Q) in E.
  unfold isNumeralChar, isDigit in Q. revert Q. split_n; intros; lia.
Qed.

Lemma whitespace_canonical ic a :
  isWhiteSpace a = true -> canonicalize ic a = a /\ isNumeralChar a = false.
Proof.
  unfold isWhiteSpace, isNumeralChar, isDigit, canonicalize, upperUnit.
  destruct ic; split_n; intros; auto; try discriminate; try lia.
Qed.

Lemma onlyChars_Lit ic P s :
  Forall (fun c => forall ch, canonicalize ic ch = canonicalize ic c -> P ch = true) s ->
  onlyChars ic P (Lit s).
Proof.
  induction s as [| c s IH]; intros H; [exact I |].
  inversion H as [| ? ? Hc Hs]; subst.
  destruct s as [| c' s']; [exact Hc |].
  change (Lit (c :: c' :: s')) with (Seq (Char c) (Lit (c' :: s'))).
  split; [exact Hc | apply IH; exact Hs].
Qed.

Lemma totalLabel_notNumeral : Forall (onlyChars true notNumeralChar) totalLabel.
Proof.
  unfold totalLabel.
  assert (Sp : onlyChars true notNumeralChar Config.spaces).
  { unfold Config.spaces, Star. cbn [onlyChars]. intros ch.
    apply setAccepts_notNumeral.
    intros a Ha. unfold setContains in Ha. cbn [existsb atomContains] in Ha.
    rewrite orb_false_r in Ha. apply whitespace_canonical. exact Ha. }
  apply Forall_cons; [| apply Forall_cons; [exact Sp |
    apply Forall_cons; [| apply Forall_cons; [exact Sp | apply Forall_nil]]]].
  - unfold Config.word. apply onlyChars_Lit.
    change (js "TOTAL") with [84; 79; 84; 65; 76]%N.
    repeat (apply Forall_cons;
            [intros ch; apply char_notNumeral; vm_compute; discriminate |]).
    apply Forall_nil.
  - unfold Opt, ReceiptController.currency. cbn [onlyChars]. intros ch.
    apply setAccepts_notNumeral.
    intros a Ha. unfold setContains in Ha. cbn [existsb atomContains] in Ha.
    rewrite orb_false_r in Ha. apply orb_true_iff in Ha.
    destruct Ha as [Ha | Ha]; apply N.eqb_eq in Ha; subst a; split; reflexivity.
Qed.

Lemma substring_nth (s w : jsstring) a b :
  substring s a b = w -> forall j, j < b - a -> nth_error s (a + j) = nth_error w j.
Proof.
  intros <- j Hj. unfold substring.
  rewrite nth_error_firstn. destruct (Nat.ltb_spec j (b - a)); [| lia].
  rewrite nth_error_skipn. reflexivity.
Qed.

Lemma substring_suffix (s : jsstring) a k b :
  substring s (a + k) b = skipn k (substring s a b).
Proof.
  unfold substring. rewrite skipn_firstn_comm, skipn_skipn.
  f_equal; [lia | f_equal; lia].
Qed.

(** When the match of the first receipt pattern is a text that splits into a
    label without amount characters and a tail of amount characters, the
    capture is that tail. *)
Lemma receipt_total_capture text m (w : jsstring) k :
  exec (receiptPattern 1) text = Some m ->
  matchGroup m 0 = Some w ->
  k < length w ->
  (exists c, nth_error w k = Some c /\ isNumeralChar c = true) ->
  (k = 0 \/ exists c, nth_error w (k - 1) = Some c /\ isNumeralChar c = false) ->
  groupString m 1 = skipn k w.
Proof.
  intros He Hw Hk Hnum Hlab.
  apply exec_inv in He. destruct He as [i [y [Hi [Hy [[Hl Hc] [Hiy ->]]]]]].
  unfold matchGroup in Hw. simpl in Hw. injection Hw as Hw.
  unfold groupString.
  rewrite matchGroup_capture by (vm_compute; lia).
  change (source (receiptPattern 1))
    with (Seqs (totalLabel ++ [Group 1 Config.numeral])) in Hy.
  destruct (matchR_Seqs_last _ _ _ _ _ _ _ totalLabel_notNumeral Hy)
    as [x4 [[Hle Hlabel] Hg]].
  simpl in Hg. apply in_map_iff in Hg. destruct Hg as [z [<- Hz]].
  pose proof Hz as Hz'. apply matchR_numeral in Hz'. destruct Hz' as [Hle' Hspan].
  simpl in *.
  assert (Hlen : endIndex z - i = length w)
    by (rewrite <- Hw; symmetry; apply substring_length; lia).
  unfold captureText. simpl.
  assert (Ha : endIndex x4 = i + k).
  { destruct (Nat.lt_trichotomy (endIndex x4) (i + k)) as [L | [E | G]]; [| exact E |].
    - (* the character before position k would be an amount character *)
      destruct Hlab as [-> | [c [Hc1 Hc2]]]; [lia |].
      destruct (Hspan (i + (k - 1))) as [ch [Hn Hp]]; [lia |].
      rewrite (substring_nth _ _ _ _ Hw) in Hn by lia. congruence.
    - (* the character at position k would belong to the label *)
      destruct Hnum as [c [Hc1 Hc2]].
      destruct (Hlabel (i + k)) as [ch [Hn Hp]]; [lia |].
      rewrite (substring_nth _ _ _ _ Hw) in Hn by lia.
      unfold notNumeralChar in Hp. apply negb_true_iff in Hp. congruence. }
  rewrite Ha, substring_suffix, Hw. reflexivity.
Qed.

(** The groups of the explicit date pattern: when defined, groups 1 and 2
    hold at most two decimal digits and group 3 at most four. *)
Lemma datePattern0_groups text m k :
  exec Config.datePattern0 text = Some m ->
  1 <= k <= 3 ->
  matchGroup m k = None \/
  exists g, matchGroup m k = Some g /\ forallb isDigit g = true /\
            length g <= (if k <=? 2 then 2 else 4).
Proof.
  intros He Hk.
  apply exec_inv in He. destruct He as [i [y [Hi [Hy [[Hl Hc] [_ ->]]]]]].
  rewrite matchGroup_capture by (exact Hk).
  unfold captureText.
  destruct (matchR_origin _ _ _ _ _ Hy k) as [E | [E | [body [x' [z [Hb [Hz E]]]]]]].
  - rewrite E. simpl. auto.
  - rewrite E. auto.
  - rewrite E. right. eexists. split; [reflexivity |].
    assert (Hbody : exists hi, body = Between (if k <=? 2 then 1 else 2) hi Config.digit
                               /\ hi = if k <=? 2 then 2 else 4).
    { simpl in Hb.
      destruct Hb as [Hb | [Hb | [Hb | []]]]; injection Hb as <- <-; eexists; split;
        reflexivity. }
    destruct Hbody as [hi [-> Hhi]].
    apply matchR_digits in Hz. destruct Hz as [[Hle Hspan] Hmax].
    split.
    + apply substring_forallb. exact Hspan.
    + pose proof (substring_length_le text (endIndex x') (endIndex z)). lia.
Qed.

(** ** Numbers and their text *)

Lemma isDigit_cases c :
  isDigit c = true ->
  (c = 48 \/ c = 49 \/ c = 50 \/ c = 51 \/ c = 52 \/ c = 53 \/ c = 54 \/ c = 55
   \/ c = 56 \/ c = 57)%N.
Proof.
  unfold isDigit. intros H. apply andb_true_iff in H. destruct H as [H1 H2].
  apply N.leb_le in H1, H2. lia.
Qed.

Lemma parseInt10_digits c s :
  isDigit c = true ->
  parseInt10 (c :: s) = Some (Z.of_N (readDigits (c :: s) 0)).
Proof.
  intros H. apply isDigit_cases in H.
  repeat (destruct H as [-> | H]; [reflexivity |]). subst c. reflexivity.
Qed.

Lemma readDigits_bound s : forall acc,
  (readDigits s acc < (acc + 1) * 10 ^ N.of_nat (length s))%N.
Proof.
  induction s as [| c s IH]; intros acc.
  - simpl. lia.
  - cbn [readDigits length]. rewrite Nat2N.inj_succ, N.pow_succ_r'.
    destruct (isDigit c) eqn:D.
    + specialize (IH (acc * 10 + (c - 48))%N).
      apply isDigit_cases in D.
      assert ((acc * 10 + (c - 48) + 1) <= (acc + 1) * 10)%N by lia.
      assert (((acc * 10 + (c - 48) + 1) * 10 ^ N.of_nat (length s)
               <= (acc + 1) * 10 * 10 ^ N.of_nat (length s))%N)
        by (apply N.mul_le_mono_r; assumption).
      lia.
    + assert (0 < 10 ^ N.of_nat (length s))%N
        by (apply N.neq_0_lt_0, N.pow_nonzero; lia).
      nia.
Qed.

(** [parseInt] on a non-empty run of at most [n] digits. *)
Lemma parseInt10_digit_string g n :
  forallb isDigit g = true -> g <> [] -> length g <= n ->
  exists v, parseInt10 g = Some v /\ (0 <= v < 10 ^ Z.of_nat n)%Z.
Proof.
  intros Hd Hne Hlen. destruct g as [| c s]; [congruence |].
  simpl in Hd. apply andb_true_iff in Hd. destruct Hd as [Hc _].
  rewrite (parseInt10_digits c s Hc). eexists. split; [reflexivity |].
  pose proof (readDigits_bound (c :: s) 0) as B.
  assert (M : (10 ^ N.of_nat (length (c :: s)) <= 10 ^ N.of_nat n)%N)
    by (apply N.pow_le_mono_r; lia).
  split; [lia |].
  replace (10 ^ Z.of_nat n)%Z with (Z.of_N (10 ^ N.of_nat n)).
  - lia.
  - rewrite N2Z.inj_pow. rewrite nat_N_Z. reflexivity.
Qed.

Lemma small_cases (P : Z -> bool) :
  forallb (fun n => P (Z.of_nat n)) (seq 0 100) = true ->
  forall v, (0 <= v <= 99)%Z -> P v = true.
Proof.
  intros H v Hv. rewrite forallb_forall in H.
  specialize (H (Z.to_nat v)). rewrite Z2Nat.id in H by lia.
  apply H. apply in_seq. lia.
Qed.

(** Padding a number from 0 to 99 gives its two decimal digits. *)
Lemma pad2_small v :
  (0 <= v <= 99)%Z ->
  twoDigits (TextProcessing.pad2 (Some v)) /\
  readDigits (TextProcessing.pad2 (Some v)) 0 = Z.to_N v.
Proof.
  intros Hv.
  pose proof (small_cases
    (fun v => Nat.eqb (length (TextProcessing.pad2 (Some v))) 2
              && forallb isDigit (TextProcessing.pad2 (Some v))
              && (readDigits (TextProcessing.pad2 (Some v)) 0 =? Z.to_N v)%N)) as H.
  specialize (H ltac:(vm_compute; reflexivity) v Hv). simpl in H.
  apply andb_true_iff in H. destruct H as [H H3].
  apply andb_true_iff in H. destruct H as [H1 H2].
  apply Nat.eqb_eq in H1. apply N.eqb_eq in H3.
  unfold twoDigits. auto.
Qed.

Lemma startsWith_includes s q : startsWith s q = true -> includes s q = true.
Proof. intros H. destruct s; cbn [includes]; rewrite H; reflexivity. Qed.

Lemma includes_skipn n : forall s q,
  includes (skipn n s) q = true -> includes s q = true.
Proof.
  induction n as [| n IH]; intros s q H; [exact H |].
  destruct s as [| c s]; [exact H |].
  cbn [skipn] in H. apply IH in H. cbn [includes]. rewrite H. apply orb_true_r.
Qed.

Lemma startsWith_app p : forall s q,
  startsWith s (p ++ q) = true -> startsWith (skipn (length p) s) q = true.
Proof.
  induction p as [| a p IH]; intros s q H; [exact H |].
  destruct s as [| c s]; [discriminate |].
  simpl in H. apply andb_true_iff in H. destruct H as [_ H].
  simpl. apply IH. exact H.
Qed.

(** A string that includes [p ++ q] includes [q]: a text with "anteayer"
    has "ayer". *)
Lemma includes_app_r p q : forall s,
  includes s (p ++ q) = true -> includes s q = true.
Proof.
  induction s as [| c s IH]; intros H.
  - cbn [includes] in H. rewrite orb_false_r in H.
    apply startsWith_app in H. apply (includes_skipn (length p)).
    apply startsWith_includes. exact H.
  - cbn [includes] in H. apply orb_true_iff in H. destruct H as [H | H].
    + apply startsWith_app in H. apply (includes_skipn (length p)).
      apply startsWith_includes. exact H.
    + cbn [includes]. rewrite (IH H). apply orb_true_r.
Qed.

Lemma dashed_nonempty y m d : TextProcessing.dashed y m d <> [].
Proof.
  unfold TextProcessing.dashed. intros H.
  apply app_eq_nil in H. destruct H as [_ H]. discriminate.
Qed.

Lemma daysInMonth_le y m : (daysInMonth y m <= 31)%Z.
Proof.
  unfold daysInMonth.
  destruct (m =? 2)%Z; [destruct (isLeapYear y); lia |].
  destruct ((m =? 4) || (m =? 6) || (m =? 9) || (m =? 11))%Z; lia.
Qed.

Lemma valid_date_shaped ymd : validCalendarDate ymd -> ymdShaped (ymdString ymd).
Proof.
  destruct ymd as [[y m] d]. intros [Hm Hd].
  pose proof (daysInMonth_le y m).
  exists y, (TextProcessing.pad2 (Some m)), (TextProcessing.pad2 (Some d)).
  split; [reflexivity |].
  split; apply pad2_small; lia.
Qed.

Lemma truthy_inv g : truthy g = true -> exists c s, g = Some (c :: s).
Proof. destruct g as [[| c s] |]; try discriminate. eauto. Qed.

(** A defined, non-empty group of the date pattern parses to a number. *)
Lemma datePattern0_number text m k :
  exec Config.datePattern0 text = Some m ->
  1 <= k <= 3 ->
  truthy (matchGroup m k) = true ->
  exists v, parseInt10 (groupString m k) = Some v /\
            (0 <= v < 10 ^ Z.of_nat (if k <=? 2 then 2 else 4)%nat)%Z.
Proof.
  intros He Hk Ht.
  destruct (truthy_inv _ Ht) as [c [s E]].
  destruct (datePattern0_groups text m k He Hk) as [N | [g [Hg [Hd Hl]]]];
    [congruence |].
  unfold groupString. rewrite Hg.
  apply parseInt10_digit_string; auto. congruence.
Qed.

Lemma explicit_date_shaped today text m :
  exec Config.datePattern0 text = Some m ->
  ymdShaped (TextProcessing.extractDateFromText today text).
Proof.
  intros He. unfold TextProcessing.extractDateFromText. rewrite He.
  assert (T1 : truthy (matchGroup m 1) = true)
    by (apply (exec_group_truthy Config.datePattern0 text m 1); auto).
  assert (T2 : truthy (matchGroup m 2) = true)
    by (apply (exec_group_truthy Config.datePattern0 text m 2); auto).
  destruct (datePattern0_number text m 1 He ltac:(lia) T1) as [d [Ed Hd]].
  destruct (datePattern0_number text m 2 He ltac:(lia) T2) as [mo [Em Hm]].
  change (10 ^ Z.of_nat (if 1 <=? 2 then 2 else 4)%nat)%Z with 100%Z in Hd.
  change (10 ^ Z.of_nat (if 2 <=? 2 then 2 else 4)%nat)%Z with 100%Z in Hm.
  rewrite Ed, Em.
  assert (Y : exists y,
    TextProcessing.adjustYear
      (if truthy (matchGroup m 3) then parseInt10 (groupString m 3)
       else Some (getFullYear today)) = Some y).
  { destruct (truthy (matchGroup m 3)) eqn:T3.
    - destruct (datePattern0_number text m 3 He ltac:(lia) T3) as [v [Ev _]].
      rewrite Ev. simpl. destruct (v <? 100)%Z; eauto.
    - simpl. destruct (getFullYear today <? 100)%Z; eauto. }
  destruct Y as [y ->].
  exists y, (TextProcessing.pad2 (Some mo)), (TextProcessing.pad2 (Some d)).
  split; [reflexivity |].
  split; apply pad2_small; lia.
Qed.

(** A group of the explicit date pattern, when defined, is a run of digits:
    at most two for the day and the month, at most four for the year. *)
Lemma datePattern0_run text m k :
  exec Config.datePattern0 text = Some m ->
  1 <= k <= 3 ->
  matchGroup m k = None \/
  exists g, matchGroup m k = Some g /\ digitRun (if k <=? 2 then 2 else 4) g.
Proof.
  intros He Hk.
  destruct (datePattern0_groups text m k He Hk) as [N | [g [Hg [Hd Hl]]]]; [auto |].
  right. exists g. split; [exact Hg |]. split; [| split; assumption].
  apply exec_inv in He. destruct He as [i [y [Hi [Hy [[Hl' Hc] [_ ->]]]]]].
  rewrite matchGroup_capture in Hg by (exact Hk).
  unfold captureText in Hg.
  destruct (matchR_origin _ _ _ _ _ Hy k) as [E | [E | [body [x' [z [Hb [Hz E]]]]]]].
  - rewrite E in Hg. simpl in Hg. discriminate.
  - rewrite E in Hg. discriminate.
  - rewrite E in Hg. injection Hg as <-.
    assert (Hlt : endIndex x' < endIndex z).
    { simpl in Hb.
      destruct Hb as [Hb | [Hb | [Hb | []]]]; injection Hb as <- <-;
        revert Hz; apply matchR_consumes; reflexivity. }
    destruct (Hc _ _ _ E) as [_ Hz'].
    intros Hnil. apply (f_equal (@length N)) in Hnil.
    rewrite substring_length in Hnil by lia. simpl in Hnil. lia.
Qed.

(** The number of at most two digits, padded to two, is the digits
    themselves padded to two. *)
Lemma pad2_written g :
  digitRun 2 g ->
  TextProcessing.pad2 (parseInt10 g) = padStart g 2 (js "0").
Proof.
  intros [Hne [Hl Hd]].
  destruct g as [| a [| b [| c g]]]; [congruence | | | simpl in Hl; lia].
  - simpl in Hd. rewrite andb_true_r in Hd. apply isDigit_cases in Hd.
    repeat (destruct Hd as [-> | Hd]; [reflexivity |]). subst a. reflexivity.
  - simpl in Hd. rewrite andb_true_r in Hd. apply andb_true_iff in Hd.
    destruct Hd as [Ha Hb]. apply isDigit_cases in Ha, Hb.
    repeat (destruct Ha as [-> | Ha];
            [repeat (destruct Hb as [-> | Hb]; [reflexivity |]); subst b; reflexivity |]).
    subst a.
    repeat (destruct Hb as [-> | Hb]; [reflexivity |]). subst b. reflexivity.
Qed.

Lemma adjustYear_fullYear v :
  TextProcessing.adjustYear (Some v) = Some (fullYear v).
Proof.
  unfold TextProcessing.adjustYear, fullYear.
  destruct (Z.ltb_spec v 100); destruct (Z.ltb_spec v 50); try lia; f_equal; lia.
Qed.

(** What the explicit branch returns, part by part: the digits of the day
    and of the month as they are written, padded to two, and the year that
    is written or the processing year. *)
Lemma explicit_date_written today text m :
  exec Config.datePattern0 text = Some m ->
  exists (dd mm : jsstring) (y : Z),
    matchGroup m 1 = Some dd /\ digitRun 2 dd /\
    matchGroup m 2 = Some mm /\ digitRun 2 mm /\
    explicitYear today (matchGroup m 3) y /\
    TextProcessing.extractDateFromText today text
    = TextProcessing.dashed (stringOfNumber (Some y))
                            (padStart mm 2 (js "0")) (padStart dd 2 (js "0")).
Proof.
  intros He. unfold TextProcessing.extractDateFromText. rewrite He.
  assert (T1 : truthy (matchGroup m 1) = true)
    by (apply (exec_group_truthy Config.datePattern0 text m 1); auto).
  assert (T2 : truthy (matchGroup m 2) = true)
    by (apply (exec_group_truthy Config.datePattern0 text m 2); auto).
  destruct (datePattern0_run text m 1 He ltac:(lia)) as [N1 | [dd [G1 R1]]];
    [rewrite N1 in T1; discriminate |].
  destruct (datePattern0_run text m 2 He ltac:(lia)) as [N2 | [mm [G2 R2]]];
    [rewrite N2 in T2; discriminate |].
  change (if 1 <=? 2 then 2 else 4) with 2 in R1.
  change (if 2 <=? 2 then 2 else 4) with 2 in R2.
  exists dd, mm.
  unfold groupString. rewrite G1, G2.
  rewrite (pad2_written dd R1), (pad2_written mm R2).
  destruct (datePattern0_run text m 3 He ltac:(lia)) as [N3 | [yy [G3 R3]]].
  - rewrite N3. simpl truthy. cbv iota.
    exists (fullYear (getFullYear today)).
    rewrite adjustYear_fullYear.
    repeat split; auto; try apply R1; apply R2.
  - rewrite G3.
    change (if 3 <=? 2 then 2 else 4) with 4 in R3.
    destruct R3 as [Hne [Hl Hd]].
    destruct yy as [| c s]; [congruence |].
    simpl truthy. cbv iota.
    assert (Hc : isDigit c = true)
      by (simpl in Hd; apply andb_true_iff in Hd; tauto).
    rewrite (parseInt10_digits c s Hc), adjustYear_fullYear.
    exists (fullYear (Z.of_N (readDigits (c :: s) 0))).
    split; [reflexivity |]. split; [exact R1 |].
    split; [reflexivity |]. split; [exact R2 |].
    split; [| reflexivity].
    split; [| reflexivity]. split; [discriminate | split; assumption].
Qed.

(** Without an explicit date, the result is the text of the processing
    date, of the day before it, or of two days before it. *)
Lemma relative_date today text :
  exec Config.datePattern0 text = None ->
  exists date, TextProcessing.extractDateFromText today text = ymdString (civil date).
Proof.
  intros He. unfold TextProcessing.extractDateFromText. rewrite He.
  destruct (includes (toLowerCase text) (js "hoy"));
    [exists today; apply formatDate_civil |].
  destruct (includes (toLowerCase text) (js "ayer"));
    [exists (setDate today (getDate today - 1)); apply formatDate_civil |].
  destruct (includes (toLowerCase text) (js "anteayer"));
    [exists (setDate today (getDate today - 2)) | exists today];
    apply formatDate_civil.
Qed.

(** ** Concept Extractor: income messages *)

Lemma prepositionConcept_no_match preps text :
  (forall prep, In prep preps ->
     exec (TextProcessing.prepositionPattern prep) text = None) ->
  TextProcessing.prepositionConcept preps text = None.
Proof.
  induction preps as [| prep rest IH]; intros H; [reflexivity |].
  simpl. rewrite (H prep) by (left; reflexivity).
  apply IH. intros q Hq. apply H. right. exact Hq.
Qed.

Lemma incomeConcept_no_match preps text :
  (forall prep, In prep preps ->
     exec (TextProcessing.incomePattern prep) text = None) ->
  TextProcessing.incomeConcept preps text = None.
Proof.
  induction preps as [| prep rest IH]; intros H; [reflexivity |].
  simpl. rewrite (H prep) by (left; reflexivity).
  apply IH. intros q Hq. apply H. right. exact Hq.
Qed.

Lemma noPrepositionMatch_noConcept text :
  noPrepositionMatch text -> noConceptCaptured text.
Proof.
  intros [H1 H2]. split.
  - apply prepositionConcept_no_match. exact H1.
  - apply incomeConcept_no_match. exact H2.
Qed.

(* ===================================================================== *)
(** * The properties of the specification *)
(* ===================================================================== *)

(** C1.  Whenever amount pattern 1 (a value preceded by the currency symbol)
    matches the text, its capture is a non-empty string of digits, periods
    and commas, and the Amount Extractor returns it trimmed and with its
    first comma replaced by a period, whatever the patterns 2 to 6 do on
    that text; when no pattern matches the text, the result is null. *)
Theorem C1_currency_prefixed_amount_wins :
  forall text : jsstring,
    (forall m, exec (amountPattern 1) text = Some m ->
       truthy (matchGroup m 1) = true /\
       forallb isNumeralChar (groupString m 1) = true /\
       TextProcessing.extractAmountFromText text
       = Some (replaceFirst (trim (groupString m 1)) (js ",") (js "."))) /\
    ((forall p, In p Config.amountPatterns -> exec p text = None) ->
       TextProcessing.extractAmountFromText text = None).
Proof.
  intros text. split.
  - intros m He.
    assert (Ht : truthy (matchGroup m 1) = true)
      by (apply (exec_group_truthy (amountPattern 1) text m 1); auto).
    split; [exact Ht | split].
    + apply (exec_numeral_group (amountPattern 1) text m); auto.
    + apply (firstAmount_hit (amountPattern 1) _ text m); auto.
  - apply firstAmount_none.
Qed.

Lemma C1_witness :
  TextProcessing.extractAmountFromText (js "pagué 3 pesos por $ 1,5 en total")
  = Some (js "1.5") /\
  TextProcessing.extractAmountFromText (js "hola, ¿qué tal?") = None.
Proof.
  split.
  - destruct (C1_currency_prefixed_amount_wins (js "pagué 3 pesos por $ 1,5 en total"))
      as [H _].
    edestruct H as [_ [_ E]]; [vm_compute; reflexivity |]. exact E.
  - destruct (C1_currency_prefixed_amount_wins (js "hola, ¿qué tal?")) as [_ H].
    apply H. intros p Hp. simpl in Hp.
    repeat (destruct Hp as [<- | Hp]; [vm_compute; reflexivity |]).
    contradiction.
Defined.

(** C2, as the code has it.  The message "Gasté $45000 en el supermercado
    ayer", processed on 2024-03-10 with the expense intent forced or
    detected, gives type 'gasto', amount "45000", date "2024-03-09",
    category 'supermercado' and the concept "Supermercado ayer": the phrase
    captured after "en el", which keeps the word "ayer". *)
Theorem C2_supermarket_scenario :
  forall (now : Date) (forcedIntent : option jsstring),
    localDay now = MakeDay 2024 2 10 ->
    forcedIntent = Some (js "gasto") \/ forcedIntent = None ->
    let r := TextProcessing.processText now supermarketMessage forcedIntent in
    TextProcessing.tipo r = Some (js "gasto") /\
    TextProcessing.monto r = Some (js "45000") /\
    TextProcessing.fecha r = js "2024-03-09" /\
    TextProcessing.concepto r = js "Supermercado ayer" /\
    TextProcessing.categoria r = js "supermercado" /\
    TextProcessing.texto_completo r = supermarketMessage.
Proof.
  intros [day time] forcedIntent Hday Hforced. simpl in Hday. subst day.
  destruct Hforced as [-> | ->]; vm_compute; repeat split; reflexivity.
Qed.

Lemma C2_witness :
  TextProcessing.concepto
    (TextProcessing.processText (newDate 2024 2 10) supermarketMessage None)
  = js "Supermercado ayer" /\
  TextProcessing.fecha
    (TextProcessing.processText (newDate 2024 2 10) supermarketMessage (Some (js "gasto")))
  = js "2024-03-09".
Proof.
  split.
  - destruct (C2_supermarket_scenario (newDate 2024 2 10) None eq_refl (or_intror eq_refl))
      as [_ [_ [_ [H _]]]]. exact H.
  - destruct (C2_supermarket_scenario (newDate 2024 2 10) (Some (js "gasto")) eq_refl
                                      (or_introl eq_refl))
      as [_ [_ [H _]]]. exact H.
Defined.

(** C2 as the specification states it fails on the concept: it is neither
    "Supermercado" nor the label derived from the category. *)
Lemma C2_counterexample :
  let r := TextProcessing.processText (newDate 2024 2 10) supermarketMessage
                                      (Some (js "gasto")) in
  TextProcessing.concepto r <> js "Supermercado" /\
  TextProcessing.concepto r <> TextProcessing.capitalize (TextProcessing.categoria r).
Proof. vm_compute. split; discriminate. Qed.

(** C3, as the code has it.  For every text the Date Extractor returns a
    non-empty string of the year-month-day shape, with a two-digit month and
    a two-digit day.  When the text has no explicit numeric date the string
    is a valid calendar date, and it is the processing date when the text
    has no "ayer" either.  An explicit date is rendered as it is written,
    with no check against the calendar: the digits of its day and of its
    month, padded with a zero to two, and as its year the number written (a
    number below 100 standing for a year from 1950 to 2049), or the year of
    the processing date when none is written. *)
Theorem C3_date_text_shape :
  forall (today : Date) (text : jsstring),
    TextProcessing.extractDateFromText today text <> [] /\
    ymdShaped (TextProcessing.extractDateFromText today text) /\
    (exec Config.datePattern0 text = None ->
     validDateString (TextProcessing.extractDateFromText today text)) /\
    (exec Config.datePattern0 text = None ->
     includes (toLowerCase text) (js "ayer") = false ->
     TextProcessing.extractDateFromText today text = ymdString (civil today) /\
     validCalendarDate (civil today)) /\
    (forall m,
       exec Config.datePattern0 text = Some m ->
       exists (dd mm : jsstring) (y : Z),
         matchGroup m 1 = Some dd /\ digitRun 2 dd /\
         matchGroup m 2 = Some mm /\ digitRun 2 mm /\
         explicitYear today (matchGroup m 3) y /\
         TextProcessing.extractDateFromText today text
         = TextProcessing.dashed (stringOfNumber (Some y))
                                 (padStart mm 2 (js "0")) (padStart dd 2 (js "0"))).
Proof.
  intros today text.
  assert (S : ymdShaped (TextProcessing.extractDateFromText today text)).
  { destruct (exec Config.datePattern0 text) as [m |] eqn:He.
    - eapply explicit_date_shaped; eauto.
    - destruct (relative_date today text He) as [date ->].
      apply valid_date_shaped, civil_valid. }
  split; [| split; [exact S | split; [| split]]].
  - destruct S as [y [mm [dd [-> _]]]]. apply dashed_nonempty.
  - intros He. destruct (relative_date today text He) as [date ->].
    exists (civil date). split; [apply civil_valid | reflexivity].
  - intros He Ha. split; [| apply civil_valid].
    unfold TextProcessing.extractDateFromText. rewrite He, Ha.
    destruct (includes (toLowerCase text) (js "hoy")); [apply formatDate_civil |].
    destruct (includes (toLowerCase text) (js "anteayer")) eqn:Eaa;
      [| apply formatDate_civil].
    change (js "anteayer") with (js "ante" ++ js "ayer") in Eaa.
    apply includes_app_r in Eaa. congruence.
  - intros m He. apply explicit_date_written. exact He.
Qed.

Lemma C3_witness :
  TextProcessing.extractDateFromText (newDate 2024 2 10) (js "Compré pan")
  = js "2024-03-10" /\
  validDateString
    (TextProcessing.extractDateFromText (newDate 2024 2 10) (js "Pagué la luz ayer")) /\
  (exists m dd mm y,
     exec Config.datePattern0 (js "Pagué el 5/3/24") = Some m /\
     matchGroup m 1 = Some dd /\ matchGroup m 2 = Some mm /\
     explicitYear (newDate 2024 2 10) (matchGroup m 3) y /\
     TextProcessing.extractDateFromText (newDate 2024 2 10) (js "Pagué el 5/3/24")
     = TextProcessing.dashed (stringOfNumber (Some y))
                             (padStart mm 2 (js "0")) (padStart dd 2 (js "0"))).
Proof.
  destruct (C3_date_text_shape (newDate 2024 2 10) (js "Compré pan"))
    as [_ [_ [_ [H _]]]].
  destruct (C3_date_text_shape (newDate 2024 2 10) (js "Pagué la luz ayer"))
    as [_ [_ [H2 _]]].
  destruct (C3_date_text_shape (newDate 2024 2 10) (js "Pagué el 5/3/24"))
    as [_ [_ [_ [_ H3]]]].
  split; [| split].
  - destruct H as [E _]; [vm_compute; reflexivity .. |]. exact E.
  - apply H2. vm_compute. reflexivity.
  - destruct (exec Config.datePattern0 (js "Pagué el 5/3/24")) as [m |] eqn:He;
      [| vm_compute in He; discriminate].
    destruct (H3 m eq_refl) as [dd [mm [y [G1 [_ [G2 [_ [Y E]]]]]]]].
    exists m, dd, mm, y. auto.
Defined.

(** C3 as the specification states it fails: an explicit day and month are
    not validated, so "el 31/02" yields 31 February. *)
Lemma C3_counterexample :
  TextProcessing.extractDateFromText (newDate 2024 2 10) (js "Pagué el 31/02")
  = js "2024-02-31" /\
  ~ validDateString
      (TextProcessing.extractDateFromText (newDate 2024 2 10) (js "Pagué el 31/02")).
Proof.
  assert (R : TextProcessing.extractDateFromText (newDate 2024 2 10) (js "Pagué el 31/02")
              = js "2024-02-31") by (vm_compute; reflexivity).
  split; [exact R |].
  rewrite R. intros [[[y m] d] [[Hm Hd] E]].
  pose proof (daysInMonth_le y m) as Hle.
  destruct (pad2_small m ltac:(lia)) as [[Lm _] Rm].
  destruct (pad2_small d ltac:(lia)) as [[Ld _] Rd].
  unfold ymdString, TextProcessing.dashed in E.
  destruct (TextProcessing.pad2 (Some m)) as [| a [| b [| ? ?]]]; try discriminate Lm.
  destruct (TextProcessing.pad2 (Some d)) as [| c [| e [| ? ?]]]; try discriminate Ld.
  change (js "-") with [45%N] in E. change (js "2024-02-31") with
    [50; 48; 50; 52; 45; 48; 50; 45; 51; 49]%N in E.
  apply (f_equal (@rev N)) in E. rewrite !rev_app_distr in E. simpl in E.
  injection E as E1 E2 E3 E4 E5. subst a b c e.
  change (readDigits [48; 50]%N 0) with 2%N in Rm.
  change (readDigits [51; 49]%N 0) with 31%N in Rd.
  assert (m = 2%Z) by lia. assert (d = 31%Z) by lia. subst m d.
  unfold daysInMonth in Hd. simpl in Hd. destruct (isLeapYear y); lia.
Qed.

(** C4.  For a text that contains "ayer" (case-insensitively), matches no
    explicit numeric date pattern and does not contain "hoy", the Date
    Extractor run on processing date D returns the year-month-day text of
    the calendar day before D: the previous day of the month, or the last
    day of the previous month when D is the first of a month, or 31
    December of the previous year when D is 1 January. *)
Theorem C4_yesterday_is_previous_calendar_day :
  forall (today : Date) (text : jsstring),
    exec Config.datePattern0 text = None ->
    includes (toLowerCase text) (js "hoy") = false ->
    includes (toLowerCase text) (js "ayer") = true ->
    TextProcessing.extractDateFromText today text = ymdString (dayBefore (civil today)) /\
    validCalendarDate (dayBefore (civil today)).
Proof.
  intros today text Hp Hhoy Hayer.
  assert (E : civil (setDate today (getDate today - 1)) = dayBefore (civil today)).
  { apply civil_previous_day. apply (setDate_shift today (-1)). }
  split.
  - unfold TextProcessing.extractDateFromText. rewrite Hp, Hhoy, Hayer.
    rewrite formatDate_civil, E. reflexivity.
  - rewrite <- E. apply civil_valid.
Qed.

Lemma C4_witness :
  TextProcessing.extractDateFromText (newDate 2024 2 1) (js "Compré pan AYER")
  = js "2024-02-29" /\
  TextProcessing.extractDateFromText (newDate 2024 0 1) (js "ayer pagué la luz")
  = js "2023-12-31" /\
  TextProcessing.extractDateFromText (newDate 2100 2 1) (js "anteayer")
  = js "2100-02-28".
Proof.
  split; [| split].
  - destruct (C4_yesterday_is_previous_calendar_day
                (newDate 2024 2 1) (js "Compré pan AYER")) as [E _];
      [vm_compute; reflexivity .. |]. exact E.
  - destruct (C4_yesterday_is_previous_calendar_day
                (newDate 2024 0 1) (js "ayer pagué la luz")) as [E _];
      [vm_compute; reflexivity .. |]. exact E.
  - destruct (C4_yesterday_is_previous_calendar_day
                (newDate 2100 2 1) (js "anteayer")) as [E _];
      [vm_compute; reflexivity .. |]. exact E.
Defined.

(** C5.  For a message that contains no keyword of any intent group, the
    Intent Classifier returns 'gasto' when an amount can be extracted from
    the text and the unknown value (null) otherwise; and on every message
    its result is one of gasto, ingreso, meta, reporte, presupuesto or
    null. *)
Theorem C5_intent_default_policy :
  forall text : jsstring,
    (noIntentKeyword text ->
       (TextProcessing.extractAmountFromText text <> None ->
          TextProcessing.getIntent text = Some (js "gasto")) /\
       (TextProcessing.extractAmountFromText text = None ->
          TextProcessing.getIntent text = None)) /\
    In (TextProcessing.getIntent text)
       [Some (js "gasto"); Some (js "ingreso"); Some (js "meta");
        Some (js "reporte"); Some (js "presupuesto"); None].
Proof.
  intros text. split.
  - intros Hno. unfold TextProcessing.getIntent.
    rewrite firstEntryWith_none by exact Hno.
    destruct (TextProcessing.extractAmountFromText text); split; congruence.
  - unfold TextProcessing.getIntent.
    destruct (TextProcessing.firstEntryWith _ Config.intentKeywords) as [intent |] eqn:E.
    + apply firstEntryWith_some in E. destruct E as [i [keywords [Hn _]]].
      do 5 (destruct i as [| i];
            [injection Hn as <- _; simpl; tauto |]).
      destruct i; discriminate.
    + destruct (TextProcessing.extractAmountFromText text); simpl; tauto.
Qed.

Lemma C5_witness :
  TextProcessing.getIntent (js "$45000 en el super") = Some (js "gasto") /\
  TextProcessing.getIntent (js "hola, buenos días") = None.
Proof.
  split.
  - destruct (C5_intent_default_policy (js "$45000 en el super")) as [H _].
    destruct H as [H _]; [apply noIntentKeyword_check; vm_compute; reflexivity |].
    apply H. vm_compute. discriminate.
  - destruct (C5_intent_default_policy (js "hola, buenos días")) as [H _].
    destruct H as [_ H]; [apply noIntentKeyword_check; vm_compute; reflexivity |].
    apply H. vm_compute. reflexivity.
Defined.

(** C6.  The Category Classifier is order-stable.  Whenever the text
    contains, case-insensitively, a keyword of a configured category, the
    category returned has a keyword in the text and is declared before
    every other category that has one.  So when two distinct categories
    both match, the later-declared one is not returned, and the
    earlier-declared one is returned, no category declared before it
    having a keyword in the text.  When the text contains no keyword of any
    category, 'otros' is returned. *)
Theorem C6_category_order_stable :
  forall text : jsstring,
    (forall i c k,
       declaredAt i c k -> containsKeywordOf text k ->
       exists i0 k0,
         declaredAt i0 (TextProcessing.categorizeExpense text) k0 /\
         containsKeywordOf text k0 /\
         forall l c' k', declaredAt l c' k' -> containsKeywordOf text k' -> i0 <= l) /\
    (forall i j c1 k1 c2 k2,
       declaredAt i c1 k1 -> declaredAt j c2 k2 -> i < j ->
       containsKeywordOf text k1 -> containsKeywordOf text k2 ->
       TextProcessing.categorizeExpense text <> c2 /\
       ((forall l c k, l < i -> declaredAt l c k -> ~ containsKeywordOf text k) ->
        TextProcessing.categorizeExpense text = c1)) /\
    ((forall i c k, declaredAt i c k -> ~ containsKeywordOf text k) ->
     TextProcessing.categorizeExpense text = js "otros").
Proof.
  intros text. split; [| split].
  - intros i c k Hi Hk.
    destruct (categorizeExpense_earliest text i c k Hi Hk) as [i0 [k0 [_ [Hd [Hc Hmin]]]]].
    exists i0, k0. auto.
  - intros i j c1 k1 c2 k2 Hi Hj Hij H1 H2. split.
    + destruct (categorizeExpense_earliest text i c1 k1 Hi H1) as [i' [k' [Hle [Hd _]]]].
      intros E. rewrite E in Hd.
      pose proof (category_keys_distinct _ _ _ _ _ Hd Hj). lia.
    + intros Hbefore. eapply categorizeExpense_first; eauto.
  - intros Hnone. unfold TextProcessing.categorizeExpense.
    rewrite firstEntryWith_none; [reflexivity |].
    intros key keywords keyword Hin Hkw.
    apply not_true_is_false. intros E.
    apply In_nth_error in Hin. destruct Hin as [i Hi].
    apply (Hnone i key keywords Hi). exists keyword. auto.
Qed.

Lemma C6_witness :
  TextProcessing.categorizeExpense (js "Taxi al CINE") = js "transporte" /\
  TextProcessing.categorizeExpense (js "Taxi al CINE") <> js "entretenimiento" /\
  (exists i0 k0,
     declaredAt i0 (TextProcessing.categorizeExpense (js "Taxi al bar del super")) k0 /\
     i0 <= 1) /\
  TextProcessing.categorizeExpense (js "xyz") = js "otros".
Proof.
  destruct (C6_category_order_stable (js "Taxi al CINE")) as [_ [H _]].
  destruct (C6_category_order_stable (js "Taxi al bar del super")) as [A _].
  destruct (C6_category_order_stable (js "xyz")) as [_ [_ H0]].
  specialize (H 2 4 _ _ _ _ eq_refl eq_refl).
  destruct H as [Hne Heq].
  - lia.
  - apply containsKeywordOf_existsb. vm_compute. reflexivity.
  - apply containsKeywordOf_existsb. vm_compute. reflexivity.
  - split; [| split; [| split]].
    + apply Heq. intros l c k Hl Hd Hc.
      apply containsKeywordOf_existsb in Hc.
      destruct l as [| [| l]]; [| | lia];
        injection Hd as <- <-; vm_compute in Hc; discriminate.
    + exact Hne.
    + destruct (A 1 _ _ eq_refl) as [i0 [k0 [Hd [_ Hmin]]]].
      * apply containsKeywordOf_existsb. vm_compute. reflexivity.
      * exists i0, k0. split; [exact Hd |].
        apply (Hmin 1 _ _ eq_refl).
        apply containsKeywordOf_existsb. vm_compute. reflexivity.
    + apply H0. intros i c k Hd Hc.
      apply containsKeywordOf_existsb in Hc.
      do 10 (destruct i as [| i];
             [injection Hd as <- <-; vm_compute in Hc; discriminate |]).
      destruct i; discriminate.
Defined.




(** C8, as the code has it.  For an income message in which no preposition
    search captures a concept (in particular when no preposition pattern
    matches at all): the Concept Extractor returns the bare label
    "Freelance" when the text mentions "freelance" or "proyecto", and the
    fixed label "Ingreso variable" when it mentions neither. *)
Theorem C8_income_labels_without_preposition :
  forall text : jsstring,
    (noConceptCaptured text ->
       (mentionsFreelance text = true ->
          TextProcessing.extractConceptFromText text (Some (js "ingreso")) = js "Freelance") /\
       (mentionsFreelance text = false ->
          TextProcessing.extractConceptFromText text (Some (js "ingreso"))
          = js "Ingreso variable")) /\
    (noPrepositionMatch text -> noConceptCaptured text).
Proof.
  intros text. split; [| apply noPrepositionMatch_noConcept].
  intros [H1 H2]. unfold TextProcessing.extractConceptFromText, mentionsFreelance.
  rewrite H1.
  replace (jseqb (js "ingreso") (js "ingreso")) with true by (vm_compute; reflexivity).
  rewrite H2.
  split; intros ->; reflexivity.
Qed.

Lemma C8_witness :
  TextProcessing.extractConceptFromText (js "Cobré 800000, trabajo freelance")
                                        (Some (js "ingreso")) = js "Freelance" /\
  TextProcessing.extractConceptFromText (js "Cobré $800000") (Some (js "ingreso"))
  = js "Ingreso variable".
Proof.
  split.
  - destruct (C8_income_labels_without_preposition (js "Cobré 800000, trabajo freelance"))
      as [H N].
    destruct H as [H _].
    + apply N. split; intros prep Hp; simpl in Hp;
        repeat (destruct Hp as [<- | Hp]; [vm_compute; reflexivity |]); contradiction.
    + apply H. vm_compute. reflexivity.
  - destruct (C8_income_labels_without_preposition (js "Cobré $800000")) as [H N].
    destruct H as [_ H].
    + apply N. split; intros prep Hp; simpl in Hp;
        repeat (destruct Hp as [<- | Hp]; [vm_compute; reflexivity |]); contradiction.
    + apply H. vm_compute. reflexivity.
Defined.

(** C8 as the specification states it fails: an income message that mentions
    "freelance" and has no preposition gets the bare label "Freelance",
    which does not start with "Freelance:". *)
Lemma C8_counterexample :
  mentionsFreelance (js "freelance 500000") = true /\
  TextProcessing.extractConceptFromText (js "freelance 500000") (Some (js "ingreso"))
  = js "Freelance" /\
  startsWith (TextProcessing.extractConceptFromText (js "freelance 500000")
                                                    (Some (js "ingreso")))
             (js "Freelance:") = false.
Proof. vm_compute. repeat split; reflexivity. Qed.

(** The message of the bot's own help text: the generic preposition search
    returns the phrase after "por" before the income branch is reached, so
    the "Freelance: " prefix of that branch is not applied. *)
Example income_overlay_not_reached :
  TextProcessing.extractConceptFromText (js "Recibí $500000 por proyecto freelance")
                                        (Some (js "ingreso"))
  = js "Proyecto freelance".
Proof. vm_compute. reflexivity. Qed.

(** C9, as the code has it.  Receipt total extraction tries the labeled
    patterns before the bare currency-symbol pattern: the capture of the
    first of TOTAL, IMPORTE, TOTAL-with-colon that matches is returned,
    normalized, whatever the bare currency pattern finds; the bare pattern
    is used only when no labeled one matches; with no match at all the
    result is null.  In particular, on every text in which the first match
    of the TOTAL pattern is "TOTAL $ 23.500" the result is "23.500": so it
    is on that line alone, after an item line, or after an earlier bare "$"
    amount. *)
Theorem C9_labeled_total_first :
  (forall text : jsstring,
     (forall m, exec (receiptPattern 1) text = Some m ->
        ReceiptController.extractAmount text = Some (normalized m)) /\
     (forall m, exec (receiptPattern 1) text = None ->
        exec (receiptPattern 2) text = Some m ->
        ReceiptController.extractAmount text = Some (normalized m)) /\
     (forall m, exec (receiptPattern 1) text = None ->
        exec (receiptPattern 2) text = None ->
        exec (receiptPattern 3) text = Some m ->
        ReceiptController.extractAmount text = Some (normalized m)) /\
     (forall m, exec (receiptPattern 1) text = None ->
        exec (receiptPattern 2) text = None ->
        exec (receiptPattern 3) text = None ->
        exec (receiptPattern 4) text = Some m ->
        ReceiptController.extractAmount text = Some (normalized m)) /\
     ((forall p, In p ReceiptController.patterns -> exec p text = None) ->
        ReceiptController.extractAmount text = None)) /\
  (forall (text : jsstring) m,
     exec (receiptPattern 1) text = Some m ->
     matchGroup m 0 = Some (js "TOTAL $ 23.500") ->
     ReceiptController.extractAmount text = Some (js "23.500")) /\
  ReceiptController.extractAmount (js "TOTAL $ 23.500") = Some (js "23.500") /\
  ReceiptController.extractAmount
    (js "Leche 3.200" ++ newline ++ js "TOTAL $ 23.500") = Some (js "23.500") /\
  ReceiptController.extractAmount
    (js "Envase $ 1.000" ++ newline ++ js "TOTAL $ 23.500" ++ newline ++ js "Leche 3.200")
  = Some (js "23.500").
Proof.
  split; [| split; [| split; [| split]; vm_compute; reflexivity]].
  - intros text. unfold ReceiptController.extractAmount.
    split; [| split; [| split; [| split]]].
    + intros m H1. apply (firstAmount_hit (receiptPattern 1)); auto.
    + intros m H1 H2.
      apply (firstAmount_first ReceiptController.patterns text
               [receiptPattern 1] (receiptPattern 2) _ m eq_refl); auto.
      intros q [<- | []]; assumption.
    + intros m H1 H2 H3.
      apply (firstAmount_first ReceiptController.patterns text
               [receiptPattern 1; receiptPattern 2] (receiptPattern 3) _ m eq_refl); auto.
      intros q [<- | [<- | []]]; assumption.
    + intros m H1 H2 H3 H4.
      apply (firstAmount_first ReceiptController.patterns text
               [receiptPattern 1; receiptPattern 2; receiptPattern 3]
               (receiptPattern 4) _ m eq_refl); auto.
      intros q [<- | [<- | [<- | []]]]; assumption.
    + apply firstAmount_none.
  - intros text m He Hw. unfold ReceiptController.extractAmount.
    apply eq_trans with (Some (normalized m));
      [apply (firstAmount_hit (receiptPattern 1)); auto |].
    unfold normalized.
    rewrite (receipt_total_capture text m (js "TOTAL $ 23.500") 8 He Hw).
    + vm_compute. reflexivity.
    + vm_compute. lia.
    + exists 50%N. split; vm_compute; reflexivity.
    + right. exists 32%N. split; vm_compute; reflexivity.
Qed.

Lemma C9_witness :
  ReceiptController.extractAmount (js "Pan $ 2,50 IMPORTE 7 TOTAL 9,75") = Some (js "9.75") /\
  ReceiptController.extractAmount (js "Pan $ 2,50 IMPORTE 7") = Some (js "7") /\
  ReceiptController.extractAmount (js "Pan $ 2,50 total: 9") = Some (js "9") /\
  ReceiptController.extractAmount (js "Pan $ 2,50") = Some (js "2.50") /\
  ReceiptController.extractAmount (js "gracias por su compra") = None /\
  ReceiptController.extractAmount
    (js "Envase $ 1.000" ++ newline ++ js "TOTAL $ 23.500" ++ newline ++ js "IVA 19")
  = Some (js "23.500").
Proof.
  destruct C9_labeled_total_first as [H [G _]].
  split; [| split; [| split; [| split; [| split]]]].
  - destruct (H (js "Pan $ 2,50 IMPORTE 7 TOTAL 9,75")) as [H1 _].
    eapply eq_trans; [eapply H1; vm_compute; reflexivity | vm_compute; reflexivity].
  - destruct (H (js "Pan $ 2,50 IMPORTE 7")) as [_ [H2 _]].
    eapply eq_trans; [eapply H2; vm_compute; reflexivity | vm_compute; reflexivity].
  - destruct (H (js "Pan $ 2,50 total: 9")) as [_ [_ [H3 _]]].
    eapply eq_trans; [eapply H3; vm_compute; reflexivity | vm_compute; reflexivity].
  - destruct (H (js "Pan $ 2,50")) as [_ [_ [_ [H4 _]]]].
    eapply eq_trans; [eapply H4; vm_compute; reflexivity | vm_compute; reflexivity].
  - destruct (H (js "gracias por su compra")) as [_ [_ [_ [_ H5]]]].
    apply H5. intros p Hp. simpl in Hp.
    repeat (destruct Hp as [<- | Hp]; [vm_compute; reflexivity |]).
    contradiction.
  - eapply G; vm_compute; reflexivity.
Defined.

(** C9 as the specification states it fails: a text that contains
    "TOTAL $ 23.500" need not yield "23.500".  The numeral after the label
    is captured whole, so a total written with decimals is returned with
    them; and the TOTAL pattern takes its first match wherever the letters
    stand, as inside "Subtotal". *)
Lemma C9_counterexample :
  let decimals := js "TOTAL $ 23.500,00" in
  let subtotal := js "Subtotal $ 1.000" ++ newline ++ js "TOTAL $ 23.500" in
  (includes decimals (js "TOTAL $ 23.500") = true /\
   ReceiptController.extractAmount decimals = Some (js "23.500.00") /\
   ReceiptController.extractAmount decimals <> Some (js "23.500")) /\
  (includes subtotal (js "TOTAL $ 23.500") = true /\
   ReceiptController.extractAmount subtotal = Some (js "1.000") /\
   ReceiptController.extractAmount subtotal <> Some (js "23.500")).
Proof.
  cbv zeta.
  assert (D : ReceiptController.extractAmount (js "TOTAL $ 23.500,00")
              = Some (js "23.500.00")) by (vm_compute; reflexivity).
  assert (E : ReceiptController.extractAmount
                (js "Subtotal $ 1.000" ++ newline ++ js "TOTAL $ 23.500")
              = Some (js "1.000")) by (vm_compute; reflexivity).
  split.
  - split; [vm_compute; reflexivity |].
    split; [exact D |]. rewrite D. vm_compute. discriminate.
  - split; [vm_compute; reflexivity |].
    split; [exact E |]. rewrite E. vm_compute. discriminate.
Qed.

(** C10, as the code has it.  With a readable data file and a successful
    write, registerTransaction leaves on disk the stored document with the
    record appended as the last transaction: the earlier transactions keep
    their values and order, and fixedExpenses, fixedIncomes, financialGoals
    and budget are the stored ones.  When the write fails the data file
    stays as it was.  When the file cannot be read, the document written is
    the configured defaults with the record as their only transaction. *)
Theorem C10_register_appends :
  forall (data : TextProcessing.Transaction) (disk : Database.Disk),
    (forall db : Database.Document,
       Database.stored disk = Some db ->
       Database.writable disk = true ->
       exists db',
         Database.stored (Database.registerTransaction data disk) = Some db' /\
         Database.transactions db' = Database.transactions db ++ [data] /\
         firstn (length (Database.transactions db)) (Database.transactions db')
         = Database.transactions db /\
         Database.fixedExpenses db' = Database.fixedExpenses db /\
         Database.fixedIncomes db' = Database.fixedIncomes db /\
         Database.financialGoals db' = Database.financialGoals db /\
         Database.budget db' = Database.budget db) /\
    (Database.writable disk = false ->
     Database.registerTransaction data disk = disk) /\
    (Database.stored disk = None ->
     Database.writable disk = true ->
     Database.stored (Database.registerTransaction data disk)
     = Some (Database.mkDocument [data] Database.configFixedExpenses
               Database.configFixedIncomes Database.configFinancialGoals
               Database.configMonthlyBudget)).
Proof.
  intros data disk.
  unfold Database.registerTransaction, Database.saveDatabase, Database.loadDatabase.
  split; [| split].
  - intros db Hs Hw. rewrite Hs, Hw. simpl.
    eexists. split; [reflexivity |]. simpl.
    split; [reflexivity |].
    split; [rewrite firstn_app, Nat.sub_diag, firstn_all; simpl; apply app_nil_r |].
    split; [reflexivity |]. split; [reflexivity |]. split; reflexivity.
  - intros Hw. rewrite Hw. reflexivity.
  - intros Hs Hw. rewrite Hs, Hw. reflexivity.
Qed.

Lemma C10_witness :
  (exists db',
     Database.stored
       (Database.registerTransaction sampleIncome
          (Database.mkDisk
             (Some (Database.mkDocument [sampleExpense] Database.configFixedExpenses
                      Database.configFixedIncomes Database.configFinancialGoals
                      Database.configMonthlyBudget)) true)) = Some db' /\
     Database.transactions db' = [sampleExpense; sampleIncome] /\
     Database.budget db' = Database.configMonthlyBudget) /\
  Database.registerTransaction sampleIncome (Database.mkDisk None false)
  = Database.mkDisk None false /\
  Database.stored (Database.registerTransaction sampleIncome (Database.mkDisk None true))
  = Some (Database.mkDocument [sampleIncome] Database.configFixedExpenses
            Database.configFixedIncomes Database.configFinancialGoals
            Database.configMonthlyBudget).
Proof.
  split; [| split].
  - destruct (C10_register_appends sampleIncome
                (Database.mkDisk
                   (Some (Database.mkDocument [sampleExpense] Database.configFixedExpenses
                            Database.configFixedIncomes Database.configFinancialGoals
                            Database.configMonthlyBudget)) true)) as [H _].
    destruct (H _ eq_refl eq_refl) as [db' [H1 [H2 [_ [_ [_ [_ H3]]]]]]].
    exists db'. split; [exact H1 | split; [exact H2 | exact H3]].
  - destruct (C10_register_appends sampleIncome (Database.mkDisk None false))
      as [_ [H _]].
    exact (H eq_refl).
  - destruct (C10_register_appends sampleIncome (Database.mkDisk None true))
      as [_ [_ H]].
    exact (H eq_refl eq_refl).
Defined.

(** C10 as the specification states it fails: when the write fails the
    record is not appended, and nothing reports it. *)
Lemma C10_counterexample :
  let db := Database.mkDocument [sampleExpense] Database.configFixedExpenses
              Database.configFixedIncomes Database.configFinancialGoals
              Database.configMonthlyBudget in
  let disk := Database.mkDisk (Some db) false in
  Database.stored (Database.registerTransaction sampleIncome disk) = Some db /\
  ~ (exists db',
       Database.stored (Database.registerTransaction sampleIncome disk) = Some db' /\
       Database.transactions db' = Database.transactions db ++ [sampleIncome]).
Proof.
  cbv zeta. split; [reflexivity |].
  intros [db' [H1 H2]].
  unfold Database.registerTransaction, Database.saveDatabase in H1. simpl in H1.
  injection H1 as <-. simpl in H2.
  apply (f_equal (@length TextProcessing.Transaction)) in H2. discriminate.
Qed.

(** A data file that cannot be read is replaced by the configured defaults
    with the record as their only transaction, and a failed write leaves the
    file as it was. *)
Lemma registerTransaction_unreadable data disk :
  Database.stored disk = None -> Database.writable disk = true ->
  Database.stored (Database.registerTransaction data disk)
  = Some (Database.mkDocument [data] Database.configFixedExpenses
            Database.configFixedIncomes Database.configFinancialGoals
            Database.configMonthlyBudget).
Proof.
  intros Hs Hw.
  unfold Database.registerTransaction, Database.saveDatabase, Database.loadDatabase.
  rewrite Hs, Hw. reflexivity.
Qed.

Lemma registerTransaction_unwritable data disk :
  Database.writable disk = false -> Database.registerTransaction data disk = disk.
Proof.
  intros Hw. unfold Database.registerTransaction, Database.saveDatabase.
  rewrite Hw. reflexivity.
Qed.

(* ===================================================================== *)
(** * Further properties of the code *)
(* ===================================================================== *)

(** ** Amounts *)

Lemma numeral_not_space c : isNumeralChar c = true -> isWhiteSpace c = false.
Proof.
  unfold isNumeralChar, isDigit, isWhiteSpace. split_n; intros; auto; discriminate.
Qed.

Lemma trimStart_head c s : isWhiteSpace c = false -> trimStart (c :: s) = c :: s.
Proof. intros H. simpl. rewrite H. reflexivity. Qed.

Lemma trim_noSpace s :
  forallb (fun c => negb (isWhiteSpace c)) s = true -> trim s = s.
Proof.
  intros H. unfold trim, trimEnd.
  assert (A : forall t, forallb (fun c => negb (isWhiteSpace c)) t = true ->
                        trimStart t = t).
  { intros [| c t] Ht; [reflexivity |]. simpl in Ht.
    apply andb_true_iff in Ht. destruct Ht as [Hc _].
    apply negb_true_iff in Hc. apply trimStart_head. exact Hc. }
  rewrite (A s H). rewrite A; [apply rev_involutive |].
  apply forallb_forall. intros c Hc. apply in_rev in Hc.
  rewrite forallb_forall in H. apply H. exact Hc.
Qed.

Lemma startsWith_nil s : startsWith s [] = true.
Proof. destruct s; reflexivity. Qed.

Lemma replaceFirst_comma s :
  forallb isNumeralChar s = true ->
  length (replaceFirst s (js ",") (js ".")) = length s /\
  forallb isNumeralChar (replaceFirst s (js ",") (js ".")) = true /\
  commaAfterPeriod (replaceFirst s (js ",") (js ".")).
Proof.
  change (js ",") with [44%N]. change (js ".") with [46%N].
  induction s as [| c s IH]; intros H.
  - simpl. repeat split; auto. intros [| i] Hi; discriminate.
  - simpl in H. apply andb_true_iff in H. destruct H as [Hc Hs].
    cbn [replaceFirst startsWith].
    rewrite startsWith_nil.
    destruct (N.eqb_spec 44 c) as [E | E]; cbn [andb].
    + subst c. cbn [app skipn length]. split; [reflexivity |].
      split; [simpl; exact Hs |].
      intros [| i] Hi; [discriminate |]. exists 0. split; [lia | reflexivity].
    + destruct (IH Hs) as [L [F C]].
      split; [simpl; rewrite L; reflexivity |].
      split; [simpl; rewrite Hc, F; reflexivity |].
      intros [| i] Hi; simpl in Hi.
      * injection Hi as Hi. congruence.
      * destruct (C i Hi) as [j [Hj Ej]]. exists (S j). split; [lia | exact Ej].
Qed.

Lemma firstAmount_shape ps text v :
  Forall capturesNumeral ps ->
  TextProcessing.firstAmount ps text = Some v -> amountText v.
Proof.
  induction ps as [| p ps IH]; intros Hall H; [discriminate |].
  inversion Hall as [| ? ? Hp Hps]; subst.
  simpl in H. destruct (exec p text) as [m |] eqn:E; [| auto].
  destruct (truthy (matchGroup m 1)) eqn:T; [| auto].
  injection H as <-.
  pose proof (exec_numeral_group p text m Hp E T) as N.
  assert (Hne : groupString m 1 <> []).
  { unfold groupString. destruct (truthy_inv _ T) as [c [s ->]]. discriminate. }
  rewrite trim_noSpace.
  - destruct (replaceFirst_comma _ N) as [L [F C]].
    split; [| split; assumption].
    intros Q. rewrite Q in L. simpl in L.
    destruct (groupString m 1); [congruence | discriminate].
  - apply forallb_forall. intros c Hc. rewrite forallb_forall in N.
    apply negb_true_iff, numeral_not_space, N, Hc.
Qed.

(** X1.  Whatever the Amount Extractor returns is the text of an amount: it
    is not empty, it is made of digits, periods and commas only, and every
    comma in it stands after a period (a comma that comes first among the
    separators of the capture has been replaced by a period). *)
Theorem X1_amount_text_shape :
  forall text v,
    TextProcessing.extractAmountFromText text = Some v -> amountText v.
Proof.
  intros text v. apply firstAmount_shape.
  repeat (apply Forall_cons; [reflexivity |]). apply Forall_nil.
Qed.

Lemma X1_witness :
  TextProcessing.extractAmountFromText (js "pagué 1,234.5 pesos") = Some (js "1.234.5") /\
  amountText (js "1.234.5").
Proof.
  split; [vm_compute; reflexivity |].
  apply (X1_amount_text_shape (js "pagué 1,234.5 pesos")). vm_compute. reflexivity.
Defined.

(** X2.  The total that the receipt controller extracts has the same shape:
    not empty, digits, periods and commas only, every comma after a
    period. *)
Theorem X2_receipt_amount_shape :
  forall text v,
    ReceiptController.extractAmount text = Some v -> amountText v.
Proof.
  intros text v. apply firstAmount_shape.
  repeat (apply Forall_cons; [reflexivity |]). apply Forall_nil.
Qed.

Lemma X2_witness :
  ReceiptController.extractAmount (js "TOTAL: $ 1,234,5") = Some (js "1.234,5") /\
  amountText (js "1.234,5").
Proof.
  split; [vm_compute; reflexivity |].
  apply (X2_receipt_amount_shape (js "TOTAL: $ 1,234,5")). vm_compute. reflexivity.
Defined.

Lemma amountPatterns_shaped p :
  In p Config.amountPatterns -> amountShaped p = true.
Proof.
  intros H. simpl in H.
  repeat (destruct H as [<- | H]; [reflexivity |]). contradiction.
Qed.

Lemma firstAmount_none_inv ps text :
  (forall p, In p ps -> amountShaped p = true) ->
  TextProcessing.firstAmount ps text = None ->
  forall p, In p ps -> exec p text = None.
Proof.
  induction ps as [| q ps IH]; intros Hs H p Hp; [destruct Hp |].
  destruct (exec q text) as [m |] eqn:E.
  - rewrite (firstAmount_hit q ps text m (Hs q (or_introl eq_refl)) E) in H.
    discriminate.
  - rewrite (firstAmount_miss q ps text E) in H.
    destruct Hp as [<- | Hp]; [exact E |].
    apply IH; auto. intros r Hr. apply Hs. right. exact Hr.
Qed.

(** X3.  The amount patterns are tried in the order of the configuration:
    the first one that matches the text decides, and its capture is returned
    normalized, whatever the later patterns would match.  The result is null
    exactly when no pattern matches the text. *)
Theorem X3_amount_patterns_in_configuration_order :
  forall text : jsstring,
    (forall skipped p rest m,
       Config.amountPatterns = skipped ++ p :: rest ->
       (forall q, In q skipped -> exec q text = None) ->
       exec p text = Some m ->
       TextProcessing.extractAmountFromText text = Some (normalized m)) /\
    (TextProcessing.extractAmountFromText text = None <->
     forall p, In p Config.amountPatterns -> exec p text = None).
Proof.
  intros text. split.
  - intros skipped p rest m Hl Hs He.
    apply (firstAmount_first Config.amountPatterns text skipped p rest m Hl Hs);
      [| exact He].
    apply amountPatterns_shaped. rewrite Hl. apply in_or_app. right. left. reflexivity.
  - split.
    + apply firstAmount_none_inv. exact amountPatterns_shaped.
    + apply firstAmount_none.
Qed.

Lemma X3_witness :
  TextProcessing.extractAmountFromText (js "son 3,5 pesos o 4 ars") = Some (js "3.5") /\
  TextProcessing.extractAmountFromText (js "nada que ver") = None.
Proof.
  destruct (X3_amount_patterns_in_configuration_order (js "son 3,5 pesos o 4 ars"))
    as [H _].
  destruct (X3_amount_patterns_in_configuration_order (js "nada que ver"))
    as [_ [_ H0]].
  split.
  - eapply eq_trans.
    + eapply (H [amountPattern 1] (amountPattern 2) _ _ eq_refl).
      * intros q [<- | []]. vm_compute. reflexivity.
      * vm_compute. reflexivity.
    + vm_compute. reflexivity.
  - apply H0. intros p Hp. simpl in Hp.
    repeat (destruct Hp as [<- | Hp]; [vm_compute; reflexivity |]). contradiction.
Defined.

(** ** Intent Classifier: the order of the groups *)

Lemma firstEntryWith_earliest hit entries : forall i key keywords,
  nth_error entries i = Some (key, keywords) -> existsb hit keywords = true ->
  exists i0 key0 keywords0,
    i0 <= i /\ nth_error entries i0 = Some (key0, keywords0) /\
    TextProcessing.firstEntryWith hit entries = Some key0 /\
    existsb hit keywords0 = true /\
    forall j k ks, j < i0 -> nth_error entries j = Some (k, ks) -> existsb hit ks = false.
Proof.
  induction entries as [| [k0 ks0] entries IH]; intros i key keywords Hn Hh.
  - destruct i; discriminate.
  - simpl. destruct (existsb hit ks0) eqn:E.
    + exists 0, k0, ks0. split; [lia |]. repeat split; auto. intros j k ks Hj. lia.
    + destruct i as [| i]; simpl in Hn; [injection Hn as <- <-; congruence |].
      destruct (IH i key keywords Hn Hh) as [i0 [key0 [keywords0 [Hle [Hn0 [Hf [Hh0 Hb]]]]]]].
      exists (S i0), key0, keywords0. split; [lia |]. repeat split; auto.
      intros [| j] k ks Hj Hnth; simpl in Hnth.
      * injection Hnth as <- <-. exact E.
      * apply (Hb j k ks); [lia | exact Hnth].
Qed.

Lemma mentionsKeyword_existsb text keywords :
  mentionsKeyword text keywords <->
  existsb (fun keyword => includes (toLowerCase text) keyword) keywords = true.
Proof. unfold mentionsKeyword. rewrite existsb_exists. reflexivity. Qed.

Lemma getIntent_earliest text i intent keywords :
  intentAt i intent keywords -> mentionsKeyword text keywords ->
  exists i0 intent0 keywords0,
    intentAt i0 intent0 keywords0 /\ i0 <= i /\
    TextProcessing.getIntent text = Some intent0 /\
    mentionsKeyword text keywords0 /\
    forall l c k, intentAt l c k -> mentionsKeyword text k -> i0 <= l.
Proof.
  intros Hi Hk. apply mentionsKeyword_existsb in Hk.
  destruct (firstEntryWith_earliest _ _ _ _ _ Hi Hk)
    as [i0 [intent0 [keywords0 [Hle [Hn [Hf [Hh Hb]]]]]]].
  exists i0, intent0, keywords0.
  split; [exact Hn |]. split; [exact Hle |].
  split; [unfold TextProcessing.getIntent; rewrite Hf; reflexivity |].
  split; [apply mentionsKeyword_existsb; exact Hh |].
  intros l c k Hl Hc. destruct (Nat.le_gt_cases i0 l) as [L | G]; [exact L |].
  apply mentionsKeyword_existsb in Hc. rewrite (Hb l c k G Hl) in Hc. discriminate.
Qed.

(** X4.  The Intent Classifier returns the first intent group, in
    declaration order, one of whose keywords the lower-cased text includes.
    So a text with a keyword of the group 'gasto' is an expense whatever else
    it says, and a text that includes 'destinar', a keyword of 'meta' and of
    'presupuesto' alike, is never classified as 'presupuesto'. *)
Theorem X4_intent_declaration_order :
  forall text : jsstring,
    (forall i intent keywords,
       intentAt i intent keywords -> mentionsKeyword text keywords ->
       exists i0 intent0 keywords0,
         intentAt i0 intent0 keywords0 /\ i0 <= i /\
         TextProcessing.getIntent text = Some intent0 /\
         mentionsKeyword text keywords0 /\
         forall l c k, intentAt l c k -> mentionsKeyword text k -> i0 <= l) /\
    (forall keywords,
       intentAt 0 (js "gasto") keywords -> mentionsKeyword text keywords ->
       TextProcessing.getIntent text = Some (js "gasto")) /\
    (includes (toLowerCase text) (js "destinar") = true ->
       TextProcessing.getIntent text <> Some (js "presupuesto") /\
       In (TextProcessing.getIntent text)
          [Some (js "gasto"); Some (js "ingreso"); Some (js "meta")]).
Proof.
  intros text. split; [| split].
  - intros i intent keywords. apply getIntent_earliest.
  - intros keywords Hi Hk.
    destruct (getIntent_earliest text 0 _ _ Hi Hk) as [i0 [c [k [Hn [Hle [E _]]]]]].
    assert (i0 = 0) by lia. subst i0.
    unfold intentAt in Hi, Hn. rewrite Hi in Hn. injection Hn as <- _. exact E.
  - intros Hd.
    assert (Hm : exists keywords, intentAt 2 (js "meta") keywords /\
                                  mentionsKeyword text keywords).
    { eexists. split; [reflexivity |]. exists (js "destinar").
      split; [vm_compute; tauto | exact Hd]. }
    destruct Hm as [keywords [Hi Hk]].
    destruct (getIntent_earliest text 2 _ _ Hi Hk) as [i0 [c [k [Hn [Hle [E _]]]]]].
    rewrite E. unfold intentAt in Hn.
    destruct i0 as [| [| [| i0]]]; [| | | lia]; injection Hn as <- _;
      (split; [vm_compute; discriminate | simpl; tauto]).
Qed.

Lemma X4_witness :
  TextProcessing.getIntent (js "Pago del ingreso mensual, ver reporte") = Some (js "gasto") /\
  TextProcessing.getIntent (js "Quiero DESTINAR 50000 a comida")
  <> Some (js "presupuesto").
Proof.
  destruct (X4_intent_declaration_order (js "Pago del ingreso mensual, ver reporte"))
    as [_ [H _]].
  destruct (X4_intent_declaration_order (js "Quiero DESTINAR 50000 a comida"))
    as [_ [_ H2]].
  split.
  - eapply H; [reflexivity |]. apply mentionsKeyword_existsb. vm_compute. reflexivity.
  - apply H2. vm_compute. reflexivity.
Defined.

(** ** Date Extractor: relative dates *)

(** X5.  Without an explicit date the Date Extractor returns the processing
    date or the day before it, never two days before: a text with 'anteayer'
    (and without 'hoy') includes 'ayer', and gets the day before the
    processing date. *)
Theorem X5_day_before_yesterday_unreachable :
  forall (today : Date) (text : jsstring),
    exec Config.datePattern0 text = None ->
    (TextProcessing.extractDateFromText today text = ymdString (civil today) \/
     TextProcessing.extractDateFromText today text = ymdString (dayBefore (civil today))) /\
    (includes (toLowerCase text) (js "hoy") = false ->
     includes (toLowerCase text) (js "anteayer") = true ->
     TextProcessing.extractDateFromText today text = ymdString (dayBefore (civil today))).
Proof.
  intros today text He.
  assert (E : civil (setDate today (getDate today - 1)) = dayBefore (civil today)).
  { apply civil_previous_day. apply (setDate_shift today (-1)). }
  assert (A : includes (toLowerCase text) (js "anteayer") = true ->
              includes (toLowerCase text) (js "ayer") = true).
  { change (js "anteayer") with (js "ante" ++ js "ayer"). apply includes_app_r. }
  unfold TextProcessing.extractDateFromText. rewrite He. split.
  - destruct (includes (toLowerCase text) (js "hoy")); [left; apply formatDate_civil |].
    destruct (includes (toLowerCase text) (js "ayer")) eqn:Ha.
    + right. rewrite formatDate_civil, E. reflexivity.
    + destruct (includes (toLowerCase text) (js "anteayer"));
        [specialize (A eq_refl); discriminate | left; apply formatDate_civil].
  - intros Hh Haa. rewrite Hh, (A Haa). rewrite formatDate_civil, E. reflexivity.
Qed.

Lemma X5_witness :
  TextProcessing.extractDateFromText (newDate 2024 2 10) (js "Anteayer compré pan")
  = js "2024-03-09".
Proof.
  destruct (X5_day_before_yesterday_unreachable (newDate 2024 2 10)
              (js "Anteayer compré pan")) as [_ H]; [vm_compute; reflexivity |].
  apply H; vm_compute; reflexivity.
Defined.

(** ** The data file *)

Lemma registerTransaction_load data disk :
  Database.writable disk = true ->
  Database.loadDatabase (Database.registerTransaction data disk)
  = Database.push data (Database.loadDatabase disk) /\
  Database.writable (Database.registerTransaction data disk) = true.
Proof.
  intros Hw. unfold Database.registerTransaction, Database.saveDatabase.
  rewrite Hw. split; reflexivity.
Qed.

(** X6.  With a data file that can be written, registering records one
    after the other leaves a file whose transactions are those loaded before
    (none, when the file could not be read) followed by the records in their
    order, the other collections being the ones loaded before. *)
Theorem X6_registrations_accumulate :
  forall (records : list TextProcessing.Transaction) (disk : Database.Disk),
    Database.writable disk = true ->
    let disk' := fold_left (fun d r => Database.registerTransaction r d) records disk in
    let before := Database.loadDatabase disk in
    let after := Database.loadDatabase disk' in
    Database.transactions after = Database.transactions before ++ records /\
    Database.fixedExpenses after = Database.fixedExpenses before /\
    Database.fixedIncomes after = Database.fixedIncomes before /\
    Database.financialGoals after = Database.financialGoals before /\
    Database.budget after = Database.budget before /\
    Database.writable disk' = true.
Proof.
  induction records as [| r records IH]; intros disk Hw; cbn zeta.
  - simpl. rewrite app_nil_r. auto 10.
  - cbn [fold_left].
    destruct (registerTransaction_load r disk Hw) as [L W].
    destruct (IH _ W) as [T [E [I [G [B W']]]]]. cbn zeta in *.
    rewrite T, E, I, G, B, L. simpl. rewrite <- app_assoc. auto 10.
Qed.

Lemma X6_witness :
  Database.transactions
    (Database.loadDatabase
       (fold_left (fun d r => Database.registerTransaction r d)
                  [sampleExpense; sampleIncome] (Database.mkDisk None true)))
  = [sampleExpense; sampleIncome].
Proof.
  destruct (X6_registrations_accumulate [sampleExpense; sampleIncome]
              (Database.mkDisk None true) eq_refl) as [H _].
  exact H.
Defined.

(** X7.  initDatabase never changes what loadDatabase returns: a missing
    file receives the configured defaults, which are the document that
    loadDatabase falls back to, and an existing file is left alone, readable
    or not.  It fails exactly when the file is missing and cannot be
    written. *)
Theorem X7_initDatabase_keeps_what_is_loaded :
  forall (present : bool) (disk : Database.Disk),
    (present = false -> Database.stored disk = None) ->
    (forall disk', Database.initDatabase present disk = Some disk' ->
       Database.loadDatabase disk' = Database.loadDatabase disk /\
       (present = false -> Database.stored disk' = Some (Database.loadDatabase disk)) /\
       (present = true -> disk' = disk)) /\
    (Database.initDatabase present disk = None <->
     present = false /\ Database.writable disk = false).
Proof.
  intros present disk Hp. unfold Database.initDatabase. split.
  - intros disk'. destruct present; simpl.
    + intros H. injection H as <-. repeat split; auto; discriminate.
    + destruct (Database.writable disk); [| discriminate].
      intros H. injection H as <-.
      unfold Database.loadDatabase. rewrite (Hp eq_refl). simpl.
      repeat split; auto; discriminate.
  - destruct present; simpl.
    + split; [discriminate | intros [? _]; discriminate].
    + destruct (Database.writable disk); split; try discriminate; auto.
      intros [_ ?]; discriminate.
Qed.

Lemma X7_witness :
  exists disk',
    Database.initDatabase false (Database.mkDisk None true) = Some disk' /\
    Database.loadDatabase disk' = Database.loadDatabase (Database.mkDisk None true).
Proof.
  destruct (X7_initDatabase_keeps_what_is_loaded false (Database.mkDisk None true))
    as [H _]; [reflexivity |].
  eexists. split; [reflexivity |]. apply H. reflexivity.
Defined.

(** ** Concept Extractor: the shape of a concept *)

Lemma trimStart_head_ok s : headNotSpace (trimStart s).
Proof.
  induction s as [| c s IH]; simpl; [exact I |].
  destruct (isWhiteSpace c) eqn:E; [exact IH | exact E].
Qed.

Lemma trimStart_fixed s : headNotSpace s -> trimStart s = s.
Proof. destruct s as [| c s]; simpl; [reflexivity | intros ->; reflexivity]. Qed.

Lemma trimStart_suffix s : exists k, trimStart s = skipn k s.
Proof.
  induction s as [| c s [k IH]]; [exists 0; reflexivity |].
  simpl. destruct (isWhiteSpace c); [exists (S k); exact IH | exists 0; reflexivity].
Qed.

Lemma trimEnd_prefix s : exists n, trimEnd s = firstn n s.
Proof.
  unfold trimEnd. destruct (trimStart_suffix (rev s)) as [k ->].
  exists (length s - k). rewrite skipn_rev, rev_involutive. reflexivity.
Qed.

Lemma headNotSpace_firstn n s : headNotSpace s -> headNotSpace (firstn n s).
Proof. destruct n, s; simpl; auto. Qed.

Lemma trim_trimmed s : trimmed (trim s).
Proof.
  unfold trim. split.
  - destruct (trimEnd_prefix (trimStart s)) as [n ->].
    apply headNotSpace_firstn, trimStart_head_ok.
  - unfold trimEnd. rewrite rev_involutive. apply trimStart_head_ok.
Qed.

Lemma trimmed_fixed s : trimmed s -> trim s = s.
Proof.
  intros [H1 H2]. unfold trim, trimEnd.
  rewrite (trimStart_fixed s H1), (trimStart_fixed _ H2). apply rev_involutive.
Qed.

Lemma upperUnit_notSpace c :
  isWhiteSpace c = false -> upperUnit c <> [] /\ trimmed (upperUnit c).
Proof.
  unfold upperUnit, isWhiteSpace.
  split_n; intros Hws; try discriminate;
    (split; [discriminate |]); split; cbn [rev app headNotSpace];
    unfold isWhiteSpace; split_n; auto.
Qed.

Lemma capitalize_cons c s :
  TextProcessing.capitalize (c :: s) = upperUnit c ++ s.
Proof.
  unfold TextProcessing.capitalize, charAt, slice, toUpperCase. simpl.
  rewrite app_nil_r. reflexivity.
Qed.

Lemma headNotSpace_rev_app (s t : jsstring) :
  t <> [] -> headNotSpace (rev t) -> headNotSpace (rev (s ++ t)).
Proof.
  intros Hne H. rewrite rev_app_distr.
  destruct (rev t) as [| x xs] eqn:E; [| exact H].
  apply (f_equal (@rev N)) in E. rewrite rev_involutive in E. contradiction.
Qed.

(** Capitalizing a non-empty text without surrounding white space gives
    such a text. *)
Lemma capitalize_trimmed s :
  s <> [] -> trimmed s ->
  TextProcessing.capitalize s <> [] /\ trimmed (TextProcessing.capitalize s).
Proof.
  destruct s as [| c s]; [congruence |]. intros _ [Hh Hl].
  rewrite capitalize_cons. simpl in Hh.
  destruct (upperUnit_notSpace c Hh) as [Hne [Hu Hlast]].
  split; [destruct (upperUnit c); [congruence | discriminate] |].
  split; [destruct (upperUnit c); [congruence | exact Hu] |].
  destruct s as [| d s].
  - rewrite app_nil_r. exact Hlast.
  - apply headNotSpace_rev_app; [discriminate |].
    change (rev (c :: d :: s)) with (rev (d :: s) ++ [c]) in Hl.
    destruct (rev (d :: s)) as [| x xs] eqn:Q; [| exact Hl].
    apply (f_equal (@rev N)) in Q. rewrite rev_involutive in Q. discriminate.
Qed.

Lemma length_pos_nonempty (s : jsstring) : (0 <? length s) = true -> s <> [].
Proof. destruct s; [discriminate | discriminate]. Qed.

Lemma prepositionConcept_trimmed preps text c :
  TextProcessing.prepositionConcept preps text = Some c -> c <> [] /\ trimmed c.
Proof.
  induction preps as [| prep rest IH]; simpl; [discriminate |].
  destruct (exec (TextProcessing.prepositionPattern prep) text) as [m |]; [| exact IH].
  destruct (truthy (matchGroup m 2)); [| exact IH].
  match goal with
  | |- context [Nat.ltb 0 (length ?concept)] =>
    destruct (Nat.ltb 0 (length concept)) eqn:L; [| exact IH];
      intros H; injection H as <-;
      apply capitalize_trimmed; [apply length_pos_nonempty; exact L | apply trim_trimmed]
  end.
Qed.

Lemma literal_app_trimmed (p s : jsstring) :
  p <> [] -> headNotSpace p -> s <> [] -> trimmed s -> p ++ s <> [] /\ trimmed (p ++ s).
Proof.
  intros Hp Hh Hs [_ Hl]. split; [destruct p; [congruence | discriminate] |].
  split; [destruct p; [congruence | exact Hh] |].
  apply headNotSpace_rev_app; assumption.
Qed.

Lemma incomeConcept_trimmed preps text c :
  TextProcessing.incomeConcept preps text = Some c -> c <> [] /\ trimmed c.
Proof.
  induction preps as [| prep rest IH]; simpl; [discriminate |].
  destruct (exec (TextProcessing.incomePattern prep) text) as [m |]; [| exact IH].
  destruct (truthy (matchGroup m 1)); [| exact IH].
  match goal with
  | |- context [Nat.ltb 0 (length ?concept)] =>
    destruct (Nat.ltb 0 (length concept)) eqn:L; [| exact IH];
      assert (K : TextProcessing.capitalize concept <> [] /\
                  trimmed (TextProcessing.capitalize concept))
        by (apply capitalize_trimmed;
            [apply length_pos_nonempty; exact L | apply trim_trimmed])
  end.
  match goal with
  | |- (if ?b then _ else _) = _ -> _ => destruct b
  end; intros H; injection H as <-; [| exact K].
  destruct K as [K1 K2].
  refine (literal_app_trimmed (js "Freelance: ") _ _ _ K1 K2);
    [discriminate | reflexivity].
Qed.

Lemma category_key_trimmed c :
  In c (map fst Config.expenseCategories) -> c <> [] /\ trimmed c.
Proof.
  intros H. simpl in H.
  repeat (destruct H as [<- | H];
          [split; [discriminate | split; vm_compute; reflexivity] |]).
  contradiction.
Qed.

Lemma categorizeExpense_declared text :
  exists i keywords, declaredAt i (TextProcessing.categorizeExpense text) keywords.
Proof.
  unfold TextProcessing.categorizeExpense.
  destruct (TextProcessing.firstEntryWith _ Config.expenseCategories) as [key |] eqn:E.
  - apply firstEntryWith_some in E. destruct E as [i [keywords [Hn _]]].
    exists i, keywords. exact Hn.
  - exists 9, []. reflexivity.
Qed.

Lemma extractConceptFromText_trimmed text tipo :
  TextProcessing.extractConceptFromText text tipo <> [] /\
  trimmed (TextProcessing.extractConceptFromText text tipo).
Proof.
  unfold TextProcessing.extractConceptFromText.
  destruct (TextProcessing.prepositionConcept _ _) as [c |] eqn:P;
    [eapply prepositionConcept_trimmed; eauto |].
  match goal with |- context [if ?b then _ else _] => destruct b end.
  - destruct (TextProcessing.incomeConcept _ _) as [c |] eqn:Q;
      [eapply incomeConcept_trimmed; eauto |].
    match goal with |- context [if ?b then _ else _] => destruct b end;
      (split; [discriminate | split; vm_compute; reflexivity]).
  - match goal with |- context [if ?b then _ else _] => destruct b end.
    + destruct (categorizeExpense_declared text) as [i [ks Hd]].
      apply nth_error_In in Hd. apply (in_map fst) in Hd.
      apply capitalize_trimmed; apply category_key_trimmed; exact Hd.
    + split; [discriminate | split; vm_compute; reflexivity].
Qed.

(** X8.  Whatever the text and the type, the concept that the Concept
    Extractor returns is not empty and has no white space at either end. *)
Theorem X8_concept_is_a_trimmed_label :
  forall (text : jsstring) (tipo : option jsstring),
    TextProcessing.extractConceptFromText text tipo <> [] /\
    trim (TextProcessing.extractConceptFromText text tipo)
    = TextProcessing.extractConceptFromText text tipo.
Proof.
  intros text tipo.
  destruct (extractConceptFromText_trimmed text tipo) as [K1 K2].
  split; [exact K1 | apply trimmed_fixed; exact K2].
Qed.

(** ** The record of a message *)

Lemma extractDateFromText_shaped today text :
  ymdShaped (TextProcessing.extractDateFromText today text).
Proof.
  destruct (exec Config.datePattern0 text) as [m |] eqn:He.
  - eapply explicit_date_shaped; eauto.
  - destruct (relative_date today text He) as [date ->].
    apply valid_date_shaped, civil_valid.
Qed.

Lemma detectIntent_values fullText :
  In (TextProcessing.detectIntent fullText)
     [Some (js "gasto"); Some (js "ingreso"); None].
Proof.
  unfold TextProcessing.detectIntent.
  repeat match goal with
         | |- context [if ?b then _ else _] => destruct b
         end; simpl; auto.
Qed.

(** X9.  The record that processText builds.  Its type is the forced intent
    when one is given, and 'gasto', 'ingreso' or null otherwise; its category
    is the one of the Category Classifier, a key of the configuration, when
    the type is 'gasto', and 'ingreso' for every other type, null included;
    its amount, when not null, is the text of an amount; its date has the
    year-month-day shape; its concept is not empty; it keeps the text. *)
Theorem X9_record_well_formed :
  forall (now : Date) (text : jsstring) (forcedIntent : option jsstring),
    let r := TextProcessing.processText now text forcedIntent in
    (truthy forcedIntent = true -> TextProcessing.tipo r = forcedIntent) /\
    (truthy forcedIntent = false ->
       In (TextProcessing.tipo r) [Some (js "gasto"); Some (js "ingreso"); None]) /\
    (TextProcessing.tipo r = Some (js "gasto") ->
       TextProcessing.categoria r = TextProcessing.categorizeExpense text /\
       exists i keywords, declaredAt i (TextProcessing.categoria r) keywords) /\
    (TextProcessing.tipo r <> Some (js "gasto") ->
       TextProcessing.categoria r = js "ingreso") /\
    (forall v, TextProcessing.monto r = Some v -> amountText v) /\
    ymdShaped (TextProcessing.fecha r) /\
    TextProcessing.concepto r <> [] /\
    TextProcessing.texto_completo r = text.
Proof.
  intros now text forcedIntent r.
  assert (G : forall t : option jsstring,
            (match t with Some t0 => jseqb t0 (js "gasto") | None => false end) = true
            <-> t = Some (js "gasto")).
  { intros [t0 |]; [rewrite jseqb_eq | ]; split; congruence. }
  subst r. unfold TextProcessing.processText. cbn [TextProcessing.tipo
    TextProcessing.categoria TextProcessing.monto TextProcessing.fecha
    TextProcessing.concepto TextProcessing.texto_completo].
  split; [intros ->; reflexivity |].
  split; [intros ->; apply detectIntent_values |].
  split.
  { intros Ht. apply G in Ht. rewrite Ht.
    split; [reflexivity | apply categorizeExpense_declared]. }
  split.
  { intros Ht.
    match goal with |- (if ?b then _ else _) = _ => destruct b eqn:Q end;
      [apply G in Q; contradiction | reflexivity]. }
  split; [intros v; apply firstAmount_shape;
          repeat (apply Forall_cons; [reflexivity |]); apply Forall_nil |].
  split; [apply extractDateFromText_shaped |].
  split; [apply extractConceptFromText_trimmed | reflexivity].
Qed.

Lemma X9_witness :
  let r := TextProcessing.processText (newDate 2024 2 10) (js "Cobré 800000 pesos") None in
  TextProcessing.categoria r = js "ingreso" /\
  amountText (js "800000").
Proof.
  destruct (X9_record_well_formed (newDate 2024 2 10) (js "Cobré 800000 pesos") None)
    as [_ [_ [_ [H [A _]]]]].
  split.
  - apply H. vm_compute. discriminate.
  - apply A. vm_compute. reflexivity.
Defined.

(** ** Registering an expense or an income *)

Lemma amountText_truthy v : amountText v -> truthy (Some v) = true.
Proof. intros [H _]. destruct v; [congruence | reflexivity]. Qed.

Lemma extractAmountFromText_shape text v :
  TextProcessing.extractAmountFromText text = Some v -> amountText v.
Proof.
  apply firstAmount_shape.
  repeat (apply Forall_cons; [reflexivity |]). apply Forall_nil.
Qed.

Lemma processExpenseOrIncome_amount now msgText intent disk v :
  TextProcessing.extractAmountFromText msgText = Some v ->
  ExpenseController.processExpenseOrIncome now msgText intent disk
  = (ExpenseController.Registered (TextProcessing.processText now msgText (Some intent)),
     Database.registerTransaction (TextProcessing.processText now msgText (Some intent))
                                  disk).
Proof.
  intros Hv. unfold ExpenseController.processExpenseOrIncome.
  replace (TextProcessing.monto (TextProcessing.processText now msgText (Some intent)))
    with (Some v) by (symmetry; exact Hv).
  rewrite (amountText_truthy v (extractAmountFromText_shape _ _ Hv)). reflexivity.
Qed.

Lemma processExpenseOrIncome_no_amount now msgText intent disk :
  TextProcessing.extractAmountFromText msgText = None ->
  ExpenseController.processExpenseOrIncome now msgText intent disk
  = (ExpenseController.AmountNotIdentified, disk).
Proof.
  intros Hv. unfold ExpenseController.processExpenseOrIncome.
  replace (TextProcessing.monto (TextProcessing.processText now msgText (Some intent)))
    with (@None jsstring) by (symmetry; exact Hv).
  reflexivity.
Qed.

(** X10.  processExpenseOrIncome registers a record exactly when an amount
    can be extracted from the message.  Then the record of processText, whose
    type is the intent, is confirmed to the user; it becomes the last
    transaction when the data file can be written, and when the write fails
    the file stays as it was while the same confirmation is answered.
    Without an amount nothing is registered. *)
Theorem X10_registered_exactly_when_an_amount_is_found :
  forall (now : Date) (msgText intent : jsstring) (disk : Database.Disk),
    let r := TextProcessing.processText now msgText (Some intent) in
    (forall v, TextProcessing.extractAmountFromText msgText = Some v ->
       ExpenseController.processExpenseOrIncome now msgText intent disk
       = (ExpenseController.Registered r, Database.registerTransaction r disk) /\
       TextProcessing.monto r = Some v /\
       (intent <> [] -> TextProcessing.tipo r = Some intent) /\
       (Database.writable disk = true ->
          Database.transactions (Database.loadDatabase (Database.registerTransaction r disk))
          = Database.transactions (Database.loadDatabase disk) ++ [r]) /\
       (Database.writable disk = false -> Database.registerTransaction r disk = disk)) /\
    (TextProcessing.extractAmountFromText msgText = None ->
       ExpenseController.processExpenseOrIncome now msgText intent disk
       = (ExpenseController.AmountNotIdentified, disk)).
Proof.
  intros now msgText intent disk r. split.
  - intros v Hv. split; [apply (processExpenseOrIncome_amount _ _ _ _ v Hv) |].
    split; [exact Hv |]. split; [| split].
    + intros Hi. subst r. unfold TextProcessing.processText. simpl.
      destruct intent; [congruence | reflexivity].
    + intros Hw. rewrite (proj1 (registerTransaction_load r disk Hw)). reflexivity.
    + apply registerTransaction_unwritable.
  - apply processExpenseOrIncome_no_amount.
Qed.

Lemma X10_witness :
  (exists r,
     ExpenseController.processExpenseOrIncome (newDate 2024 2 10) supermarketMessage
                                              (js "gasto") (Database.mkDisk None false)
     = (ExpenseController.Registered r, Database.mkDisk None false)) /\
  ExpenseController.processExpenseOrIncome (newDate 2024 2 10) (js "Gasté mucho en el bar")
                                           (js "gasto") (Database.mkDisk None true)
  = (ExpenseController.AmountNotIdentified, Database.mkDisk None true).
Proof.
  destruct (X10_registered_exactly_when_an_amount_is_found
              (newDate 2024 2 10) supermarketMessage (js "gasto")
              (Database.mkDisk None false)) as [H _].
  destruct (X10_registered_exactly_when_an_amount_is_found
              (newDate 2024 2 10) (js "Gasté mucho en el bar") (js "gasto")
              (Database.mkDisk None true)) as [_ H0].
  split.
  - destruct (H (js "45000")) as [E [_ [_ [_ U]]]]; [vm_compute; reflexivity |].
    eexists. rewrite E. rewrite (U eq_refl). reflexivity.
  - apply H0. vm_compute. reflexivity.
Defined.

(** ** Text messages *)

Lemma getIntent_default text :
  noIntentKeyword text ->
  TextProcessing.getIntent text
  = match TextProcessing.extractAmountFromText text with
    | Some _ => Some (js "gasto")
    | None => None
    end.
Proof.
  intros Hno. unfold TextProcessing.getIntent.
  rewrite firstEntryWith_none by exact Hno. reflexivity.
Qed.

(** X11.  A text message without any intent keyword is registered as an
    expense when an amount can be extracted from it (type 'gasto', that
    amount, the category of the Category Classifier) and is not understood
    otherwise, the data file staying as it was; a message with a keyword of
    the group 'gasto' and no amount is answered by the request for details,
    and nothing is registered. *)
Theorem X11_text_message_with_an_amount_is_an_expense :
  forall (processGoal : jsstring -> Database.Disk -> Database.Disk)
         (now : Date) (msgText : jsstring) (disk : Database.Disk),
    let r := TextProcessing.processText now msgText (Some (js "gasto")) in
    (noIntentKeyword msgText ->
       (forall v, TextProcessing.extractAmountFromText msgText = Some v ->
          Index.processTextMessage processGoal now msgText disk
          = (Index.ByExpenseController (ExpenseController.Registered r),
             Database.registerTransaction r disk) /\
          TextProcessing.tipo r = Some (js "gasto") /\
          TextProcessing.monto r = Some v /\
          TextProcessing.categoria r = TextProcessing.categorizeExpense msgText) /\
       (TextProcessing.extractAmountFromText msgText = None ->
          Index.processTextMessage processGoal now msgText disk
          = (Index.NotUnderstood, disk))) /\
    (forall keywords,
       intentAt 0 (js "gasto") keywords -> mentionsKeyword msgText keywords ->
       TextProcessing.extractAmountFromText msgText = None ->
       Index.processTextMessage processGoal now msgText disk
       = (Index.ByExpenseController ExpenseController.AmountNotIdentified, disk)).
Proof.
  intros processGoal now msgText disk r. split.
  - intros Hno. split.
    + intros v Hv. unfold Index.processTextMessage.
      rewrite (getIntent_default _ Hno), Hv.
      replace (jseqb (js "gasto") (js "gasto")) with true by (vm_compute; reflexivity).
      cbn [orb].
      rewrite (processExpenseOrIncome_amount _ _ _ _ v Hv).
      split; [reflexivity |]. split; [reflexivity |]. split; [exact Hv | reflexivity].
    + intros Hv. unfold Index.processTextMessage.
      rewrite (getIntent_default _ Hno), Hv. reflexivity.
  - intros keywords Hi Hk Hv.
    destruct (getIntent_earliest msgText 0 _ _ Hi Hk) as [i0 [c [k [Hn [Hle [E _]]]]]].
    assert (i0 = 0) by lia. subst i0.
    unfold intentAt in Hi, Hn. rewrite Hi in Hn. injection Hn as <- _.
    unfold Index.processTextMessage. rewrite E.
    replace (jseqb (js "gasto") (js "gasto")) with true by (vm_compute; reflexivity).
    cbn [orb]. rewrite (processExpenseOrIncome_no_amount _ _ _ _ Hv). reflexivity.
Qed.

Lemma X11_witness :
  (exists r,
     Index.processTextMessage (fun _ disk => disk) (newDate 2024 2 10)
                              (js "$45000 en el super") (Database.mkDisk None true)
     = (Index.ByExpenseController (ExpenseController.Registered r),
        Database.registerTransaction r (Database.mkDisk None true)) /\
     TextProcessing.categoria r = js "supermercado") /\
  Index.processTextMessage (fun _ disk => disk) (newDate 2024 2 10)
                           (js "hola, buenos días") (Database.mkDisk None true)
  = (Index.NotUnderstood, Database.mkDisk None true).
Proof.
  destruct (X11_text_message_with_an_amount_is_an_expense
              (fun _ disk => disk) (newDate 2024 2 10) (js "$45000 en el super")
              (Database.mkDisk None true)) as [H _].
  destruct (X11_text_message_with_an_amount_is_an_expense
              (fun _ disk => disk) (newDate 2024 2 10) (js "hola, buenos días")
              (Database.mkDisk None true)) as [H0 _].
  split.
  - destruct H as [H _]; [apply noIntentKeyword_check; vm_compute; reflexivity |].
    destruct (H (js "45000")) as [E [_ [_ C]]]; [vm_compute; reflexivity |].
    eexists. split; [exact E |]. rewrite C. vm_compute. reflexivity.
  - destruct H0 as [_ H0]; [apply noIntentKeyword_check; vm_compute; reflexivity |].
    apply H0. vm_compute. reflexivity.
Defined.

(** ** Budget update: the choice of the category and the write *)

Lemma scoreKeywords_fold name category keywords : forall best,
  fold_left (ExpenseController.scoreKeyword name category) keywords best
  = fold_left keepCandidate
      (flat_map (fun keyword => if includes name keyword
                                then [(category, length keyword)] else [])
                keywords) best.
Proof.
  induction keywords as [| kw kws IH]; intros best; [reflexivity |].
  cbn [fold_left flat_map]. rewrite fold_left_app, IH.
  unfold ExpenseController.scoreKeyword at 1.
  destruct (includes name kw); reflexivity.
Qed.

Lemma bestMatch_fold name categories : forall best,
  fold_left (ExpenseController.scoreCategory name) categories best
  = fold_left keepCandidate (candidates name categories) best.
Proof.
  induction categories as [| [c kws] rest IH]; intros best; [reflexivity |].
  unfold candidates. cbn [fold_left flat_map fst snd].
  rewrite !fold_left_app. fold (candidates name rest). rewrite IH.
  unfold ExpenseController.scoreCategory. rewrite scoreKeywords_fold.
  unfold ExpenseController.scoreKey.
  destruct (includes name c || includes c name); reflexivity.
Qed.

Lemma keepCandidate_fold cands : forall best,
  let res := fold_left keepCandidate cands best in
  snd best <= snd res /\
  (forall c t, In (c, t) cands -> t <= snd res) /\
  (res = best \/
   exists earlier c later,
     cands = earlier ++ (c, snd res) :: later /\ fst res = Some c /\
     snd best < snd res /\
     forall c' t', In (c', t') earlier -> t' < snd res).
Proof.
  induction cands as [| [c0 t0] rest IH]; intros best; cbn zeta.
  - simpl. split; [lia |]. split; [intros c t [] | left; reflexivity].
  - cbn [fold_left].
    destruct (IH (keepCandidate best (c0, t0))) as [Hle [Hall Hsel]]. cbn zeta in *.
    set (res := fold_left keepCandidate rest (keepCandidate best (c0, t0))) in *.
    assert (K : snd best <= snd (keepCandidate best (c0, t0)) /\
                t0 <= snd (keepCandidate best (c0, t0)) /\
                (keepCandidate best (c0, t0) = best \/
                 keepCandidate best (c0, t0) = (Some c0, t0) /\ snd best < t0)).
    { unfold keepCandidate, ExpenseController.keep. simpl.
      destruct (Nat.ltb_spec (snd best) t0); simpl;
        [| split; [lia | split; [lia | left; reflexivity]]].
      split; [lia |]. split; [lia |]. right. split; [reflexivity | lia]. }
    destruct K as [K1 [K2 K3]].
    split; [lia |]. split.
    + intros c t [E | Hin]; [injection E as <- <-; lia | apply (Hall c t Hin)].
    + destruct Hsel as [E | [earlier [c [later [Hc [Hf [Hlt Hbefore]]]]]]].
      * destruct K3 as [K3 | [K3 K4]].
        -- left. rewrite E. exact K3.
        -- right. exists [], c0, rest. rewrite E, K3. simpl.
           split; [reflexivity |]. split; [reflexivity |]. split; [exact K4 |].
           intros c' t' [].
      * right. exists ((c0, t0) :: earlier), c, later.
        split; [simpl; rewrite Hc; reflexivity |]. split; [exact Hf |].
        split; [lia |].
        intros c' t' [E | Hin]; [injection E as <- <-; lia | apply (Hbefore c' t' Hin)].
Qed.

Lemma candidates_keys name categories c t :
  In (c, t) (candidates name categories) -> In c (map fst categories).
Proof.
  unfold candidates. intros H. apply in_flat_map in H.
  destruct H as [[c0 kws] [Hin H]]. cbn [fst snd] in H.
  assert (c = c0).
  { apply in_app_or in H. destruct H as [H | H].
    - destruct (includes name c0 || includes c0 name); [| contradiction].
      destruct H as [H | []]. congruence.
    - apply in_flat_map in H. destruct H as [kw [_ H]].
      destruct (includes name kw); [| contradiction].
      destruct H as [H | []]. congruence. }
  subst c0. apply (in_map fst) in Hin. exact Hin.
Qed.

Lemma bestMatch_choice name categories :
  let best := ExpenseController.bestMatch categories name in
  (forall c t, In (c, t) (candidates name categories) -> t <= snd best) /\
  (fst best = None -> snd best = 0) /\
  (forall c, fst best = Some c ->
     0 < snd best /\ In c (map fst categories) /\
     exists earlier later,
       candidates name categories = earlier ++ (c, snd best) :: later /\
       forall c' t', In (c', t') earlier -> t' < snd best).
Proof.
  cbn zeta. unfold ExpenseController.bestMatch. rewrite bestMatch_fold.
  destruct (keepCandidate_fold (candidates name categories) (None, 0))
    as [_ [Hall Hsel]]. cbn zeta in *.
  set (res := fold_left keepCandidate (candidates name categories) (None, 0)) in *.
  split; [exact Hall |].
  destruct Hsel as [E | [earlier [c [later [Hc [Hf [Hlt Hbefore]]]]]]].
  - rewrite E. simpl. split; [reflexivity | discriminate].
  - split; [rewrite Hf; discriminate |].
    intros c' Hc'. rewrite Hf in Hc'. injection Hc' as <-. simpl in Hlt.
    split; [lia |]. split.
    + apply (candidates_keys name categories c (snd res)).
      rewrite Hc. apply in_or_app. right. left. reflexivity.
    + exists earlier, later. auto.
Qed.

(** X12.  The category that the budget update selects: among the scores that
    its loop meets (the key of a category that includes the name or is
    included in it, with the shorter length; each keyword that the name
    includes, with its length) the highest one wins and, among equal scores,
    the one met first; the category is a key of the configuration, and none
    is selected exactly when no positive score is met. *)
Theorem X12_budget_category_is_the_first_best_score :
  forall (name : jsstring) (categories : list (jsstring * list jsstring)),
    let best := ExpenseController.bestMatch categories name in
    (forall c t, In (c, t) (candidates name categories) -> t <= snd best) /\
    (fst best = None -> snd best = 0) /\
    (forall c, fst best = Some c ->
       0 < snd best /\ In c (map fst categories) /\
       exists earlier later,
         candidates name categories = earlier ++ (c, snd best) :: later /\
         forall c' t', In (c', t') earlier -> t' < snd best).
Proof. exact bestMatch_choice. Qed.

Lemma X12_witness :
  fst (ExpenseController.bestMatch Config.expenseCategories (js "super restaurante"))
  = Some (js "restaurante") /\
  In (js "restaurante") (map fst Config.expenseCategories) /\
  (forall c t, In (c, t) (candidates (js "super restaurante") Config.expenseCategories) ->
               t <= 11).
Proof.
  destruct (X12_budget_category_is_the_first_best_score
              (js "super restaurante") Config.expenseCategories) as [A [_ H]].
  split; [vm_compute; reflexivity |]. split.
  - apply (H (js "restaurante")). vm_compute. reflexivity.
  - exact A.
Defined.

Lemma groupsOf_groupBodies r : groupsOf r = map fst (groupBodies r).
Proof.
  induction r; simpl; try reflexivity; try (rewrite map_app; congruence); congruence.
Qed.

(** A group whose body is [[0-9.,]+] wherever it occurs captures digits,
    periods and commas. *)
Lemma exec_group_numeral re text m k :
  (forall body, In (k, body) (groupBodies (source re)) -> body = Config.numeral) ->
  1 <= k <= groupCount (source re) ->
  exec re text = Some m ->
  truthy (matchGroup m k) = true ->
  forallb isNumeralChar (groupString m k) = true.
Proof.
  intros Hb Hk He Ht.
  apply exec_inv in He. destruct He as [i [y [Hi [Hy [[Hl Hc] [_ ->]]]]]].
  unfold groupString. rewrite matchGroup_capture in * by exact Hk.
  unfold captureText in *.
  destruct (matchR_origin _ _ _ _ _ Hy k) as [E | [E | [body [x' [z [Hbody [Hz E]]]]]]].
  - rewrite E in Ht. simpl in Ht. discriminate.
  - rewrite E in Ht. discriminate.
  - rewrite E. rewrite (Hb body Hbody) in Hz.
    apply matchR_numeral in Hz. destruct Hz as [_ Hspan].
    apply substring_forallb. exact Hspan.
Qed.

Lemma amountText_of_numeral g :
  g <> [] -> forallb isNumeralChar g = true ->
  amountText (replaceFirst g (js ",") (js ".")).
Proof.
  intros Hne N. destruct (replaceFirst_comma _ N) as [L [F C]].
  split; [| split; assumption].
  intros Q. rewrite Q in L. simpl in L. destruct g; [congruence | discriminate].
Qed.

Lemma property_assign_same (o : list (jsstring * Database.Amount)) k v :
  Config.property (ExpenseController.assign o k v) k = Some v.
Proof.
  induction o as [| [k' v'] o IH]; simpl.
  - replace (jseqb k k) with true by (symmetry; apply jseqb_eq; reflexivity). reflexivity.
  - destruct (jseqb k' k) eqn:E; simpl; rewrite E; [reflexivity | exact IH].
Qed.

Lemma property_assign_other (o : list (jsstring * Database.Amount)) k v k0 :
  k0 <> k ->
  Config.property (ExpenseController.assign o k v) k0 = Config.property o k0.
Proof.
  intros Hne. induction o as [| [k' v'] o IH]; simpl.
  - destruct (jseqb k k0) eqn:E; [apply jseqb_eq in E; congruence | reflexivity].
  - destruct (jseqb k' k) eqn:E; simpl.
    + apply jseqb_eq in E. subst k'.
      destruct (jseqb k k0) eqn:Q; [apply jseqb_eq in Q; congruence | reflexivity].
    + rewrite IH. reflexivity.
Qed.

(** The keys of the budget keep their order; a new key goes last. *)
Lemma keys_assign (o : list (jsstring * Database.Amount)) k v :
  map fst (ExpenseController.assign o k v)
  = if existsb (fun k' => jseqb k' k) (map fst o) then map fst o else map fst o ++ [k].
Proof.
  induction o as [| [k' v'] o IH]; simpl; [reflexivity |].
  destruct (jseqb k' k); simpl; [reflexivity |]. rewrite IH.
  destruct (existsb _ (map fst o)); reflexivity.
Qed.

(** X13.  What processBudget writes.  When it answers that the budget was
    updated, the category is a key of the configuration and the amount is
    parsed from the text of an amount.  With a readable data file: if the
    file can be written, the stored document differs from the one stored
    before in the budget of that category only (transactions, fixed
    expenses, fixed incomes and goals are kept, the other budget entries
    too, in their order, a new key going last), and the entry of the
    category is the amount whenever that is a finite number; if the file
    cannot be written, it stays as it was.  With every other answer the file
    stays as it was. *)
Theorem X13_budget_update_frame :
  forall (msgText : jsstring) (disk : Database.Disk),
    let disk' := snd (ExpenseController.processBudget msgText disk) in
    match fst (ExpenseController.processBudget msgText disk) with
    | ExpenseController.BudgetUpdated c a =>
      In c (map fst Config.expenseCategories) /\
      (exists s, a = Database.ParseFloat s /\ amountText s) /\
      (forall before : Database.Document,
         Database.stored disk = Some before ->
         (Database.writable disk = false -> disk' = disk) /\
         (Database.writable disk = true ->
            exists after,
              Database.stored disk' = Some after /\
              Database.transactions after = Database.transactions before /\
              Database.fixedExpenses after = Database.fixedExpenses before /\
              Database.fixedIncomes after = Database.fixedIncomes before /\
              Database.financialGoals after = Database.financialGoals before /\
              (finiteAmount a ->
               Config.property (Database.budget after) c = Some a) /\
              (forall k, k <> c ->
                 Config.property (Database.budget after) k
                 = Config.property (Database.budget before) k) /\
              map fst (Database.budget after)
              = if existsb (fun k => jseqb k c) (map fst (Database.budget before))
                then map fst (Database.budget before)
                else map fst (Database.budget before) ++ [c]))
    | _ => disk' = disk
    end.
Proof.
  intros msgText disk. cbn zeta. unfold ExpenseController.processBudget.
  destruct (includes (toLowerCase msgText) (js "ver")
            || includes (toLowerCase msgText) (js "estado")
            || includes (toLowerCase msgText) (js "consultar")); [reflexivity |].
  destruct (exec ExpenseController.budgetPattern (toLowerCase msgText)) as [m |] eqn:He;
    [| reflexivity].
  set (name := toLowerCase (trim (groupString m 1))).
  destruct (bestMatch_choice name Config.expenseCategories) as [_ [_ Hsel]].
  cbn zeta in Hsel.
  destruct (fst (ExpenseController.bestMatch Config.expenseCategories name))
    as [[| u cs] |] eqn:Hb; [reflexivity | | reflexivity].
  destruct (Hsel _ eq_refl) as [_ [Hkey _]].
  cbn [fst snd].
  split; [exact Hkey |]. split.
  { eexists. split; [reflexivity |].
    assert (T : truthy (matchGroup m 2) = true)
      by (apply (exec_group_truthy ExpenseController.budgetPattern _ m 2 eq_refl eq_refl He)).
    apply amountText_of_numeral.
    - unfold groupString. destruct (truthy_inv _ T) as [c [s ->]]. discriminate.
    - apply (exec_group_numeral ExpenseController.budgetPattern (toLowerCase msgText) m 2);
        [| vm_compute; lia | exact He | exact T].
      intros body Hin. simpl in Hin.
      destruct Hin as [Hin | [Hin | []]]; [discriminate | congruence]. }
  intros before Hs.
  unfold Database.saveDatabase, Database.loadDatabase. rewrite Hs. split.
  - intros ->. reflexivity.
  - intros ->. eexists. split; [reflexivity |]. cbn.
    split; [reflexivity |]. split; [reflexivity |].
    split; [reflexivity |]. split; [reflexivity |].
    split; [intros _; apply property_assign_same |].
    split; [intros k Hk; apply property_assign_other; exact Hk |].
    apply keys_assign.
Qed.

Lemma X13_witness :
  exists after,
    Database.stored
      (snd (ExpenseController.processBudget
              (js "Presupuesto para Netflix 50000")
              (Database.mkDisk
                 (Some (Database.mkDocument [sampleExpense] Database.configFixedExpenses
                          Database.configFixedIncomes Database.configFinancialGoals
                          Database.configMonthlyBudget)) true))) = Some after /\
    Config.property (Database.budget after) (js "entretenimiento")
    = Some (Database.ParseFloat (js "50000")) /\
    Config.property (Database.budget after) (js "salud") = Some (Database.Literal 100000) /\
    Database.transactions after = [sampleExpense].
Proof.
  pose proof (X13_budget_update_frame (js "Presupuesto para Netflix 50000")
                (Database.mkDisk
                   (Some (Database.mkDocument [sampleExpense] Database.configFixedExpenses
                            Database.configFixedIncomes Database.configFinancialGoals
                            Database.configMonthlyBudget)) true)) as H.
  cbn zeta in H.
  replace (fst (ExpenseController.processBudget (js "Presupuesto para Netflix 50000")
                  (Database.mkDisk
                     (Some (Database.mkDocument [sampleExpense]
                              Database.configFixedExpenses
                              Database.configFixedIncomes Database.configFinancialGoals
                              Database.configMonthlyBudget)) true)))
    with (ExpenseController.BudgetUpdated (js "entretenimiento")
            (Database.ParseFloat (js "50000"))) in H by (vm_compute; reflexivity).
  destruct H as [_ [_ H]].
  destruct (H _ eq_refl) as [_ H1].
  destruct (H1 eq_refl) as [after [S [T [_ [_ [_ [P [Q _]]]]]]]].
  exists after. split; [exact S |]. split.
  - apply P. split; [vm_compute; reflexivity | vm_compute; lia].
  - split; [| exact T].
    rewrite Q; [vm_compute; reflexivity | vm_compute; discriminate].
Defined.

(** ** Receipts: merchant and items *)

Lemma split_no_separator (s : jsstring) sep : forall piece,
  In piece (split s sep) -> ~ In sep piece.
Proof.
  induction s as [| c s IH]; intros piece Hin.
  - simpl in Hin. destruct Hin as [<- | []]. intros [].
  - cbn [split] in Hin. destruct (N.eqb_spec c sep) as [E | E].
    + destruct Hin as [<- | Hin]; [intros [] | apply IH; exact Hin].
    + destruct (split s sep) as [| p ps] eqn:Q.
      * destruct Hin as [<- | []]. intros [H | []]. congruence.
      * destruct Hin as [<- | Hin].
        -- intros [H | H]; [congruence |]. apply (IH p); [left; reflexivity | exact H].
        -- apply IH. right. exact Hin.
Qed.

Lemma trim_sublist s : exists a n, trim s = firstn n (skipn a s).
Proof.
  unfold trim. destruct (trimStart_suffix s) as [a E].
  destruct (trimEnd_prefix (trimStart s)) as [n F].
  exists a, n. rewrite F, E. reflexivity.
Qed.

Lemma trim_length s : length (trim s) <= length s.
Proof.
  destruct (trim_sublist s) as [a [n ->]].
  rewrite length_firstn, length_skipn. lia.
Qed.

Lemma in_firstn_list {A : Type} (x : A) n : forall l, In x (firstn n l) -> In x l.
Proof.
  induction n as [| n IH]; intros [| a l] H; simpl in H; try contradiction.
  destruct H as [H | H]; [left; exact H | right; apply IH; exact H].
Qed.

Lemma in_skipn_list {A : Type} (x : A) n : forall l, In x (skipn n l) -> In x l.
Proof.
  induction n as [| n IH]; intros l H; [exact H |].
  destruct l as [| a l]; [exact H |]. right. apply IH. exact H.
Qed.

Lemma trim_In c s : In c (trim s) -> In c s.
Proof.
  destruct (trim_sublist s) as [a [n ->]]. intros H.
  eapply in_skipn_list, in_firstn_list, H.
Qed.

Lemma firstName_some lines name :
  ReceiptController.firstName lines = Some name ->
  exists line, In line lines /\ name = trim line /\ rejectedLine line = false /\
               3 < length line < 40.
Proof.
  induction lines as [| line rest IH]; simpl; [discriminate |].
  fold (rejectedLine line).
  destruct (rejectedLine line) eqn:R.
  - intros Hf. destruct (IH Hf) as [l [Hin K]]. exists l. auto.
  - destruct (Nat.ltb_spec 3 (length line)) as [L3 | L3]; simpl.
    + destruct (Nat.ltb_spec (length line) 40) as [L40 | L40].
      * intros Hf. injection Hf as <-. exists line. repeat split; auto.
      * intros Hf. destruct (IH Hf) as [l [Hin K]]. exists l. auto.
    + intros Hf. destruct (IH Hf) as [l [Hin K]]. exists l. auto.
Qed.

Lemma category_label_shape c :
  In c (map fst Config.expenseCategories) ->
  let r := TextProcessing.capitalize c in
  r <> [] /\ length r < 40 /\ forallb (fun u => negb (u =? 10)%N) r = true /\ trimmed r.
Proof.
  intros H. simpl in H.
  repeat (destruct H as [<- | H];
          [split; [discriminate |];
           split; [vm_compute; lia |];
           split; [vm_compute; reflexivity | split; vm_compute; reflexivity] |]).
  contradiction.
Qed.

Lemma no_newline_forallb (r : jsstring) :
  forallb (fun u => negb (u =? 10)%N) r = true -> ~ In 10%N r.
Proof.
  intros F H. rewrite forallb_forall in F. specialize (F _ H). discriminate.
Qed.

(** X14.  The merchant of a receipt is never empty, is shorter than 40 code
    units, holds no line feed (the code unit at which the text is split into
    lines) and has no white space at either end.  It is
    the trimmed text of one of the first five non-blank lines, a line that
    is not passed over; or, when none of them qualifies, the capitalized
    category of the receipt or the fixed label. *)
Theorem X14_merchant_is_a_short_trimmed_label :
  forall text : jsstring,
    let r := ReceiptController.extractMerchant text in
    r <> [] /\ length r < 40 /\ ~ In 10%N r /\ trim r = r /\
    ((exists line, In line (candidateLines text) /\ r = trim line /\
                   rejectedLine line = false) \/
     (ReceiptController.firstName (candidateLines text) = None /\
      (r = TextProcessing.capitalize (TextProcessing.categorizeExpense text) \/
       r = js "Comercio no identificado"))).
Proof.
  intros text. cbn zeta. unfold ReceiptController.extractMerchant.
  fold (candidateLines text).
  destruct (ReceiptController.firstName (candidateLines text)) as [name |] eqn:F.
  - apply firstName_some in F. destruct F as [line [Hin [-> [R L]]]].
    pose proof Hin as Hin'. unfold candidateLines in Hin'.
    apply in_firstn_list in Hin'. apply filter_In in Hin'. destruct Hin' as [Hs Hb].
    apply negb_true_iff in Hb.
    split.
    { intros E. rewrite E in Hb. discriminate. }
    split; [pose proof (trim_length line); lia |].
    split.
    { intros H. apply trim_In in H. apply (split_no_separator _ _ _ Hs H). }
    split; [apply trimmed_fixed, trim_trimmed |].
    left. exists line. auto.
  - destruct (negb (jseqb (TextProcessing.categorizeExpense text) (js "otros"))).
    + destruct (categorizeExpense_declared text) as [i [ks Hd]].
      apply nth_error_In in Hd. apply (in_map fst) in Hd.
      destruct (category_label_shape _ Hd) as [A [B [C D]]].
      split; [exact A |]. split; [exact B |].
      split; [apply no_newline_forallb; exact C |].
      split; [apply trimmed_fixed; exact D |]. right. auto.
    + split; [discriminate |]. split; [vm_compute; lia |].
      split; [apply no_newline_forallb; vm_compute; reflexivity |].
      split; [vm_compute; reflexivity |]. right. auto.
Qed.

Lemma itemsOfLine_inv line name price :
  In (name, price) (ReceiptController.itemsOfLine line) ->
  2 < length name /\ trimmed name /\
  includes (toLowerCase name) (js "total") = false /\
  includes (toLowerCase name) (js "iva") = false /\
  amountText price /\
  exists m, exec ReceiptController.itemPattern (trim line) = Some m /\
            name = trim (groupString m 1) /\
            price = replaceFirst (groupString m 2) (js ",") (js ".").
Proof.
  unfold ReceiptController.itemsOfLine.
  destruct (jseqb (trim line) []); [intros [] |].
  destruct (exec ReceiptController.itemPattern (trim line)) as [m |] eqn:He; [| intros []].
  destruct (truthy (matchGroup m 1)) eqn:T1; [| intros []].
  destruct (truthy (matchGroup m 2)) eqn:T2; [| intros []].
  cbn [andb].
  destruct (Nat.ltb_spec 2 (length (trim (groupString m 1)))); [| intros []].
  destruct (includes (toLowerCase (trim (groupString m 1))) (js "total")) eqn:I1;
    [intros [] |].
  destruct (includes (toLowerCase (trim (groupString m 1))) (js "iva")) eqn:I2;
    [intros [] |].
  cbn [andb negb].
  destruct (includes (toLowerCase (trim (groupString m 1))) (js "subtotal"));
    [intros [] |].
  intros [E | []]. injection E as <- <-.
  split; [assumption |]. split; [apply trim_trimmed |].
  split; [exact I1 |]. split; [exact I2 |]. split.
  - apply amountText_of_numeral.
    + unfold groupString. destruct (truthy_inv _ T2) as [c [s ->]]. discriminate.
    + apply (exec_group_numeral ReceiptController.itemPattern (trim line) m 2);
        [| vm_compute; lia | exact He | exact T2].
      intros body Hin. simpl in Hin.
      destruct Hin as [Hin | [Hin | []]]; [discriminate | congruence].
  - exists m. auto.
Qed.

Lemma itemsOfLine_length line : length (ReceiptController.itemsOfLine line) <= 1.
Proof.
  unfold ReceiptController.itemsOfLine.
  repeat match goal with
         | |- context [if ?b then _ else _] => destruct b
         | |- context [match ?o with Some _ => _ | None => _ end] => destruct o
         end; simpl; lia.
Qed.

(** X15.  Every item of a receipt has a name of more than two code units,
    without white space at either end, that mentions neither 'total' nor
    'iva', and a price that is the text of an amount; name and price are the
    two captures of the item pattern on a trimmed line of the receipt.
    There are at most as many items as lines. *)
Theorem X15_items_are_named_prices :
  forall text : jsstring,
    (forall name price,
       In (name, price) (ReceiptController.extractItems text) ->
       2 < length name /\ trim name = name /\
       includes (toLowerCase name) (js "total") = false /\
       includes (toLowerCase name) (js "iva") = false /\
       amountText price /\
       exists line m,
         In line (split text 10) /\
         exec ReceiptController.itemPattern (trim line) = Some m /\
         name = trim (groupString m 1) /\
         price = replaceFirst (groupString m 2) (js ",") (js ".")) /\
    length (ReceiptController.extractItems text) <= length (split text 10).
Proof.
  intros text. unfold ReceiptController.extractItems. split.
  - intros name price Hin. apply in_flat_map in Hin. destruct Hin as [line [Hl Hi]].
    apply itemsOfLine_inv in Hi.
    destruct Hi as [A [B [C [D [E [m [F [G H]]]]]]]].
    split; [exact A |]. split; [apply trimmed_fixed; exact B |].
    split; [exact C |]. split; [exact D |]. split; [exact E |].
    exists line, m. auto.
  - induction (split text 10) as [| line lines IH]; [simpl; lia |].
    cbn [flat_map]. rewrite length_app. pose proof (itemsOfLine_length line).
    simpl. lia.
Qed.

Lemma X15_witness :
  amountText (js "3.200") /\ trim (js "Leche entera") = js "Leche entera".
Proof.
  destruct (X15_items_are_named_prices
              (js "Super La 14" ++ newline ++ js "Leche entera  $3,200" ++ newline
               ++ js "TOTAL 7.700")) as [H _].
  destruct (H (js "Leche entera") (js "3.200")) as [_ [A [_ [_ [B _]]]]];
    [vm_compute; right; left; reflexivity |].
  split; [exact B | exact A].
Defined.

(** ** Texts that a pattern cannot tell apart *)

Lemma exec_cut re text : exec re text = option_map (cut text) (spans re text).
Proof.
  unfold exec, spans.
  destruct (searchFrom (flagI re) text (source re) 0 (length text)) as [[i y] |];
    [| reflexivity].
  simpl. rewrite map_map. reflexivity.
Qed.

Lemma Forall2_nth_error {A B : Type} (P : A -> B -> Prop) l l' :
  Forall2 P l l' ->
  forall i, match nth_error l i, nth_error l' i with
            | Some a, Some b => P a b
            | None, None => True
            | _, _ => False
            end.
Proof.
  induction 1 as [| a b l l' Hab Hl IH]; intros [| i]; simpl; auto.
  apply IH.
Qed.

Lemma charStep_alike (s s' : jsstring) (accept accept' : N -> bool) :
  Forall2 (fun a b => accept a = accept' b) s s' ->
  forall x, charStep s accept x = charStep s' accept' x.
Proof.
  intros H x. unfold charStep.
  pose proof (Forall2_nth_error _ _ _ H (endIndex x)) as K.
  destruct (nth_error s (endIndex x)), (nth_error s' (endIndex x));
    try contradiction; [rewrite K |]; reflexivity.
Qed.

Lemma repeatMatcher_ext (m m' : MatchState -> list MatchState) parens greedy :
  (forall x, m x = m' x) ->
  forall fuel min max x,
    RegExp.repeatMatcher m parens greedy fuel min max x
    = RegExp.repeatMatcher m' parens greedy fuel min max x.
Proof.
  intros Hm. induction fuel as [| fuel IH]; intros min max x; [reflexivity |].
  cbn [RegExp.repeatMatcher]. rewrite <- Hm.
  assert (E : flat_map
      (fun y : MatchState =>
         if Nat.eqb min 0 && Nat.eqb (endIndex y) (endIndex x) then []
         else RegExp.repeatMatcher m parens greedy fuel (Nat.pred min)
                (option_map Nat.pred max) y)
      (m (clearCaptures parens x))
    = flat_map
      (fun y : MatchState =>
         if Nat.eqb min 0 && Nat.eqb (endIndex y) (endIndex x) then []
         else RegExp.repeatMatcher m' parens greedy fuel (Nat.pred min)
                (option_map Nat.pred max) y)
      (m (clearCaptures parens x))).
  { apply flat_map_ext_in. intros y _. rewrite IH. reflexivity. }
  rewrite E. reflexivity.
Qed.

Lemma Forall2_weaken {A B : Type} (P Q : A -> B -> Prop) l l' :
  (forall a b, P a b -> Q a b) -> Forall2 P l l' -> Forall2 Q l l'.
Proof. intros H. induction 1; constructor; auto. Qed.

Lemma Forall2_same_length {A B : Type} (P : A -> B -> Prop) l l' :
  Forall2 P l l' -> length l = length l'.
Proof. induction 1; simpl; congruence. Qed.

Lemma matchR_alike ic (s s' : jsstring) r :
  Forall2 (fun a b => alike ic r a b = true) s s' ->
  forall x, RegExp.matchR ic s r x = RegExp.matchR ic s' r x.
Proof.
  induction r as [| c | inv atoms | | a IHa b IHb | a IHa b IHb
                  | min max greedy a IHa | k a IHa | |]; intros H x; simpl.
  - reflexivity.
  - apply charStep_alike. eapply Forall2_weaken; [| exact H].
    intros p q E. simpl in E. apply Bool.eqb_prop. exact E.
  - apply charStep_alike. eapply Forall2_weaken; [| exact H].
    intros p q E. simpl in E. apply Bool.eqb_prop. exact E.
  - apply charStep_alike. eapply Forall2_weaken; [| exact H].
    intros p q E. simpl in E. apply Bool.eqb_prop in E. rewrite E. reflexivity.
  - assert (Ha : Forall2 (fun p q => alike ic a p q = true) s s')
      by (eapply Forall2_weaken; [| exact H]; intros p q E; simpl in E;
          apply andb_true_iff in E; tauto).
    assert (Hb : Forall2 (fun p q => alike ic b p q = true) s s')
      by (eapply Forall2_weaken; [| exact H]; intros p q E; simpl in E;
          apply andb_true_iff in E; tauto).
    rewrite (IHa Ha). apply flat_map_ext_in. intros y _. apply IHb. exact Hb.
  - assert (Ha : Forall2 (fun p q => alike ic a p q = true) s s')
      by (eapply Forall2_weaken; [| exact H]; intros p q E; simpl in E;
          apply andb_true_iff in E; tauto).
    assert (Hb : Forall2 (fun p q => alike ic b p q = true) s s')
      by (eapply Forall2_weaken; [| exact H]; intros p q E; simpl in E;
          apply andb_true_iff in E; tauto).
    rewrite (IHa Ha), (IHb Hb). reflexivity.
  - rewrite (Forall2_same_length _ _ _ H).
    apply repeatMatcher_ext. apply IHa. exact H.
  - rewrite (IHa H). reflexivity.
  - reflexivity.
  - rewrite (Forall2_same_length _ _ _ H). reflexivity.
Qed.

Lemma searchFrom_alike ic (s s' : jsstring) r :
  Forall2 (fun a b => alike ic r a b = true) s s' ->
  forall fuel i, searchFrom ic s r i fuel = searchFrom ic s' r i fuel.
Proof.
  intros H. induction fuel as [| fuel IH]; intros i; simpl;
    rewrite (matchR_alike ic s s' r H); [reflexivity |].
  rewrite IH. reflexivity.
Qed.

(** A pattern matches two texts that it cannot tell apart at the same
    places. *)
Lemma spans_sameShape re s s' : sameShape re s s' -> spans re s = spans re s'.
Proof.
  intros H. unfold spans.
  rewrite (Forall2_same_length _ _ _ H).
  rewrite (searchFrom_alike _ _ _ _ H). reflexivity.
Qed.

Lemma alike_refl ic r a : alike ic r a a = true.
Proof.
  induction r; simpl; try reflexivity; try apply Bool.eqb_reflx; auto.
  - rewrite IHr1, IHr2. reflexivity.
  - rewrite IHr1, IHr2. reflexivity.
Qed.

(** A pattern that cannot tell one digit from another matches a text
    written on a template where it matches the template's zeros. *)
Lemma sameShape_template re template s :
  (forall a, isDigit a = true -> alike (flagI re) (source re) a 48 = true) ->
  onTemplate template s -> sameShape re s (zeros template).
Proof.
  intros D H. unfold sameShape, zeros.
  induction H as [| t c template s Htc H IH]; simpl; constructor; [| exact IH].
  destruct t as [x |]; [subst c; apply alike_refl | apply D; exact Htc].
Qed.

Lemma exec_template re template s :
  (forall a, isDigit a = true -> alike (flagI re) (source re) a 48 = true) ->
  onTemplate template s ->
  exec re s = option_map (cut s) (spans re (zeros template)).
Proof.
  intros D H. rewrite exec_cut, (spans_sameShape _ _ _ (sameShape_template _ _ _ D H)).
  reflexivity.
Qed.

Ltac on_template :=
  unfold onTemplate;
  match goal with
  | |- Forall2 ?P ?l ?l' =>
    let l1 := eval cbv in l in
    let l2 := eval cbv in l' in
    change (Forall2 P l1 l2)
  end;
  repeat (apply Forall2_cons; [first [assumption | reflexivity] |]);
  apply Forall2_nil.

(** ** Dates written in digits *)

Lemma parseInt_digits g : forallb isDigit g = true -> parseInt g = parseInt10 g.
Proof.
  destruct g as [| c s]; [reflexivity |]. simpl forallb. intros H.
  apply andb_true_iff in H. destruct H as [Hc Hs].
  apply isDigit_cases in Hc.
  destruct Hc as [-> | Hc].
  - destruct s as [| x rest]; [reflexivity |].
    simpl in Hs. apply andb_true_iff in Hs. destruct Hs as [Hx _].
    apply isDigit_cases in Hx.
    repeat (destruct Hx as [-> | Hx]; [reflexivity |]). subst x. reflexivity.
  - repeat (destruct Hc as [-> | Hc]; [reflexivity |]). subst c. reflexivity.
Qed.

Lemma parseInt_digit_string c s :
  forallb isDigit (c :: s) = true ->
  parseInt (c :: s) = Some (Z.of_N (readDigits (c :: s) 0)).
Proof.
  intros H. rewrite (parseInt_digits _ H). apply parseInt10_digits.
  simpl in H. apply andb_true_iff in H. tauto.
Qed.

Lemma range_cases (P : Z -> bool) (lo hi : Z) :
  forallb (fun k => P (lo + Z.of_nat k)%Z) (seq 0 (Z.to_nat (hi - lo))) = true ->
  forall v, (lo <= v < hi)%Z -> P v = true.
Proof.
  intros H v Hv. rewrite forallb_forall in H.
  specialize (H (Z.to_nat (v - lo))).
  replace (lo + Z.of_nat (Z.to_nat (v - lo)))%Z with v in H by lia.
  apply H. apply in_seq. lia.
Qed.

(** The text of a year from 1000 to 9999: four digits that read back as the
    year, the last two as the year within its century. *)
Lemma year_text y :
  (1000 <= y <= 9999)%Z ->
  exists a b c e,
    stringOfNumber (Some y) = [a; b; c; e] /\
    forallb isDigit [a; b; c; e] = true /\
    readDigits [a; b; c; e] 0 = Z.to_N y /\
    readDigits [c; e] 0 = Z.to_N (y mod 100).
Proof.
  intros Hy.
  pose proof (range_cases
    (fun v => match stringOfNumber (Some v) with
              | [a; b; c; e] =>
                forallb isDigit [a; b; c; e]
                && (readDigits [a; b; c; e] 0 =? Z.to_N v)%N
                && (readDigits [c; e] 0 =? Z.to_N (v mod 100))%N
              | _ => false
              end) 1000 10000) as H.
  specialize (H ltac:(vm_compute; reflexivity) y ltac:(lia)). cbv beta in H.
  destruct (stringOfNumber (Some y)) as [| a [| b [| c [| e [| ? ?]]]]];
    try discriminate.
  apply andb_true_iff in H. destruct H as [H H3].
  apply andb_true_iff in H. destruct H as [H1 H2].
  apply N.eqb_eq in H2, H3. exists a, b, c, e. auto.
Qed.

Lemma twoDigits_inv s :
  twoDigits s -> exists p q, s = [p; q] /\ isDigit p = true /\ isDigit q = true.
Proof.
  intros [L F]. destruct s as [| p [| q [| ? ?]]]; try discriminate.
  simpl in F. apply andb_true_iff in F. destruct F as [Hp F].
  apply andb_true_iff in F. destruct F as [Hq _]. exists p, q. auto.
Qed.

Lemma firstDate_cons p rest text :
  ReceiptController.firstDate (p :: rest) text
  = match exec p text with
    | Some m => Some (dateOfMatch m)
    | None => ReceiptController.firstDate rest text
    end.
Proof.
  cbn [ReceiptController.firstDate].
  destruct (exec p text) as [m |]; [| reflexivity].
  unfold dateOfMatch.
  destruct (parseInt (groupString m 1)) as [v |]; [destruct (31 <? v)%Z |]; reflexivity.
Qed.

Lemma digit_alike_receipt k :
  1 <= k <= 4 -> forall a, isDigit a = true ->
  alike (flagI (receiptDatePattern k)) (source (receiptDatePattern k)) a 48 = true.
Proof.
  intros Hk a H. apply isDigit_cases in H.
  destruct k as [| [| [| [| [| k]]]]]; try lia;
    repeat (destruct H as [-> | H]; [vm_compute; reflexivity |]);
    subst a; vm_compute; reflexivity.
Qed.

Lemma extractDate_labelled today a b c e m1 m2 d1 d2 :
  forallb isDigit [a; b; c; e; m1; m2; d1; d2] = true ->
  (31 < Z.of_N (readDigits [a; b; c; e] 0))%Z ->
  ReceiptController.extractDate today
    (js "FECHA: " ++ [a; b; c; e] ++ js "-" ++ [m1; m2] ++ js "-" ++ [d1; d2])
  = TextProcessing.dashed
      (stringOfNumber (Some (Z.of_N (readDigits [a; b; c; e] 0))))
      (TextProcessing.pad2 (Some (Z.of_N (readDigits [m1; m2] 0))))
      (TextProcessing.pad2 (Some (Z.of_N (readDigits [d1; d2] 0)))).
Proof.
  intros D Hy. cbn [forallb] in D.
  apply andb_true_iff in D. destruct D as [Da D].
  apply andb_true_iff in D. destruct D as [Db D].
  apply andb_true_iff in D. destruct D as [Dc D].
  apply andb_true_iff in D. destruct D as [De D].
  apply andb_true_iff in D. destruct D as [Dm1 D].
  apply andb_true_iff in D. destruct D as [Dm2 D].
  apply andb_true_iff in D. destruct D as [Dd1 D].
  apply andb_true_iff in D. destruct D as [Dd2 _].
  set (text := js "FECHA: " ++ [a; b; c; e] ++ js "-" ++ [m1; m2] ++ js "-" ++ [d1; d2]).
  assert (T : onTemplate (map Some (js "FECHA: ") ++ isoTemplate) text) by on_template.
  assert (E1 : exec (receiptDatePattern 1) text = None).
  { rewrite (exec_template _ _ _ (digit_alike_receipt 1 ltac:(lia)) T).
    replace (spans (receiptDatePattern 1) (zeros (map Some (js "FECHA: ") ++ isoTemplate)))
      with (@None (nat * nat * list (option (nat * nat)))) by (vm_compute; reflexivity).
    reflexivity. }
  assert (E2 : exec (receiptDatePattern 2) text
               = Some (cut text (0, 17, [Some (7, 11); Some (12, 14); Some (15, 17)]))).
  { rewrite (exec_template _ _ _ (digit_alike_receipt 2 ltac:(lia)) T).
    replace (spans (receiptDatePattern 2) (zeros (map Some (js "FECHA: ") ++ isoTemplate)))
      with (Some (0, 17, [Some (7, 11); Some (12, 14); Some (15, 17)]))
      by (vm_compute; reflexivity).
    reflexivity. }
  unfold ReceiptController.extractDate.
  change ReceiptController.datePatterns with
    [receiptDatePattern 1; receiptDatePattern 2; receiptDatePattern 3;
     receiptDatePattern 4].
  rewrite firstDate_cons, E1, firstDate_cons, E2.
  unfold dateOfMatch.
  change (groupString (cut text (0, 17, [Some (7, 11); Some (12, 14); Some (15, 17)])) 1)
    with [a; b; c; e].
  change (groupString (cut text (0, 17, [Some (7, 11); Some (12, 14); Some (15, 17)])) 2)
    with [m1; m2].
  change (groupString (cut text (0, 17, [Some (7, 11); Some (12, 14); Some (15, 17)])) 3)
    with [d1; d2].
  rewrite !parseInt_digit_string
    by (cbn [forallb]; rewrite ?Da, ?Db, ?Dc, ?De, ?Dm1, ?Dm2, ?Dd1, ?Dd2; reflexivity).
  destruct (Z.ltb_spec 31 (Z.of_N (readDigits [a; b; c; e] 0))); [reflexivity | lia].
Qed.

Lemma formatDate_digits date :
  (1000 <= getFullYear date <= 9999)%Z ->
  exists a b c e m1 m2 d1 d2,
    TextProcessing.formatDate date
    = [a; b; c; e] ++ js "-" ++ [m1; m2] ++ js "-" ++ [d1; d2] /\
    forallb isDigit [a; b; c; e; m1; m2; d1; d2] = true /\
    readDigits [a; b; c; e] 0 = Z.to_N (getFullYear date) /\
    readDigits [c; e] 0 = Z.to_N (getFullYear date mod 100) /\
    readDigits [m1; m2] 0 = Z.to_N (getMonth date + 1) /\
    readDigits [d1; d2] 0 = Z.to_N (getDate date) /\
    (1 <= getMonth date + 1 <= 12)%Z /\ (1 <= getDate date <= 31)%Z.
Proof.
  intros Hy.
  destruct (year_text _ Hy) as [a [b [c [e [Ey [Dy [Ry Rc]]]]]]].
  pose proof (civil_valid date) as [Hm Hd]. fold (getFullYear date) in Hd.
  pose proof (daysInMonth_le (getFullYear date) (getMonth date + 1)) as Hle.
  destruct (pad2_small (getMonth date + 1) ltac:(lia)) as [Tm Rm].
  destruct (pad2_small (getDate date) ltac:(lia)) as [Td Rd].
  destruct (twoDigits_inv _ Tm) as [m1 [m2 [Em [Dm1 Dm2]]]].
  destruct (twoDigits_inv _ Td) as [d1 [d2 [Ed [Dd1 Dd2]]]].
  exists a, b, c, e, m1, m2, d1, d2.
  rewrite Em in Rm. rewrite Ed in Rd.
  split.
  { unfold TextProcessing.formatDate, TextProcessing.dashed. rewrite Ey, Em, Ed.
    reflexivity. }
  split.
  { cbn [forallb] in *. rewrite Dm1, Dm2, Dd1, Dd2.
    repeat (apply andb_true_iff in Dy; destruct Dy as [-> Dy]). reflexivity. }
  repeat split; auto; lia.
Qed.

(** X16.  A date is read back from its own text after the label: for every
    date with a year from 1000 to 9999, extractDate on the label FECHA
    followed by the text of formatDate returns that text. *)
Theorem X16_labelled_date_round_trip :
  forall (today date : Date),
    (1000 <= getFullYear date <= 9999)%Z ->
    ReceiptController.extractDate today (js "FECHA: " ++ TextProcessing.formatDate date)
    = TextProcessing.formatDate date.
Proof.
  intros today date Hy.
  destruct (formatDate_digits date Hy)
    as (a & b & c & e & m1 & m2 & d1 & d2 & E & D & Ry & _ & Rm & Rd & Hm & Hd).
  rewrite E at 1.
  rewrite (extractDate_labelled today a b c e m1 m2 d1 d2 D) by (rewrite Ry; lia).
  rewrite Ry, Rm, Rd, !Z2N.id by lia. reflexivity.
Qed.

Lemma X16_witness :
  ReceiptController.extractDate (newDate 2024 2 10) (js "FECHA: 2023-12-31")
  = js "2023-12-31".
Proof.
  apply (X16_labelled_date_round_trip (newDate 2024 2 10) (newDate 2023 11 31)).
  vm_compute. split; discriminate.
Defined.

Lemma extractDate_unlabelled today a b c e m1 m2 d1 d2 :
  forallb isDigit [a; b; c; e; m1; m2; d1; d2] = true ->
  ReceiptController.extractDate today
    ([a; b; c; e] ++ js "-" ++ [m1; m2] ++ js "-" ++ [d1; d2])
  = if (31 <? Z.of_N (readDigits [c; e] 0))%Z
    then TextProcessing.dashed
           (stringOfNumber (Some (Z.of_N (readDigits [c; e] 0))))
           (TextProcessing.pad2 (Some (Z.of_N (readDigits [m1; m2] 0))))
           (TextProcessing.pad2 (Some (Z.of_N (readDigits [d1; d2] 0))))
    else TextProcessing.dashed
           (stringOfNumber
              (TextProcessing.adjustYear (Some (Z.of_N (readDigits [d1; d2] 0)))))
           (TextProcessing.pad2 (Some (Z.of_N (readDigits [m1; m2] 0))))
           (TextProcessing.pad2 (Some (Z.of_N (readDigits [c; e] 0)))).
Proof.
  intros D. cbn [forallb] in D.
  apply andb_true_iff in D. destruct D as [Da D].
  apply andb_true_iff in D. destruct D as [Db D].
  apply andb_true_iff in D. destruct D as [Dc D].
  apply andb_true_iff in D. destruct D as [De D].
  apply andb_true_iff in D. destruct D as [Dm1 D].
  apply andb_true_iff in D. destruct D as [Dm2 D].
  apply andb_true_iff in D. destruct D as [Dd1 D].
  apply andb_true_iff in D. destruct D as [Dd2 _].
  set (text := [a; b; c; e] ++ js "-" ++ [m1; m2] ++ js "-" ++ [d1; d2]).
  assert (T : onTemplate isoTemplate text) by on_template.
  assert (E1 : exec (receiptDatePattern 1) text = None).
  { rewrite (exec_template _ _ _ (digit_alike_receipt 1 ltac:(lia)) T).
    replace (spans (receiptDatePattern 1) (zeros isoTemplate))
      with (@None (nat * nat * list (option (nat * nat)))) by (vm_compute; reflexivity).
    reflexivity. }
  assert (E2 : exec (receiptDatePattern 2) text = None).
  { rewrite (exec_template _ _ _ (digit_alike_receipt 2 ltac:(lia)) T).
    replace (spans (receiptDatePattern 2) (zeros isoTemplate))
      with (@None (nat * nat * list (option (nat * nat)))) by (vm_compute; reflexivity).
    reflexivity. }
  assert (E3 : exec (receiptDatePattern 3) text
               = Some (cut text (2, 10, [Some (2, 4); Some (5, 7); Some (8, 10)]))).
  { rewrite (exec_template _ _ _ (digit_alike_receipt 3 ltac:(lia)) T).
    replace (spans (receiptDatePattern 3) (zeros isoTemplate))
      with (Some (2, 10, [Some (2, 4); Some (5, 7); Some (8, 10)]))
      by (vm_compute; reflexivity).
    reflexivity. }
  unfold ReceiptController.extractDate.
  change ReceiptController.datePatterns with
    [receiptDatePattern 1; receiptDatePattern 2; receiptDatePattern 3;
     receiptDatePattern 4].
  rewrite firstDate_cons, E1, firstDate_cons, E2, firstDate_cons, E3.
  unfold dateOfMatch.
  change (groupString (cut text (2, 10, [Some (2, 4); Some (5, 7); Some (8, 10)])) 1)
    with [c; e].
  change (groupString (cut text (2, 10, [Some (2, 4); Some (5, 7); Some (8, 10)])) 2)
    with [m1; m2].
  change (groupString (cut text (2, 10, [Some (2, 4); Some (5, 7); Some (8, 10)])) 3)
    with [d1; d2].
  rewrite !parseInt_digit_string
    by (cbn [forallb]; rewrite ?Da, ?Db, ?Dc, ?De, ?Dm1, ?Dm2, ?Dd1, ?Dd2; reflexivity).
  reflexivity.
Qed.

(** X17.  Without the label the text of formatDate is read by the day-first
    pattern, which matches from the third digit of the year on.  For a year
    from 1000 to 9999: when the last two digits of the year exceed 31 they
    are returned as the year, with the month and the day; otherwise they are
    returned as the day, and the day, plus 2000, as the year. *)
Theorem X17_unlabelled_date_is_read_day_first :
  forall (today date : Date),
    (1000 <= getFullYear date <= 9999)%Z ->
    let yy := (getFullYear date mod 100)%Z in
    let mm := TextProcessing.pad2 (Some (getMonth date + 1)%Z) in
    ReceiptController.extractDate today (TextProcessing.formatDate date)
    = if (31 <? yy)%Z
      then TextProcessing.dashed (stringOfNumber (Some yy)) mm
                                 (TextProcessing.pad2 (Some (getDate date)))
      else TextProcessing.dashed (stringOfNumber (Some (2000 + getDate date)%Z)) mm
                                 (TextProcessing.pad2 (Some yy)).
Proof.
  intros today date Hy. cbn zeta.
  destruct (formatDate_digits date Hy)
    as (a & b & c & e & m1 & m2 & d1 & d2 & E & D & _ & Rc & Rm & Rd & Hm & Hd).
  assert (Hyy : (0 <= getFullYear date mod 100 < 100)%Z)
    by (apply Z.mod_pos_bound; lia).
  rewrite E.
  rewrite (extractDate_unlabelled today a b c e m1 m2 d1 d2 D).
  rewrite Rc, Rm, Rd, !Z2N.id by lia.
  destruct (31 <? getFullYear date mod 100)%Z; [reflexivity |].
  unfold TextProcessing.adjustYear.
  destruct (Z.ltb_spec (getDate date) 100); [| lia].
  destruct (Z.ltb_spec (getDate date) 50); [| lia].
  replace (getDate date + 2000)%Z with (2000 + getDate date)%Z by lia. reflexivity.
Qed.

Lemma X17_witness :
  ReceiptController.extractDate (newDate 2024 2 10) (js "2024-03-09") = js "2009-03-24" /\
  ReceiptController.extractDate (newDate 2024 2 10) (js "1999-12-31") = js "99-12-31".
Proof.
  split.
  - apply (X17_unlabelled_date_is_read_day_first (newDate 2024 2 10) (newDate 2024 2 9)).
    vm_compute. split; discriminate.
  - apply (X17_unlabelled_date_is_read_day_first (newDate 2024 2 10) (newDate 1999 11 31)).
    vm_compute. split; discriminate.
Defined.

(** *** Explicit dates in a message *)

Lemma digit_alike_datePattern0 a :
  isDigit a = true ->
  alike (flagI Config.datePattern0) (source Config.datePattern0) a 48 = true.
Proof.
  intros H. apply isDigit_cases in H.
  repeat (destruct H as [-> | H]; [vm_compute; reflexivity |]).
  subst a. vm_compute. reflexivity.
Qed.

Ltac digits_of D :=
  cbn [forallb] in D;
  repeat (let Hd := fresh "Dg" in
          apply andb_true_iff in D; destruct D as [Hd D]).

Lemma explicit_date_full today p1 p2 q1 q2 a b c e :
  forallb isDigit [p1; p2; q1; q2; a; b; c; e] = true ->
  TextProcessing.extractDateFromText today
    (js "el " ++ [p1; p2] ++ js "/" ++ [q1; q2] ++ js "/" ++ [a; b; c; e])
  = TextProcessing.dashed
      (stringOfNumber
         (TextProcessing.adjustYear (Some (Z.of_N (readDigits [a; b; c; e] 0)))))
      (TextProcessing.pad2 (Some (Z.of_N (readDigits [q1; q2] 0))))
      (TextProcessing.pad2 (Some (Z.of_N (readDigits [p1; p2] 0)))).
Proof.
  intros D. digits_of D.
  set (text := js "el " ++ [p1; p2] ++ js "/" ++ [q1; q2] ++ js "/" ++ [a; b; c; e]).
  assert (T : onTemplate (dayMonthTemplate ++ [Some 47%N; None; None; None; None]) text)
    by on_template.
  unfold TextProcessing.extractDateFromText.
  rewrite (exec_template _ _ _ digit_alike_datePattern0 T).
  replace (spans Config.datePattern0
             (zeros (dayMonthTemplate ++ [Some 47%N; None; None; None; None])))
    with (Some (0, 13, [Some (3, 5); Some (6, 8); Some (9, 13)]))
    by (vm_compute; reflexivity).
  cbn [option_map].
  set (m := cut text (0, 13, [Some (3, 5); Some (6, 8); Some (9, 13)])).
  change (groupString m 1) with [p1; p2].
  change (groupString m 2) with [q1; q2].
  change (groupString m 3) with [a; b; c; e].
  change (truthy (matchGroup m 3)) with true. cbn iota.
  rewrite !parseInt10_digits by assumption. reflexivity.
Qed.

Lemma explicit_date_short today p1 p2 q1 q2 c e :
  forallb isDigit [p1; p2; q1; q2; c; e] = true ->
  TextProcessing.extractDateFromText today
    (js "el " ++ [p1; p2] ++ js "/" ++ [q1; q2] ++ js "/" ++ [c; e])
  = TextProcessing.dashed
      (stringOfNumber
         (TextProcessing.adjustYear (Some (Z.of_N (readDigits [c; e] 0)))))
      (TextProcessing.pad2 (Some (Z.of_N (readDigits [q1; q2] 0))))
      (TextProcessing.pad2 (Some (Z.of_N (readDigits [p1; p2] 0)))).
Proof.
  intros D. digits_of D.
  set (text := js "el " ++ [p1; p2] ++ js "/" ++ [q1; q2] ++ js "/" ++ [c; e]).
  assert (T : onTemplate (dayMonthTemplate ++ [Some 47%N; None; None]) text)
    by on_template.
  unfold TextProcessing.extractDateFromText.
  rewrite (exec_template _ _ _ digit_alike_datePattern0 T).
  replace (spans Config.datePattern0 (zeros (dayMonthTemplate ++ [Some 47%N; None; None])))
    with (Some (0, 11, [Some (3, 5); Some (6, 8); Some (9, 11)]))
    by (vm_compute; reflexivity).
  cbn [option_map].
  set (m := cut text (0, 11, [Some (3, 5); Some (6, 8); Some (9, 11)])).
  change (groupString m 1) with [p1; p2].
  change (groupString m 2) with [q1; q2].
  change (groupString m 3) with [c; e].
  change (truthy (matchGroup m 3)) with true. cbn iota.
  rewrite !parseInt10_digits by assumption. reflexivity.
Qed.

Lemma explicit_date_yearless today p1 p2 q1 q2 :
  forallb isDigit [p1; p2; q1; q2] = true ->
  TextProcessing.extractDateFromText today (js "el " ++ [p1; p2] ++ js "/" ++ [q1; q2])
  = TextProcessing.dashed
      (stringOfNumber (TextProcessing.adjustYear (Some (getFullYear today))))
      (TextProcessing.pad2 (Some (Z.of_N (readDigits [q1; q2] 0))))
      (TextProcessing.pad2 (Some (Z.of_N (readDigits [p1; p2] 0)))).
Proof.
  intros D. digits_of D.
  set (text := js "el " ++ [p1; p2] ++ js "/" ++ [q1; q2]).
  assert (T : onTemplate dayMonthTemplate text) by on_template.
  unfold TextProcessing.extractDateFromText.
  rewrite (exec_template _ _ _ digit_alike_datePattern0 T).
  replace (spans Config.datePattern0 (zeros dayMonthTemplate))
    with (Some (0, 8, [Some (3, 5); Some (6, 8); @None (nat * nat)]))
    by (vm_compute; reflexivity).
  cbn [option_map].
  set (m := cut text (0, 8, [Some (3, 5); Some (6, 8); None])).
  change (groupString m 1) with [p1; p2].
  change (groupString m 2) with [q1; q2].
  change (truthy (matchGroup m 3)) with false. cbn iota.
  rewrite !parseInt10_digits by assumption. reflexivity.
Qed.

Lemma pad2_digits v :
  (0 <= v <= 99)%Z ->
  exists p q, TextProcessing.pad2 (Some v) = [p; q] /\ isDigit p = true /\
              isDigit q = true /\ Z.of_N (readDigits [p; q] 0) = v.
Proof.
  intros Hv. destruct (pad2_small v Hv) as [T R].
  destruct (twoDigits_inv _ T) as [p [q [E [Dp Dq]]]].
  exists p, q. rewrite E in R. rewrite R, Z2N.id by lia. auto.
Qed.

(** X18.  An explicit date is read as day, month, year and copied without
    validation: for every day and month from 0 to 99 written with two
    digits after the word el, a four-digit year gives that year, a two-digit
    year gives 2000 plus it below 50 and 1900 plus it from 50 on, and a date
    without a year gets the year of the processing date. *)
Theorem X18_explicit_date_is_read_day_month_year :
  forall (today : Date) (dd mm : Z),
    (0 <= dd <= 99)%Z -> (0 <= mm <= 99)%Z ->
    let day := TextProcessing.pad2 (Some dd) in
    let month := TextProcessing.pad2 (Some mm) in
    (forall y, (1000 <= y <= 9999)%Z ->
       TextProcessing.extractDateFromText today
         (js "el " ++ day ++ js "/" ++ month ++ js "/" ++ stringOfNumber (Some y))
       = ymdString (y, mm, dd)) /\
    (forall yy, (0 <= yy <= 99)%Z ->
       TextProcessing.extractDateFromText today
         (js "el " ++ day ++ js "/" ++ month ++ js "/" ++ TextProcessing.pad2 (Some yy))
       = ymdString ((if yy <? 50 then 2000 + yy else 1900 + yy)%Z, mm, dd)) /\
    ((100 <= getFullYear today)%Z ->
       TextProcessing.extractDateFromText today (js "el " ++ day ++ js "/" ++ month)
       = ymdString (getFullYear today, mm, dd)).
Proof.
  intros today dd mm Hd Hm. cbn zeta.
  destruct (pad2_digits dd Hd) as [p1 [p2 [Ed [Dp1 [Dp2 Rd]]]]].
  destruct (pad2_digits mm Hm) as [q1 [q2 [Em [Dq1 [Dq2 Rm]]]]].
  unfold ymdString. rewrite Ed, Em. split; [| split].
  - intros y Hy.
    destruct (year_text y Hy) as [a [b [c [e [Ey [Dy [Ry _]]]]]]].
    rewrite Ey at 1. rewrite explicit_date_full
      by (cbn [forallb] in *; rewrite Dp1, Dp2, Dq1, Dq2; exact Dy).
    rewrite Rd, Rm, Ry, Z2N.id by lia. unfold TextProcessing.adjustYear.
    destruct (Z.ltb_spec y 100); [lia |]. rewrite <- Ed, <- Em. reflexivity.
  - intros yy Hyy.
    destruct (pad2_digits yy Hyy) as [c [e [Ey [Dc [De Ry]]]]].
    rewrite Ey. rewrite explicit_date_short
      by (cbn [forallb]; rewrite Dp1, Dp2, Dq1, Dq2, Dc, De; reflexivity).
    rewrite Rd, Rm, Ry. unfold TextProcessing.adjustYear.
    destruct (Z.ltb_spec yy 100); [| lia]. rewrite <- Ed, <- Em.
    destruct (yy <? 50)%Z; rewrite Z.add_comm; reflexivity.
  - intros Hy. rewrite explicit_date_yearless
      by (cbn [forallb]; rewrite Dp1, Dp2, Dq1, Dq2; reflexivity).
    rewrite Rd, Rm. unfold TextProcessing.adjustYear.
    destruct (Z.ltb_spec (getFullYear today) 100); [lia |]. rewrite <- Ed, <- Em.
    reflexivity.
Qed.

Lemma X18_witness :
  TextProcessing.extractDateFromText (newDate 2024 2 10) (js "el 05/03/2023")
  = js "2023-03-05" /\
  TextProcessing.extractDateFromText (newDate 2024 2 10) (js "el 31/02/99")
  = js "1999-02-31" /\
  TextProcessing.extractDateFromText (newDate 2024 2 10) (js "el 05/03") = js "2024-03-05".
Proof.
  destruct (X18_explicit_date_is_read_day_month_year (newDate 2024 2 10) 5 3
              ltac:(lia) ltac:(lia)) as [A [_ C]].
  destruct (X18_explicit_date_is_read_day_month_year (newDate 2024 2 10) 31 2
              ltac:(lia) ltac:(lia)) as [_ [B _]].
  split; [apply (A 2023%Z); lia | split; [apply (B 99%Z); lia | apply C]].
  vm_compute. discriminate.
Defined.

(** ** Reminders of fixed expenses *)

Section Reminders.

Local Open Scope Z_scope.

Lemma month_end_cases leap m :
  leap = 0 \/ leap = 1 -> 0 <= m <= 11 ->
  let w := (if m =? 11 then 365 + leap else monthStart leap (m + 1)) - 1 in
  0 <= w < 365 + leap /\ monthOf leap w = m /\
  w - monthStart leap m + 1
  = (if m + 1 =? 2 then 28 + leap
     else if (m + 1 =? 4) || (m + 1 =? 6) || (m + 1 =? 9) || (m + 1 =? 11) then 30
     else 31).
Proof.
  intros Hl Hm.
  assert (C : m = 0 \/ m = 1 \/ m = 2 \/ m = 3 \/ m = 4 \/ m = 5 \/ m = 6 \/ m = 7
              \/ m = 8 \/ m = 9 \/ m = 10 \/ m = 11) by lia.
  destruct Hl as [-> | ->];
    repeat (destruct C as [-> | C]; [cbn; repeat split; try reflexivity; lia |]);
    subst m; cbn; repeat split; try reflexivity; lia.
Qed.

Lemma daysInMonth_leap y m :
  daysInMonth y m
  = (if m =? 2 then 28 + InLeapYearOf y
     else if (m =? 4) || (m =? 6) || (m =? 9) || (m =? 11) then 30
     else 31).
Proof.
  rewrite InLeapYearOf_isLeapYear. unfold daysInMonth.
  destruct (m =? 2); [destruct (isLeapYear y); reflexivity | reflexivity].
Qed.

(** The day before the first of the month after that of day [t] lies in
    the month of [t], and is its last day. *)
Lemma end_of_month t :
  let y := YearFromDay t in
  let m := MonthFromDay t in
  let l := MakeDay y (m + 1) 0 in
  YearFromDay l = y /\ MonthFromDay l = m /\
  DateFromDay l = daysInMonth y (m + 1) /\
  l = t - DateFromDay t + DateFromDay l.
Proof.
  cbn zeta. set (y := YearFromDay t).
  pose proof (InLeapYearOf_range y) as L.
  pose proof (monthOf_range (InLeapYearOf y) (DayWithinYear t)) as M.
  pose proof (DayFromYear_next y) as N. rewrite DaysInYear_leap in N.
  unfold MonthFromDay. fold y. set (m := monthOf (InLeapYearOf y) (DayWithinYear t)) in *.
  assert (Hl : MakeDay y (m + 1) 0 - DayFromYear y
               = (if m =? 11 then 365 + InLeapYearOf y
                  else monthStart (InLeapYearOf y) (m + 1)) - 1).
  { unfold MakeDay. destruct (Z.eqb_spec m 11) as [E | E].
    - rewrite E. change ((11 + 1) / 12) with 1. change ((11 + 1) mod 12) with 0.
      rewrite N. change (monthStart (InLeapYearOf (y + 1)) 0) with 0. lia.
    - rewrite Z.div_small, Z.mod_small by lia. replace (y + 0) with y by lia. lia. }
  destruct (month_end_cases (InLeapYearOf y) m ltac:(lia) M) as [Hr [Hm Hlen]].
  rewrite <- Hl in Hr, Hm, Hlen. rewrite <- daysInMonth_leap in Hlen.
  set (l := MakeDay y (m + 1) 0) in *.
  assert (Hy : YearFromDay l = y) by (apply YearFromDay_unique; lia).
  assert (Hd : DayWithinYear l = l - DayFromYear y)
    by (unfold DayWithinYear; rewrite Hy; reflexivity).
  split; [exact Hy |]. unfold DateFromDay, MonthFromDay. rewrite Hy, Hd, Hm.
  split; [reflexivity |]. split; [exact Hlen |].
  fold y. fold m. unfold DayWithinYear. fold y. lia.
Qed.

Lemma MakeDay_date year month date :
  MakeDay year month date = MakeDay year month 0 + date.
Proof. unfold MakeDay. lia. Qed.

(** X19.  The fixed expenses that the report lists as upcoming are those
    whose next payment date (the payment day in the current month when it
    has not passed, in the next month otherwise, days beyond a month's end
    carried over as the runtime does) is today or within the next seven
    days; the last day of the month used for the count is the number of
    days of the current month.  The number of days that the reminder prints
    is that distance when the payment day has not passed, and is negative
    when it has. *)
Theorem X19_upcoming_is_the_next_payment_within_a_week :
  forall (today : Date) (db : Database.Document) (exp : Database.FixedExpense),
    ~ (0 <= getFullYear today <= 99) ->
    let p := Database.fe_fechaPago exp in
    let d := getDate today in
    let nextPayment :=
      MakeDay (getFullYear today)
              (if p <? d then getMonth today + 1 else getMonth today) p in
    (In exp (ReportController.upcomingExpenses today db) <->
     In exp (Database.fixedExpenses db) /\ 0 <= nextPayment - localDay today <= 7) /\
    getDate (newDateOfFields (getFullYear today) (getMonth today + 1) 0)
    = daysInMonth (getFullYear today) (getMonth today + 1) /\
    (d <= p -> ReportController.daysPrinted today exp = nextPayment - localDay today) /\
    (p < d -> ReportController.upcoming today exp = true ->
       ReportController.daysPrinted today exp < 0 <= nextPayment - localDay today).
Proof.
  intros today db exp Hy. cbn zeta.
  destruct (end_of_month (localDay today)) as [_ [_ [Hlast Hl]]]. cbn zeta in Hlast, Hl.
  fold (getFullYear today) in Hlast, Hl. fold (getMonth today) in Hlast, Hl.
  fold (getDate today) in Hl.
  pose proof (MakeDay_fields (localDay today)
                (Database.fe_fechaPago exp - getDate today)) as Hsame.
  fold (getFullYear today) in Hsame. fold (getMonth today) in Hsame.
  fold (getDate today) in Hsame.
  replace (getDate today + (Database.fe_fechaPago exp - getDate today))
    with (Database.fe_fechaPago exp) in Hsame by lia.
  pose proof (MakeDay_date (getFullYear today) (getMonth today + 1)
                           (Database.fe_fechaPago exp)) as Hnext.
  assert (G : getDate (newDateOfFields (getFullYear today) (getMonth today + 1) 0)
              = DateFromDay (MakeDay (getFullYear today) (getMonth today + 1) 0)).
  { unfold newDateOfFields, getDate. cbn [localDay].
    destruct (Z.leb_spec 0 (getFullYear today)); cbn [andb]; [| reflexivity].
    destruct (Z.leb_spec (getFullYear today) 99); [lia | reflexivity]. }
  assert (U : ReportController.upcoming today exp
              = (let delta :=
                   MakeDay (getFullYear today)
                     (if Database.fe_fechaPago exp <? getDate today
                      then getMonth today + 1 else getMonth today)
                     (Database.fe_fechaPago exp) - localDay today in
                 (0 <=? delta) && (delta <=? 7))).
  { unfold ReportController.upcoming. cbn zeta. rewrite G.
    destruct (Z.ltb_spec (Database.fe_fechaPago exp - getDate today) 0);
      destruct (Z.ltb_spec (Database.fe_fechaPago exp) (getDate today)); lia. }
  cbn zeta in U.
  split.
  { unfold ReportController.upcomingExpenses. rewrite filter_In, U.
    rewrite andb_true_iff, !Z.leb_le. reflexivity. }
  split; [rewrite G; exact Hlast |]. split.
  - intros Hle. unfold ReportController.daysPrinted.
    destruct (Z.ltb_spec (Database.fe_fechaPago exp) (getDate today)); lia.
  - intros Hlt Hup. rewrite U in Hup. unfold ReportController.daysPrinted.
    apply andb_true_iff in Hup. destruct Hup as [H0 _]. apply Z.leb_le in H0.
    destruct (Z.ltb_spec (Database.fe_fechaPago exp) (getDate today)); lia.
Qed.

Lemma X19_witness :
  In (Database.mkFixedExpense (js "Claude IA") 50000 (js "entretenimiento") 5)
     (ReportController.upcomingExpenses (newDate 2024 1 27)
        (Database.loadDatabase (Database.mkDisk None true))) /\
  getDate (newDateOfFields 2024 2 0) = 29 /\
  ReportController.daysPrinted (newDate 2024 1 27)
    (Database.mkFixedExpense (js "Claude IA") 50000 (js "entretenimiento") 5) < 0.
Proof.
  destruct (X19_upcoming_is_the_next_payment_within_a_week (newDate 2024 1 27)
              (Database.loadDatabase (Database.mkDisk None true))
              (Database.mkFixedExpense (js "Claude IA") 50000 (js "entretenimiento") 5))
    as [U [L [_ P]]].
  - vm_compute. intros [_ H]. apply H. reflexivity.
  - split; [| split; [exact L |]].
    + apply U. split; [vm_compute; tauto | vm_compute; split; discriminate].
    + apply P; vm_compute; reflexivity.
Defined.

End Reminders.
